(** * Backend-Demo: permission gate and appointment endpoints

    A shallow embedding of
      - [src/lib/permissions.ts]      (the role/resource/action table),
      - [src/middlewares.ts]          ([getUser], [checkForUser], [canAccessResource]),
      - [src/controllers/appointmentsController.ts] (schemas and handlers),
      - [src/routes/appointments.ts]  (the route registrations),
    followed by the properties of the specification that concern them.

    Handlers are functions from a [World] (the hosted database, with a
    journal of the queries it received) to a response and a new [World]. *)

From Stdlib Require Import ZArith String Ascii List Bool Lia Permutation.
From stdpp Require Import base option list gmap strings.
Import ListNotations.
Open Scope string_scope.

(** ** JavaScript values as the handlers see them *)

Module Js.

(** A JSON value found under a key of [req.body]; [JUndefined] is a key
    that is not there, [JObj] any object.  An array, which [typeof] calls an
    object too but Zod names apart in its messages, is not among the values
    modelled. *)
Inductive jsval : Type :=
| JUndefined
| JNull
| JBool (b : bool)
| JNum (n : Z)
| JStr (s : string)
| JObj.

(** [ToBoolean]: what [if (v)] and [!v] look at. *)
Definition truthy (v : jsval) : bool :=
  match v with
  | JUndefined | JNull => false
  | JBool b => b
  | JNum n => negb (n =? 0)%Z
  | JStr s => negb (s =? EmptyString)
  | JObj => true
  end.

(** [v === 'lit'] for a string literal. *)
Definition strict_eq_str (v : jsval) (lit : string) : bool :=
  match v with
  | JStr s => s =? lit
  | _ => false
  end.

(** [typeof]-like name used in Zod's default "invalid type" message. *)
Definition type_name (v : jsval) : string :=
  match v with
  | JUndefined => "undefined"
  | JNull => "null"
  | JBool _ => "boolean"
  | JNum _ => "number"
  | JStr _ => "string"
  | JObj => "object"
  end.

(** A value that is [undefined], [null] or present: the type
    [T | null | undefined] of a parsed optional, nullable field. *)
Inductive nullish (A : Type) : Type :=
| Absent
| Null
| Val (a : A).
Arguments Absent {A}.
Arguments Null {A}.
Arguments Val {A} a.

(** [x !== null] *)
Definition not_null {A} (x : nullish A) : bool :=
  match x with Null => false | _ => true end.

(** [x !== undefined] *)
Definition not_undefined {A} (x : nullish A) : bool :=
  match x with Absent => false | _ => true end.

(** [if (x)] for a nullish string. *)
Definition truthy_str (x : nullish string) : bool :=
  match x with Val s => negb (s =? EmptyString) | _ => false end.


(** [s.split(',')] *)
Fixpoint split_comma_from (cur s : string) : list string :=
  match s with
  | EmptyString => [cur]
  | String c rest =>
      if Ascii.eqb c ","%char
      then cur :: split_comma_from EmptyString rest
      else split_comma_from (cur +:+ String c EmptyString) rest
  end.

Definition split_comma (s : string) : list string := split_comma_from EmptyString s.

(** [s.split(sep)[1]]: the text between the first and the second
    occurrence of [sep], [None] ([undefined]) when [sep] does not occur. *)
Definition split_second (sep s : string) : option string :=
  match String.index 0 sep s with
  | None => None
  | Some i =>
      let start := i + String.length sep in
      let rest := substring start (String.length s - start) s in
      match String.index 0 sep rest with
      | None => Some rest
      | Some j => Some (substring 0 j rest)
      end
  end.

(** [arr.join('. ')] *)
Fixpoint join (sep : string) (l : list string) : string :=
  match l with
  | [] => EmptyString
  | [x] => x
  | x :: rest => x +:+ sep +:+ join sep rest
  end.

(** A [Date] is its time value, [None] for an Invalid Date (NaN). *)
Definition date := option Z.

(** [a > b] on two dates: a comparison with NaN is false. *)
Definition date_gt (a b : date) : bool :=
  match a, b with
  | Some x, Some y => (y <? x)%Z
  | _, _ => false
  end.

End Js.
Import Js.

(** ** The parts of the platform the controllers call into

    [uuid_ok] is the pattern behind [z.uuid()] / [z.string().uuid()],
    [datetime_ok] the one behind [z.string().datetime()], [Date_parse] is
    [new Date(s).getTime()].  ECMA-262 fixes [Date_parse] on the date-time
    string format only and leaves every other string to the engine, so the
    engine is a parameter of the development. *)

Class Runtime : Type := {
  uuid_ok : string -> bool;
  datetime_ok : string -> bool;
  Date_parse : string -> option Z
}.

(** ** The Zod checks the schemas are built from *)

Module Zod.

(** An issue carries its message; a check that follows runs only when no
    earlier issue aborts.  A string of the wrong format does not abort, a
    value of the wrong type (or outside an enum) does. *)
Record issue : Type := Issue { message : string; continue : bool }.

Definition aborted (l : list issue) : bool :=
  existsb (fun i => negb (continue i)) l.

Definition is_digit (c : ascii) : bool :=
  ((48 <=? nat_of_ascii c) && (nat_of_ascii c <=? 57))%nat.

Definition in_range (lo hi : ascii) (c : ascii) : bool :=
  ((nat_of_ascii lo <=? nat_of_ascii c) && (nat_of_ascii c <=? nat_of_ascii hi))%nat.

Fixpoint all_digits (s : string) : bool :=
  match s with
  | EmptyString => true
  | String c rest => is_digit c && all_digits rest
  end.

(** [(?:[01]\d|2[0-3])] *)
Definition hours (a b : ascii) : bool :=
  (in_range "0" "1" a && is_digit b) || (Ascii.eqb a "2" && in_range "0" "3" b).

(** [[0-5]\d] *)
Definition sixty (a b : ascii) : bool := in_range "0" "5" a && is_digit b.

(** The pattern of [z.iso.time()] with its default precision:
    [^(?:[01]\d|2[0-3]):[0-5]\d(?::[0-5]\d(?:\.\d+)?)?$],
    a time of day, with no date and no zone. *)
Definition iso_time (s : string) : bool :=
  match s with
  | String h1 (String h2 (String c1 (String m1 (String m2 rest)))) =>
      hours h1 h2 && Ascii.eqb c1 ":" && sixty m1 m2 &&
      match rest with
      | EmptyString => true
      | String c2 (String s1 (String s2 frac)) =>
          Ascii.eqb c2 ":" && sixty s1 s2 &&
          match frac with
          | EmptyString => true
          | String dot digits =>
              Ascii.eqb dot "." && negb (digits =? EmptyString) && all_digits digits
          end
      | _ => false
      end
  | _ => false
  end.

(** A string schema with a format: [z.uuid({message})], [z.iso.time({message})].
    The message given to the schema is used for every issue it raises. *)
Definition format (ok : string -> bool) (msg : string) (v : jsval) : list issue :=
  match v with
  | JStr s => if ok s then [] else [Issue msg true]
  | _ => [Issue msg false]
  end.

(** [z.string().fmt({message})]: the type issue has Zod's own message. *)
Definition string_format (ok : string -> bool) (msg : string) (v : jsval)
  : list issue :=
  match v with
  | JStr s => if ok s then [] else [Issue msg true]
  | _ => [Issue ("Invalid input: expected string, received " +:+ type_name v) false]
  end.

(** [.optional()], [.nullable()] *)
Definition optional (chk : jsval -> list issue) (v : jsval) : list issue :=
  match v with JUndefined => [] | _ => chk v end.

Definition nullable (chk : jsval -> list issue) (v : jsval) : list issue :=
  match v with JNull => [] | _ => chk v end.

(** [z.enum(values, {message})] *)
Definition enum (values : list string) (msg : string) (v : jsval) : list issue :=
  match v with
  | JStr s => if existsb (String.eqb s) values then [] else [Issue msg false]
  | _ => [Issue msg false]
  end.

(** [.refine(pred, {message})] as a check of the object: skipped once an
    earlier issue aborts. *)
Definition refine (earlier : list issue) (holds : bool) (msg : string)
  : list issue :=
  if aborted earlier then [] else if holds then [] else [Issue msg true].

(** The value of a parsed optional, nullable string field. *)
Definition nullish_string (v : jsval) : option (nullish string) :=
  match v with
  | JUndefined => Some Absent
  | JNull => Some Null
  | JStr s => Some (Val s)
  | _ => None
  end.

Definition required_string (v : jsval) : option string :=
  match v with JStr s => Some s | _ => None end.

Definition optional_string (v : jsval) : option (option string) :=
  match v with
  | JUndefined => Some None
  | JStr s => Some (Some s)
  | _ => None
  end.

(** [new Date(v)] for a field value: a string is parsed, the other
    primitives go through [ToNumber]. *)
Definition Date_of `{Runtime} (v : jsval) : date :=
  match v with
  | JStr s => Date_parse s
  | JNum n => Some n
  | JBool b => Some (if b then 1 else 0)%Z
  | JNull => Some 0%Z
  | JUndefined | JObj => None
  end.

End Zod.

(** ** src/lib/permissions.ts *)

Module Permissions.

(** The string unions [Resource] and [Action]. *)
Inductive Resource : Type :=
| R_business
| R_user
| R_waitlist_entry
| R_review
| R_service_group
| R_admin_user
| R_appointment
| R_product_order_item
| R_product_order
| R_product
| R_staff_recurring_availability
| R_staff_service_assignment.

Inductive Action : Type := A_create | A_delete | A_update | A_view.

#[global] Instance Resource_eq_dec : EqDecision Resource.
Proof. solve_decision. Defined.

#[global] Instance Action_eq_dec : EqDecision Action.
Proof. solve_decision. Defined.

Definition ALL_RESOURCES : list Resource :=
  [ R_business; R_user; R_waitlist_entry; R_review; R_service_group;
    R_admin_user; R_appointment; R_product_order_item; R_product_order;
    R_product; R_staff_recurring_availability; R_staff_service_assignment ].

Definition ALL_ACTIONS : list Action := [A_create; A_delete; A_update; A_view].

(** [Partial<Record<Resource, Action[]>>]: [None] is a key that is not set. *)
Abbreviation PermissionsMap := (Resource -> option (list Action)).

(** [pm[resource] = actions] *)
Definition assign (pm : PermissionsMap) (resource : Resource) (actions : list Action)
  : PermissionsMap :=
  fun r => if decide (r = resource) then Some actions else pm r.

(** [for (const resource of ALL_RESOURCES) permissionStatements[resource] = ALL_ACTIONS] *)
Definition permissionStatements : PermissionsMap :=
  fold_left (fun pm resource => assign pm resource ALL_ACTIONS)
            ALL_RESOURCES (fun _ => None).

Definition businessOwnerPermissions : PermissionsMap := fun r =>
  match r with
  | R_business => Some [A_view; A_create; A_update; A_delete]
  | R_user => Some [A_update; A_view; A_create]
  | R_waitlist_entry => Some [A_view; A_create; A_update; A_delete]
  | R_review => Some [A_view]
  | R_service_group => Some [A_view; A_create; A_update; A_delete]
  | R_appointment => Some [A_view; A_create; A_update; A_delete]
  | R_product_order_item => Some [A_view; A_create; A_update; A_delete]
  | R_product_order => Some [A_view; A_create; A_update; A_delete]
  | R_product => Some [A_view; A_create; A_update; A_delete]
  | R_staff_recurring_availability => Some [A_view; A_create; A_update; A_delete]
  | R_staff_service_assignment => Some [A_view; A_create; A_update; A_delete]
  | R_admin_user => None
  end.

Definition businessStaffPermissions : PermissionsMap := fun r =>
  match r with
  | R_user => Some [A_update; A_view; A_create]
  | R_business => Some [A_view; A_update]
  | R_product => Some [A_view; A_create; A_update; A_delete]
  | R_product_order_item => Some [A_view; A_delete]
  | R_product_order => Some [A_view; A_delete]
  | R_staff_recurring_availability => Some [A_view; A_create; A_update; A_delete]
  | R_staff_service_assignment => Some [A_view; A_create; A_update; A_delete]
  | _ => None
  end.

Definition customerPermissions : PermissionsMap := fun r =>
  match r with
  | R_business => Some [A_view]
  | R_appointment => Some [A_view; A_create; A_delete; A_update]
  | R_review => Some [A_view; A_create; A_update; A_delete]
  | R_product_order_item => Some [A_view; A_create; A_update; A_delete]
  | R_product_order => Some [A_view; A_create; A_update; A_delete]
  | R_product => Some [A_view]
  | R_user => Some [A_update; A_view; A_create]
  | _ => None
  end.

(** [ALL_PERMISSIONS: { [role: string]: PermissionsMap }].  A name that
    the object inherits rather than owns (such as [constructor]) reads as
    a value that has none of the resource names as a property; the gate
    treats it as it treats a missing role, and it is a missing key here. *)
Definition ALL_PERMISSIONS : gmap string PermissionsMap :=
  <["admin" := permissionStatements]>
  (<["businessOwner" := businessOwnerPermissions]>
  (<["businessStaff" := businessStaffPermissions]>
  (<["customer" := customerPermissions]> ∅))).

(** [arr.includes(action)] *)
Definition includes (actions : list Action) (action : Action) : bool :=
  existsb (fun a => bool_decide (a = action)) actions.

End Permissions.

(** ** The hosted database and identity service ([src/client.ts]) *)

Module Supabase.

Record PostgrestError : Type := { code : string; details : string }.

(** What a query resolves to: [{ data, error }] with exactly one set. *)
Inductive result (A : Type) : Type :=
| Data (data : A)
| Error (error : PostgrestError).
Arguments Data {A} data.
Arguments Error {A} error.

Inductive Status : Type := pending | confirmed | cancelled | completed.

#[global] Instance Status_eq_dec : EqDecision Status.
Proof. solve_decision. Defined.

Definition Status_of_string (s : string) : option Status :=
  if s =? "pending" then Some pending
  else if s =? "confirmed" then Some confirmed
  else if s =? "cancelled" then Some cancelled
  else if s =? "completed" then Some completed
  else None.

Definition Status_to_string (s : Status) : string :=
  match s with
  | pending => "pending"
  | confirmed => "confirmed"
  | cancelled => "cancelled"
  | completed => "completed"
  end.

(** [interface Appointment] *)
Record Appointment : Type := {
  id : string;
  business_id : string;
  service_id : string;
  user_id : option string;
  staff_user_id : option string;
  business_customer_id : option string;
  start_time : string;
  end_time : string;
  status : Status;
  created_at : string;
  updated_at : string
}.

(** The requests the controllers send. *)
Inductive Query : Type :=
| SelectBusiness (id : string)
| SelectService (id business : string)
| SelectProfile (id : string)
| SelectBusinessCustomer (id business : string)
| InsertAppointment (payload : gmap string jsval)
| UpdateAppointment (id : string) (patch : gmap string jsval)
| DeleteAppointment (id : string)
| SelectBusinessAppointments (business : string) (search : option string).

(** The user of a session, as far as the middlewares read it. *)
Record User : Type := { uid : string; role : option string }.

(** [apiClient.getSession(token)] resolves to [{ user, error }]. *)
Record Session : Type := { user : option User; error : bool }.

(** Everything outside the process: the tables (keyed by primary key),
    the errors the service reports on its own account ([reports]: an
    outage, a constraint, a value it cannot store), its answer to the
    joined listing of a business ([listing], which reads tables that are
    not modelled), the identifier and the time it gives to the next new
    row (one insert is followed; the identifier after it is not modelled),
    the sessions it knows, the clock of the server, and the journal of the
    queries received so far (latest first). *)
Record World : Type := {
  businesses : gset string;
  services : gmap string string;
  profiles : gset string;
  business_customers : gmap string string;
  appointments : gmap string Appointment;
  reports : Query -> option PostgrestError;
  listing : string -> option string -> list Appointment;
  new_id : string;
  db_now : string;
  sessions : string -> Session;
  clock : string;
  journal : list Query
}.

Definition received (q : Query) (w : World) : World :=
  {| businesses := businesses w; services := services w; profiles := profiles w;
     business_customers := business_customers w; appointments := appointments w;
     reports := reports w; listing := listing w;
     new_id := new_id w; db_now := db_now w;
     sessions := sessions w; clock := clock w;
     journal := q :: journal w |}.

Definition with_appointments (t : gmap string Appointment) (w : World) : World :=
  {| businesses := businesses w; services := services w; profiles := profiles w;
     business_customers := business_customers w; appointments := t;
     reports := reports w; listing := listing w;
     new_id := new_id w; db_now := db_now w;
     sessions := sessions w; clock := clock w;
     journal := journal w |}.

(** [.single()] found no row (or more than one). *)
Definition PGRST116 : PostgrestError :=
  {| code := "PGRST116"; details := "JSON object requested, multiple (or no) rows returned" |}.

(** The value cannot be stored in its column. *)
Definition invalid_input : PostgrestError :=
  {| code := "22P02"; details := "invalid input syntax" |}.

(** The key names no column of the table. *)
Definition unknown_column : PostgrestError :=
  {| code := "PGRST204"; details := "column not found" |}.

Definition duplicate_key : PostgrestError :=
  {| code := "23505"; details := "duplicate key value violates unique constraint" |}.

(** The state monad of a handler. *)
Definition M (A : Type) : Type := World -> A * World.

Definition ret {A} (a : A) : M A := fun w => (a, w).

Definition bind {A B} (m : M A) (k : A -> M B) : M B :=
  fun w => let '(a, w') := m w in k a w'.

(** A query is journalled, then either the service reports an error of
    its own or the tables answer. *)
Definition ask {A} (q : Query) (answer : World -> result A * World) : M (result A) :=
  fun w =>
    let w1 := received q w in
    match reports w q with
    | Some e => (Error e, w1)
    | None => answer w1
    end.

Definition one_row (found : bool) : result unit :=
  if found then Data tt else Error PGRST116.

(** [from('businesses').select('id').eq('id', id).single()] *)
Definition select_business (id : string) : M (result unit) :=
  ask (SelectBusiness id)
      (fun w => (one_row (bool_decide (id ∈ businesses w)), w)).

(** [from('services').select('id').eq('id', id).eq('business_id', b).single()] *)
Definition select_service (id b : string) : M (result unit) :=
  ask (SelectService id b)
      (fun w => (one_row (bool_decide (services w !! id = Some b)), w)).

(** [from('profiles').select('id').eq('id', id).single()] *)
Definition select_profile (id : string) : M (result unit) :=
  ask (SelectProfile id)
      (fun w => (one_row (bool_decide (id ∈ profiles w)), w)).

(** [from('business_customers').select('id').eq('id', id).eq('business_id', b).single()] *)
Definition select_business_customer (id b : string) : M (result unit) :=
  ask (SelectBusinessCustomer id b)
      (fun w => (one_row (bool_decide (business_customers w !! id = Some b)), w)).

(** Writing a JSON value to a column; [None] when the column cannot take it. *)
Definition text_column (v : option jsval) (old : option string) : option string :=
  match v with
  | None => old
  | Some (JStr s) => Some s
  | Some _ => None
  end.

Definition ref_column (v : option jsval) (old : option string)
  : option (option string) :=
  match v with
  | None => Some old
  | Some JNull => Some None
  | Some (JStr s) => Some (Some s)
  | Some _ => None
  end.

Definition status_column (v : option jsval) (old : option Status) : option Status :=
  match v with
  | None => old
  | Some (JStr s) => Status_of_string s
  | Some _ => None
  end.

Definition columns : list string :=
  [ "id"; "business_id"; "service_id"; "user_id"; "staff_user_id";
    "business_customer_id"; "start_time"; "end_time"; "status";
    "created_at"; "updated_at" ].

Definition known_columns (o : gmap string jsval) : bool :=
  bool_decide (map_Forall (fun k _ => k ∈ columns) o).

(** The row an object of column values describes: [old] gives the values
    of the columns it does not set (the stored row on update, the column
    defaults on insert, [None] where the column has no default). *)
Definition write_row (o : gmap string jsval)
    (old_id old_business old_service : option string)
    (old_user old_staff old_customer : option string)
    (old_start old_end : option string) (old_status : option Status)
    (old_created old_updated : option string) : option Appointment :=
  i ← text_column (o !! "id") old_id;
  b ← text_column (o !! "business_id") old_business;
  s ← text_column (o !! "service_id") old_service;
  u ← ref_column (o !! "user_id") old_user;
  f ← ref_column (o !! "staff_user_id") old_staff;
  c ← ref_column (o !! "business_customer_id") old_customer;
  st ← text_column (o !! "start_time") old_start;
  en ← text_column (o !! "end_time") old_end;
  sta ← status_column (o !! "status") old_status;
  cr ← text_column (o !! "created_at") old_created;
  up ← text_column (o !! "updated_at") old_updated;
  Some {| id := i; business_id := b; service_id := s; user_id := u;
          staff_user_id := f; business_customer_id := c; start_time := st;
          end_time := en; status := sta; created_at := cr; updated_at := up |}.

Definition patched (a : Appointment) (patch : gmap string jsval) : option Appointment :=
  write_row patch (Some (id a)) (Some (business_id a)) (Some (service_id a))
            (user_id a) (staff_user_id a) (business_customer_id a)
            (Some (start_time a)) (Some (end_time a)) (Some (status a))
            (Some (created_at a)) (Some (updated_at a)).

Definition inserted (w : World) (payload : gmap string jsval) : option Appointment :=
  write_row payload (Some (new_id w)) None None None None None None None
            None (Some (db_now w)) (Some (db_now w)).

(** [from('appointments').insert([payload]).select().single()] *)
Definition insert_appointment (payload : gmap string jsval) : M (result Appointment) :=
  ask (InsertAppointment payload)
      (fun w =>
         if known_columns payload then
           match inserted w payload with
           | Some a =>
               match appointments w !! id a with
               | Some _ => (Error duplicate_key, w)
               | None => (Data a, with_appointments (<[id a := a]> (appointments w)) w)
               end
           | None => (Error invalid_input, w)
           end
         else (Error unknown_column, w)).

(** [from('appointments').update(patch).eq('id', id).select().single()] *)
Definition update_appointment (i : string) (patch : gmap string jsval)
  : M (result Appointment) :=
  ask (UpdateAppointment i patch)
      (fun w =>
         if known_columns patch then
           match appointments w !! i with
           | None => (Error PGRST116, w)
           | Some a =>
               match patched a patch with
               | Some a' =>
                   if bool_decide (id a' = i) then
                     (Data a', with_appointments (<[i := a']> (appointments w)) w)
                   else
                     match appointments w !! id a' with
                     | Some _ => (Error duplicate_key, w)
                     | None =>
                         (Data a',
                          with_appointments
                            (<[id a' := a']> (base.delete i (appointments w))) w)
                     end
               | None => (Error invalid_input, w)
               end
           end
         else (Error unknown_column, w)).

(** [from('appointments').delete().eq('id', id)]: no row to delete is not
    an error. *)
Definition delete_appointment (i : string) : M (result unit) :=
  ask (DeleteAppointment i)
      (fun w => (Data tt, with_appointments (base.delete i (appointments w)) w)).

(** The joined, ordered, optionally filtered [select] of
    [getBusinessAppointments]. *)
Definition select_business_appointments (b : string) (search : option string)
  : M (result (list Appointment)) :=
  ask (SelectBusinessAppointments b search)
      (fun w => (Data (listing w b search), w)).

(** [new Date().toISOString()] *)
Definition now : M string := fun w => (clock w, w).

#[global] Instance M_ret : MRet M := @ret.
#[global] Instance M_bind : MBind M := fun A B k m => bind m k.

End Supabase.

(** ** Requests, responses and the middleware chain (Express) *)

Module Http.
Import Supabase.

(** The methods the appointment routes are registered for.  HEAD, which
    Express hands to the route of a GET, and OPTIONS, which [cors] answers
    before any router, are not modelled. *)
Inductive Method : Type := GET | POST | PUT | DELETE | PATCH.

#[global] Instance Method_eq_dec : EqDecision Method.
Proof. solve_decision. Defined.

(** [req]: the path is split at [/]; [params] is filled by the router and
    [user] by [getUser]. *)
Record Request : Type := {
  method : Method;
  path : list string;
  authorization : option string;
  query : gmap string jsval;
  body : gmap string jsval;
  params : gmap string string;
  user : option User
}.

Definition with_user (u : option User) (req : Request) : Request :=
  {| method := method req; path := path req; authorization := authorization req;
     query := query req; body := body req; params := params req; user := u |}.

Definition with_params (p : gmap string string) (req : Request) : Request :=
  {| method := method req; path := path req; authorization := authorization req;
     query := query req; body := body req; params := p; user := user req |}.

(** [o.key] on an object: [undefined] when the key is not there. *)
Definition get (o : gmap string jsval) (key : string) : jsval :=
  default JUndefined (o !! key).

(** [req.params.name] on a route that declares [:name]. *)
Definition param (req : Request) (name : string) : string :=
  default EmptyString (params req !! name).

(** What [res.status(n).json(...)] and [res.sendStatus(n)] send. *)
Inductive Json : Type :=
| error_body (error : string)
| errors_body (errors : list string)
| data_body (data : Appointment)
| rows_body (data : list Appointment)
| no_body.

Record Response : Type := { status_code : nat; json : Json }.

Definition respond (n : nat) (j : Json) : Response :=
  {| status_code := n; json := j |}.

(** How a middleware ends: it calls [next()], it sends a response, or it
    throws before doing either. *)
Inductive Outcome : Type :=
| Next (req : Request)
| Respond (res : Response)
| Throw.

(** How a request ends. *)
Inductive Reply : Type :=
| Sent (res : Response)
| Unanswered.

End Http.

(** ** src/middlewares.ts *)

Module Middlewares.
Import Supabase Http Permissions.

(** [getUser]: [inr req'] is [true] with [req.user] set, [inl res] is
    [false] after [res] was sent. *)
Definition getUser (req : Request) (w : World) : Response + Request :=
  let token :=
    match authorization req with
    | Some h => split_second "Bearer " h
    | None => None
    end in
  match token with
  | None => inl (respond 401 (error_body "Unauthorized"))
  | Some t =>
      if t =? EmptyString then inl (respond 401 (error_body "Unauthorized"))
      else
        let s := sessions w t in
        if Supabase.error s then inl (respond 401 (error_body "Unauthorized"))
        else inr (with_user (Supabase.user s) req)
  end.

Definition checkForUser (req : Request) (w : World) : Outcome :=
  match getUser req w with
  | inl res => Respond res
  | inr req' => Next req'
  end.

(** The [for (const role of userRoles)] loop with its [break]: the value
    of [hasPermission] when the loop is left. *)
Fixpoint hasPermission (userRoles : list string) (resource : Resource)
    (action : Action) : bool :=
  match userRoles with
  | [] => false
  | role :: rest =>
      match ALL_PERMISSIONS !! role with
      | Some permissionsForRole =>
          match permissionsForRole resource with
          | Some allowedActionsForResource =>
              if includes allowedActionsForResource action then true
              else hasPermission rest resource action
          | None => hasPermission rest resource action
          end
      | None => hasPermission rest resource action
      end
  end.

Definition forbidden : Response :=
  respond 403 (errors_body ["You are not authorized to do this"]).

Definition canAccessResource (resource : Resource) (action : Action)
    (req : Request) (w : World) : Outcome :=
  match getUser req w with
  | inl res => Respond res
  | inr req' =>
      match Http.user req' with
      | None => Throw
      | Some u =>
          match role u with
          | None => Respond forbidden
          | Some r =>
              if r =? EmptyString then Respond forbidden
              else if hasPermission (split_comma r) resource action
              then Next req'
              else Respond forbidden
          end
      end
  end.

(** The members of the exported object that guard a route. *)
Inductive Middleware : Type :=
| CheckForUser
| CanAccessResource (resource : Resource) (action : Action).

Definition run_middleware (m : Middleware) : Request -> World -> Outcome :=
  match m with
  | CheckForUser => checkForUser
  | CanAccessResource resource action => canAccessResource resource action
  end.

Definition unknownEndpoint : Response :=
  respond 404 (errors_body ["Unknown endpoint"]).

End Middlewares.

(** ** src/controllers/appointmentsController.ts *)

Module AppointmentsController.
Import Supabase Http Zod.

(** The output type of [CreateAppointmentSchema]. *)
Record CreateData : Type := {
  service_id : string;
  user_id : nullish string;
  staff_user_id : nullish string;
  business_customer_id : nullish string;
  start_time : string;
  end_time : string;
  status : Status
}.

Inductive SafeParse (A : Type) : Type :=
| Success (data : A)
| Failure (issues : list issue).
Arguments Success {A} data.
Arguments Failure {A} issues.

Definition status_message : string :=
  "Status must be one of 'pending', 'confirmed', 'cancelled', 'completed'.".

(** [AppointmentStatusSchema] *)
Definition AppointmentStatusSchema : jsval -> list issue :=
  enum ["pending"; "confirmed"; "cancelled"; "completed"] status_message.

(** The value of [AppointmentStatusSchema.default('pending')]. *)
Definition status_or_default (v : jsval) : option Status :=
  match v with
  | JUndefined => Some pending
  | JStr s => Status_of_string s
  | _ => None
  end.

(** The first refinement of [CreateAppointmentSchema]. *)
Definition either_customer (data : CreateData) : bool :=
  not_null (user_id data) || not_null (business_customer_id data).

Section WithRuntime.
Context {rt : Runtime}.

(** The fields of [CreateAppointmentSchema], in the order of its shape. *)
Definition CreateAppointmentSchema_shape (o : gmap string jsval) : list issue :=
  format uuid_ok "Service ID must be a valid UUID." (get o "service_id")
  ++ optional (nullable (format uuid_ok "User ID must be a valid UUID."))
       (get o "user_id")
  ++ optional (nullable (format uuid_ok "Staff User ID must be a valid UUID."))
       (get o "staff_user_id")
  ++ optional (nullable (format uuid_ok "Business Customer ID must be a valid UUID."))
       (get o "business_customer_id")
  ++ format iso_time "Start time must be a valid ISO 8601 datetime string."
       (get o "start_time")
  ++ format iso_time "End time must be a valid ISO 8601 datetime string."
       (get o "end_time")
  ++ optional AppointmentStatusSchema (get o "status").

(** The object the refinements (and, on success, the handler) receive:
    it exists when every field has the type its schema expects. *)
Definition CreateAppointmentSchema_value (o : gmap string jsval)
  : option CreateData :=
  s ← required_string (get o "service_id");
  u ← nullish_string (get o "user_id");
  f ← nullish_string (get o "staff_user_id");
  c ← nullish_string (get o "business_customer_id");
  st ← required_string (get o "start_time");
  en ← required_string (get o "end_time");
  sta ← status_or_default (get o "status");
  Some {| service_id := s; user_id := u; staff_user_id := f;
          business_customer_id := c; start_time := st; end_time := en;
          status := sta |}.

(** The second refinement: [new Date(data.end_time) > new Date(data.start_time)]. *)
Definition end_after_start (data : CreateData) : bool :=
  date_gt (Date_parse (end_time data)) (Date_parse (start_time data)).

Definition CreateAppointmentSchema_issues (o : gmap string jsval) : list issue :=
  let shape := CreateAppointmentSchema_shape o in
  match CreateAppointmentSchema_value o with
  | Some data =>
      (shape
       ++ refine shape (either_customer data)
            "Either 'user_id' or 'business_customer_id' must be non-null."
       ++ refine shape (end_after_start data)
            "End time must be strictly greater than start time.")%list
  | None => shape
  end.

(** [CreateAppointmentSchema.safeParse(req.body)] *)
Definition CreateAppointmentSchema_safeParse (o : gmap string jsval)
  : SafeParse CreateData :=
  match CreateAppointmentSchema_issues o, CreateAppointmentSchema_value o with
  | [], Some data => Success data
  | issues, _ => Failure issues
  end.

(** The fields of [UpdateAppointmentSchema]. *)
Definition UpdateAppointmentSchema_keys : list string :=
  [ "service_id"; "user_id"; "staff_user_id"; "business_customer_id";
    "start_time"; "end_time"; "status" ].

Definition UpdateAppointmentSchema_shape (o : gmap string jsval) : list issue :=
  optional (string_format uuid_ok "Service ID must be a valid UUID.")
    (get o "service_id")
  ++ optional (nullable (string_format uuid_ok "User ID must be a valid UUID."))
       (get o "user_id")
  ++ optional (nullable (string_format uuid_ok "Staff User ID must be a valid UUID."))
       (get o "staff_user_id")
  ++ optional (nullable (string_format uuid_ok
                           "Business Customer ID must be a valid UUID."))
       (get o "business_customer_id")
  ++ optional (string_format datetime_ok
                 "Start time must be a valid ISO 8601 datetime string.")
       (get o "start_time")
  ++ optional (string_format datetime_ok
                 "End time must be a valid ISO 8601 datetime string.")
       (get o "end_time")
  ++ optional AppointmentStatusSchema (get o "status").

(** The parsed object keeps the schema's keys that the input has. *)
Definition pick (keys : list string) (o : gmap string jsval) : gmap string jsval :=
  foldr (fun k acc => match o !! k with
                      | Some v => <[k := v]> acc
                      | None => acc
                      end) ∅ keys.

(** [v !== undefined], [v !== null] on a field of the parsed object. *)
Definition defined (v : jsval) : bool :=
  match v with JUndefined => false | _ => true end.

Definition nonnull (v : jsval) : bool :=
  match v with JNull => false | _ => true end.

Definition update_either_customer (data : gmap string jsval) : bool :=
  if defined (get data "user_id") && defined (get data "business_customer_id")
  then nonnull (get data "user_id") || nonnull (get data "business_customer_id")
  else true.

Definition update_end_after_start (data : gmap string jsval) : bool :=
  if defined (get data "start_time") && defined (get data "end_time")
  then date_gt (Date_of (get data "end_time")) (Date_of (get data "start_time"))
  else true.

(** [UpdateAppointmentSchema.safeParse(req.body)] *)
Definition UpdateAppointmentSchema_safeParse (o : gmap string jsval)
  : SafeParse (gmap string jsval) :=
  let shape := UpdateAppointmentSchema_shape o in
  let data := pick UpdateAppointmentSchema_keys o in
  let issues :=
    (shape
     ++ refine shape (update_either_customer data)
          "If updating both, either 'user_id' or 'business_customer_id' must be non-null."
     ++ refine shape (update_end_after_start data)
          "End time must be strictly greater than start time if both are provided for update.")%list
  in
  match issues with
  | [] => Success data
  | _ => Failure issues
  end.

(** [parsedBody.error.issues.map(issue => issue.message).join('. ')] *)
Definition issues_message (issues : list issue) : string :=
  join ". " (map message issues).

(** [typeof search === 'string' && search] *)
Definition search_term (v : jsval) : option string :=
  match v with
  | JStr s => if s =? EmptyString then None else Some s
  | _ => None
  end.

Definition getBusinessAppointments (req : Request) : M Response :=
  let businessId := param req "businessId" in
  r ← select_business_appointments businessId (search_term (get (query req) "search"));
  match r with
  | Error e => mret (respond 500 (error_body (details e)))
  | Data rows => mret (respond 200 (rows_body rows))
  end.

(** A referential check: [if (err || !row) { res.status(..).json(..); return }]. *)
Definition must_exist (check : M (result unit)) (otherwise : Response)
    (rest : M Response) : M Response :=
  r ← check;
  match r with
  | Error _ => mret otherwise
  | Data _ => rest
  end.

(** The same check under [if (ref) { ... }]. *)
Definition when_given (ref : nullish string) (check : string -> M (result unit))
    (otherwise : Response) (rest : M Response) : M Response :=
  match ref with
  | Val r => if r =? EmptyString then rest else must_exist (check r) otherwise rest
  | _ => rest
  end.

(** A key whose value is [undefined] is not sent. *)
Definition put (key : string) (v : nullish string) (o : gmap string jsval)
  : gmap string jsval :=
  match v with
  | Absent => o
  | Null => <[key := JNull]> o
  | Val s => <[key := JStr s]> o
  end.

(** [const payload = { service_id, user_id, staff_user_id,
    business_id: businessId, business_customer_id, start_time, end_time,
    status }] *)
Definition create_payload (businessId : string) (data : CreateData)
  : gmap string jsval :=
  <["service_id" := JStr (service_id data)]>
  (put "user_id" (user_id data)
  (put "staff_user_id" (staff_user_id data)
  (<["business_id" := JStr businessId]>
  (put "business_customer_id" (business_customer_id data)
  (<["start_time" := JStr (start_time data)]>
  (<["end_time" := JStr (end_time data)]>
  (<["status" := JStr (Status_to_string (status data))]> ∅))))))).

(** [createAppointment] from the destructuring of [parsedBody.data] on:
    the four lookups, then the insert. *)
Definition createAppointment_parsed (businessId : string) (data : CreateData)
  : M Response :=
  must_exist (select_business businessId)
    (respond 404 (error_body "Business not found."))
  (must_exist (select_service (service_id data) businessId)
    (respond 400 (error_body "Service not found or does not belong to this business."))
  (when_given (user_id data) select_profile
    (respond 400 (error_body "User profile not found."))
  (when_given (business_customer_id data)
    (fun c => select_business_customer c businessId)
    (respond 400
       (error_body "Business-customer not found or does not belong to this business."))
  (r ← insert_appointment (create_payload businessId data);
   match r with
   | Error e => mret (respond 400 (error_body (details e)))
   | Data appointment => mret (respond 201 (data_body appointment))
   end)))).

Definition createAppointment (req : Request) : M Response :=
  let businessId := param req "businessId" in
  match CreateAppointmentSchema_safeParse (body req) with
  | Failure issues => mret (respond 400 (error_body (issues_message issues)))
  | Success data => createAppointment_parsed businessId data
  end.

Definition updateAppointment (req : Request) : M Response :=
  let id := param req "id" in
  match UpdateAppointmentSchema_safeParse (body req) with
  | Failure issues => mret (respond 400 (error_body (issues_message issues)))
  | Success updates =>
      t ← now;
      r ← update_appointment id (<["updated_at" := JStr t]> updates);
      match r with
      | Error e =>
          if code e =? "PGRST116"
          then mret (respond 404 (error_body "Appointment not found."))
          else mret (respond 400 (error_body (details e)))
      | Data appointment => mret (respond 200 (data_body appointment))
      end
  end.

Definition deleteAppointment (req : Request) : M Response :=
  let id := param req "id" in
  r ← delete_appointment id;
  match r with
  | Error e => mret (respond 500 (error_body (details e)))
  | Data _ => mret (respond 204 no_body)
  end.

(** The [switch (action)] of [updateAppointmentStatus]: the response of
    a branch that returns, or [updateData]. *)
Definition status_updateData (o : gmap string jsval)
  : Response + gmap string jsval :=
  let action := get o "action" in
  let payload := base.delete "action" o in
  if strict_eq_str action "approve" then
    inr (<["status" := JStr "confirmed"]> ∅)
  else if strict_eq_str action "cancel" then
    inr (<["status" := JStr "cancelled"]> ∅)
  else if strict_eq_str action "reschedule" then
    if negb (truthy (get payload "start_time")) || negb (truthy (get payload "end_time"))
    then inl (respond 400 (error_body "Missing start_time or end_time for reschedule"))
    else inr (<["start_time" := get payload "start_time"]>
              (<["end_time" := get payload "end_time"]>
              (<["status" := JStr "pending"]> ∅)))
  else
    inl (respond 400
           (error_body "Invalid action. Must be approve, cancel, or reschedule")).

Definition updateAppointmentStatus (req : Request) : M Response :=
  let id := param req "id" in
  match status_updateData (body req) with
  | inl res => mret res
  | inr updateData =>
      t ← now;
      r ← update_appointment id (<["updated_at" := JStr t]> updateData);
      match r with
      | Error e =>
          if code e =? "PGRST116"
          then mret (respond 404 (error_body "Appointment not found"))
          else mret (respond 400 (error_body (details e)))
      | Data data => mret (respond 200 (data_body data))
      end
  end.

End WithRuntime.

End AppointmentsController.

(** ** src/routes/appointments.ts *)

Module Routes.
Import Supabase Http Middlewares.

Inductive Segment : Type :=
| Lit (s : string)
| Param (name : string).

(** [router.METHOD(path, ...middlewares, handler)] *)
Record Route : Type := {
  route_method : Method;
  route_path : list Segment;
  route_middlewares : list Middleware;
  route_handler : Request -> M Response
}.

(** Matching a path against a pattern fills [req.params].  Segments are
    compared as they are written: Express also matches a path that differs
    in the case of its letters or ends with a slash, and such paths are not
    modelled. *)
Fixpoint match_path (pattern : list Segment) (p : list string)
    (acc : gmap string string) : option (gmap string string) :=
  match pattern, p with
  | [], [] => Some acc
  | Lit s :: pattern', x :: p' =>
      if s =? x then match_path pattern' p' acc else None
  | Param name :: pattern', x :: p' =>
      if x =? EmptyString then None else match_path pattern' p' (<[name := x]> acc)
  | _, _ => None
  end.

(** The handlers of a route in turn: each middleware either hands the
    request on or ends it. *)
Fixpoint run_chain (ms : list Middleware) (handler : Request -> M Response)
    (req : Request) (w : World) : Reply * World :=
  match ms with
  | [] => let '(res, w') := handler req w in (Sent res, w')
  | m :: rest =>
      match run_middleware m req w with
      | Next req' => run_chain rest handler req' w
      | Respond res => (Sent res, w)
      | Throw => (Unanswered, w)
      end
  end.

(** The first route whose method and path match takes the request; with
    none, the application's [unknownEndpoint] answers. *)
Fixpoint dispatch (routes : list Route) (req : Request) (w : World)
  : Reply * World :=
  match routes with
  | [] => (Sent unknownEndpoint, w)
  | r :: rest =>
      if bool_decide (route_method r = method req) then
        match match_path (route_path r) (path req) ∅ with
        | Some ps => run_chain (route_middlewares r) (route_handler r)
                               (with_params ps req) w
        | None => dispatch rest req w
        end
      else dispatch rest req w
  end.

Section WithRuntime.
Context {rt : Runtime}.
Import AppointmentsController.

Definition router : list Route :=
  [ {| route_method := GET;
       route_path := [Lit "businesses"; Param "businessId"; Lit "appointments"];
       route_middlewares := [];
       route_handler := getBusinessAppointments |};
    {| route_method := POST;
       route_path := [Lit "businesses"; Param "businessId"; Lit "appointments"];
       route_middlewares := [CheckForUser];
       route_handler := createAppointment |};
    {| route_method := PUT;
       route_path := [Lit "appointments"; Param "id"];
       route_middlewares := [CheckForUser];
       route_handler := updateAppointment |};
    {| route_method := DELETE;
       route_path := [Lit "appointments"; Param "id"];
       route_middlewares := [CheckForUser];
       route_handler := deleteAppointment |};
    {| route_method := PATCH;
       route_path := [Lit "appointments"; Param "id"; Lit "status"];
       route_middlewares := [CheckForUser];
       route_handler := updateAppointmentStatus |} ].

End WithRuntime.

End Routes.

(** ** The request logger's [censorPasswords] ([src/middlewares.ts])

    The handlers read the top-level keys of a body; the logger walks the
    whole value, so here a JSON value is a tree. *)

Module Censor.

(** A parsed JSON value; the fields of an object in the order of [for ... in]. *)
#[local] Unset Elimination Schemes.
Inductive json : Type :=
| J_null
| J_bool (b : bool)
| J_num (n : Z)
| J_str (s : string)
| J_arr (items : list json)
| J_obj (fields : list (string * json)).
#[local] Set Elimination Schemes.

(** [c.toLowerCase()] on one code unit: only A-Z change. *)
Definition lower (c : ascii) : ascii :=
  let n := nat_of_ascii c in
  if ((65 <=? n) && (n <=? 90))%nat then ascii_of_nat (n + 32) else c.

(** [key.toLowerCase()] *)
Fixpoint toLowerCase (s : string) : string :=
  match s with
  | EmptyString => EmptyString
  | String c rest => String (lower c) (toLowerCase rest)
  end.

(** [s.includes(needle)] *)
Fixpoint string_includes (needle s : string) : bool :=
  String.prefix needle s ||
  match s with
  | EmptyString => false
  | String _ rest => string_includes needle rest
  end.

(** [key.toLowerCase().includes('password')] *)
Definition is_password (key : string) : bool :=
  string_includes "password" (toLowerCase key).

(** [typeof value === 'object' && value !== null] *)
Definition is_object (v : json) : bool :=
  match v with
  | J_arr _ | J_obj _ => true
  | _ => false
  end.

Definition stars : json := J_str "********".

(** [censorPasswords].  The copy is filled by assignment, [redactedObj[key]
    = ...]: under the key [__proto__] an assignment sets the prototype of
    the copy (or does nothing) and adds no field, so that key is not among
    the fields of the result.  The indices of an array are never
    password-like. *)
Fixpoint censorPasswords (obj : json) : json :=
  match obj with
  | J_arr items => J_arr (map censorPasswords items)
  | J_obj fields =>
      J_obj
        ((fix each (l : list (string * json)) : list (string * json) :=
            match l with
            | [] => []
            | (key, value) :: rest =>
                if key =? "__proto__" then each rest
                else
                  (key,
                   if is_password key then stars
                   else if is_object value then censorPasswords value
                   else value) :: each rest
            end) fields)
  | _ => obj
  end.

End Censor.

(** * The vocabulary of the properties, and sample data *)

Import Zod Supabase Http Permissions Middlewares AppointmentsController Routes.

(** ** The permission gate *)

(** An entry of the permission table grants [action] on [resource] to [role]. *)
Definition granted (role : string) (resource : Resource) (action : Action) : Prop :=
  exists (permissionsForRole : PermissionsMap) (allowed : list Action),
    ALL_PERMISSIONS !! role = Some permissionsForRole /\
    permissionsForRole resource = Some allowed /\
    In action allowed.

(** The request carries a credential that the identity service resolves,
    without error, to [u]. *)
Definition authenticated (req : Request) (w : World) (u : User) : Prop :=
  exists req', getUser req w = inr req' /\ Http.user req' = Some u.


(** ** The referential data of a creation

    A lookup succeeds when the service reports no error of its own and the
    table holds the row. *)

Definition reported (w : World) (q : Query) : bool :=
  match reports w q with Some _ => true | None => false end.

(** The business exists. *)
Definition business_ok (w : World) (b : string) : bool :=
  negb (reported w (SelectBusiness b)) && bool_decide (b ∈ businesses w).

(** The service exists and belongs to the business. *)
Definition service_ok (w : World) (s b : string) : bool :=
  negb (reported w (SelectService s b))
  && bool_decide ((services w !! s) = Some b).

(** The profile of the registered customer exists. *)
Definition profile_ok (w : World) (u : string) : bool :=
  negb (reported w (SelectProfile u)) && bool_decide (u ∈ profiles w).

(** The business-customer exists and belongs to the business. *)
Definition customer_ok (w : World) (c b : string) : bool :=
  negb (reported w (SelectBusinessCustomer c b))
  && bool_decide ((business_customers w !! c) = Some b).

(** The reference a payload supplies, as [if (ref)] sees it. *)
Definition given (ref : nullish string) : option string :=
  match ref with
  | Val r => if r =? EmptyString then None else Some r
  | _ => None
  end.

(** The world once a supplied reference has been looked up. *)
Definition looked_up (ref : nullish string) (q : string -> Query) (w : World) : World :=
  match given ref with
  | Some r => received (q r) w
  | None => w
  end.


(** Two requests that differ at most in the credential they carry and in
    the user it resolves to. *)
Definition same_but_credential (r1 r2 : Request) : Prop :=
  method r1 = method r2 /\ path r1 = path r2 /\ query r1 = query r2 /\
  body r1 = body r2 /\ params r1 = params r2.

(** A handler that reads neither the credential nor the user. *)
Definition blind (handler : Request -> M Response) : Prop :=
  forall r1 r2, same_but_credential r1 r2 -> handler r1 = handler r2.

(** The columns a status action leaves alone. *)
Definition same_booking (a a' : Appointment) : Prop :=
  id a' = id a /\ business_id a' = business_id a /\
  Supabase.service_id a' = Supabase.service_id a /\
  Supabase.user_id a' = Supabase.user_id a /\
  Supabase.staff_user_id a' = Supabase.staff_user_id a /\
  Supabase.business_customer_id a' = Supabase.business_customer_id a /\
  created_at a' = created_at a.

(** The objects the status endpoint sends to the database. *)
Definition status_patch (s t : string) : gmap string jsval :=
  <["updated_at" := JStr t]> (<["status" := JStr s]> ∅).

Definition reschedule_patch (st en : jsval) (t : string) : gmap string jsval :=
  <["updated_at" := JStr t]>
  (<["start_time" := st]> (<["end_time" := en]> (<["status" := JStr "pending"]> ∅))).

(** The world after the row under [i] has been replaced by [a]. *)
Definition updated (i : string) (patch : gmap string jsval) (a : Appointment)
    (w : World) : World :=
  with_appointments (<[i := a]> (appointments w)) (received (UpdateAppointment i patch) w).

(** A stored row after a status action: the action's columns and
    [updated_at] are written, the rest is kept. *)
Definition with_status (s : Status) (t : string) (a : Appointment) : Appointment :=
  {| id := id a; business_id := business_id a;
     Supabase.service_id := Supabase.service_id a;
     Supabase.user_id := Supabase.user_id a;
     Supabase.staff_user_id := Supabase.staff_user_id a;
     Supabase.business_customer_id := Supabase.business_customer_id a;
     Supabase.start_time := Supabase.start_time a;
     Supabase.end_time := Supabase.end_time a;
     Supabase.status := s;
     created_at := created_at a; updated_at := t |}.

Definition rescheduled (st en t : string) (a : Appointment) : Appointment :=
  {| id := id a; business_id := business_id a;
     Supabase.service_id := Supabase.service_id a;
     Supabase.user_id := Supabase.user_id a;
     Supabase.staff_user_id := Supabase.staff_user_id a;
     Supabase.business_customer_id := Supabase.business_customer_id a;
     Supabase.start_time := st;
     Supabase.end_time := en;
     Supabase.status := pending;
     created_at := created_at a; updated_at := t |}.

(** ** Sample data: one business with a service, a registered customer, a
    business-customer and two stored appointments *)

Definition B_id : string := "b0000000-0000-4000-8000-000000000001".
Definition S_id : string := "50000000-0000-4000-8000-000000000001".
Definition C_id : string := "c0000000-0000-4000-8000-000000000001".
Definition K_id : string := "d0000000-0000-4000-8000-000000000001".
Definition A1_id : string := "a0000000-0000-4000-8000-000000000001".
Definition A2_id : string := "a0000000-0000-4000-8000-000000000002".
Definition A3_id : string := "a0000000-0000-4000-8000-000000000003".

Definition stored : Appointment :=
  {| id := A1_id; business_id := B_id; Supabase.service_id := S_id;
     Supabase.user_id := Some C_id; Supabase.staff_user_id := None;
     Supabase.business_customer_id := None;
     Supabase.start_time := "2024-02-15T10:00:00+00:00";
     Supabase.end_time := "2024-02-15T11:00:00+00:00";
     Supabase.status := pending;
     created_at := "2024-02-01T09:00:00+00:00";
     updated_at := "2024-02-01T09:00:00+00:00" |}.

Definition booked : Appointment :=
  {| id := A3_id; business_id := B_id; Supabase.service_id := S_id;
     Supabase.user_id := None; Supabase.staff_user_id := None;
     Supabase.business_customer_id := Some K_id;
     Supabase.start_time := "2024-02-15T14:00:00+00:00";
     Supabase.end_time := "2024-02-15T14:45:00+00:00";
     Supabase.status := confirmed;
     created_at := "2024-02-01T09:30:00+00:00";
     updated_at := "2024-02-01T10:00:00+00:00" |}.

Definition principal (name roles : string) : Session :=
  {| Supabase.user := Some {| uid := name; role := Some roles |};
     Supabase.error := false |}.

Definition known_sessions (token : string) : Session :=
  if token =? "owner-token" then principal "owner" "businessOwner"
  else if token =? "staff-token" then principal "staff" "businessStaff"
  else if token =? "both-token" then principal "both" "businessStaff,customer"
  else {| Supabase.user := None; Supabase.error := true |}.

Definition salon : World :=
  {| businesses := {[ B_id ]};
     services := {[ S_id := B_id ]};
     profiles := {[ C_id ]};
     business_customers := {[ K_id := B_id ]};
     appointments := {[ A1_id := stored; A3_id := booked ]};
     reports := fun _ => None;
     listing := fun _ _ => [];
     new_id := A2_id;
     db_now := "2024-02-02T08:00:00+00:00";
     sessions := known_sessions;
     clock := "2024-02-02T08:00:00.000Z";
     journal := [] |}.

(** The same service during an outage: every query is answered with an error. *)
Definition outage : World :=
  {| businesses := businesses salon; services := services salon;
     profiles := profiles salon; business_customers := business_customers salon;
     appointments := appointments salon;
     reports := fun _ => Some {| code := "503"; details := "service unavailable" |};
     listing := listing salon; new_id := new_id salon; db_now := db_now salon;
     sessions := sessions salon; clock := clock salon; journal := [] |}.

Definition request (m : Method) (p : list string) (token : string)
    (b : gmap string jsval) : Request :=
  {| method := m; path := p; authorization := Some ("Bearer " +:+ token);
     query := ∅; body := b; params := ∅; Http.user := None |}.

(** An engine whose [Date] understands no string at all, and a validator
    that takes any text of 36 characters for a UUID. *)
Definition plain_runtime : Runtime :=
  {| uuid_ok := fun s => Nat.eqb (String.length s) 36;
     datetime_ok := fun s => Nat.eqb (String.length s) 20;
     Date_parse := fun _ => None |}.

(** The body of the first end-to-end scenario of the specification. *)
Definition scenario_body (S C : string) : gmap string jsval :=
  <["service_id" := JStr S]>
  (<["user_id" := JStr C]>
  (<["start_time" := JStr "2024-02-15T10:00:00Z"]>
  (<["end_time" := JStr "2024-02-15T11:00:00Z"]> ∅))).

(** A [POST /businesses/:businessId/appointments] once the router has
    filled in the parameter. *)
Definition create_request (businessId token : string) (b : gmap string jsval)
  : Request :=
  with_params {[ "businessId" := businessId ]}
    (request POST ["businesses"; businessId; "appointments"] token b).

(** A request on [/appointments/:id...] once the router has filled in the
    parameter. *)
Definition appointment_request (m : Method) (p : list string) (i token : string)
    (b : gmap string jsval) : Request :=
  with_params {[ "id" := i ]} (request m p token b).


Definition both_customers : CreateData :=
  {| service_id := S_id; user_id := Val C_id; staff_user_id := Absent;
     business_customer_id := Val K_id;
     start_time := "10:00:00"; end_time := "11:00:00"; status := pending |}.




(** Requests on the status endpoint. *)
Definition approve_A1 : Request :=
  appointment_request PATCH ["appointments"; A1_id; "status"] A1_id "owner-token"
    {[ "action" := JStr "approve" ]}.

Definition cancel_A1 : Request :=
  appointment_request PATCH ["appointments"; A1_id; "status"] A1_id "owner-token"
    {[ "action" := JStr "cancel" ]}.

Definition approve_A3 : Request :=
  appointment_request PATCH ["appointments"; A3_id; "status"] A3_id "owner-token"
    {[ "action" := JStr "approve" ]}.

Definition reschedule_A3 (b : gmap string jsval) : Request :=
  appointment_request PATCH ["appointments"; A3_id; "status"] A3_id "owner-token"
    (<["action" := JStr "reschedule"]> b).

Definition new_window : gmap string jsval :=
  {[ "start_time" := JStr "2024-02-15T15:00:00Z";
     "end_time" := JStr "2024-02-15T15:45:00Z" ]}.

Definition archive_A3 : Request :=
  appointment_request PATCH ["appointments"; A3_id; "status"] A3_id "owner-token"
    {[ "action" := JStr "archive" ]}.


(** A [DELETE /appointments/:id]. *)
Definition delete_request (i token : string) : Request :=
  appointment_request DELETE ["appointments"; i] i token ∅.

(** The scenario's body with times of day in place of its date-times. *)
Definition time_of_day_body : gmap string jsval :=
  <["start_time" := JStr "10:00:00"]>
  (<["end_time" := JStr "11:00:00"]> (scenario_body S_id C_id)).

(** ** What the logger must not print *)

Import Censor.

(** Every field with a password-like key holds the stars, at every depth. *)
Fixpoint redacted (j : json) : bool :=
  match j with
  | J_arr items => forallb redacted items
  | J_obj fields =>
      forallb (fun kv =>
                 let (key, value) := kv : string * json in
                 if is_password key
                 then match value with
                      | J_str s => s =? "********"
                      | _ => false
                      end
                 else redacted value) fields
  | _ => true
  end.

(** No key, at any depth, is password-like or [__proto__]. *)
Fixpoint plain (j : json) : bool :=
  match j with
  | J_arr items => forallb plain items
  | J_obj fields =>
      forallb (fun kv =>
                 let (key, value) := kv : string * json in
                 negb (is_password key) && negb (key =? "__proto__") && plain value)
              fields
  | _ => true
  end.

(** The keys of an object, in order. *)
Definition keys (j : json) : list string :=
  match j with
  | J_obj fields => map fst fields
  | _ => []
  end.

Definition login_body : json :=
  J_obj [ ("email", J_str "owner@example.com");
          ("Password", J_str "hunter2");
          ("profile", J_obj [ ("old_passwords", J_arr [J_str "a"; J_str "b"]);
                              ("name", J_str "Ann") ]) ].

Definition booking_body : json :=
  J_obj [ ("service_id", J_str S_id);
          ("slots", J_arr [J_obj [("start_time", J_str "10:00:00")]; J_null]) ].

(** The loop over the fields of an object, by name. *)
Fixpoint censor_fields (l : list (string * json)) : list (string * json) :=
  match l with
  | [] => []
  | (key, value) :: rest =>
      if key =? "__proto__" then censor_fields rest
      else
        (key,
         if is_password key then stars
         else if is_object value then censorPasswords value
         else value) :: censor_fields rest
  end.

(** ** Bodies and rows of the update endpoints *)

(** Two bodies hold the same under every key of a list. *)
Definition agree_on (ks : list string) (o1 o2 : gmap string jsval) : Prop :=
  forall k, In k ks -> o1 !! k = o2 !! k.

(** The keys the status endpoint reads. *)
Definition status_keys : list string := ["action"; "start_time"; "end_time"].

(** The object [updateAppointment] sends to the database. *)
Definition update_patch (updates : gmap string jsval) (t : string)
  : gmap string jsval :=
  <["updated_at" := JStr t]> updates.

(** A stored row with a new start, and one without its registered customer. *)
Definition with_start (st t : string) (a : Appointment) : Appointment :=
  {| id := id a; business_id := business_id a;
     Supabase.service_id := Supabase.service_id a;
     Supabase.user_id := Supabase.user_id a;
     Supabase.staff_user_id := Supabase.staff_user_id a;
     Supabase.business_customer_id := Supabase.business_customer_id a;
     Supabase.start_time := st;
     Supabase.end_time := Supabase.end_time a;
     Supabase.status := Supabase.status a;
     created_at := created_at a; updated_at := t |}.

Definition without_user (t : string) (a : Appointment) : Appointment :=
  {| id := id a; business_id := business_id a;
     Supabase.service_id := Supabase.service_id a;
     Supabase.user_id := None;
     Supabase.staff_user_id := Supabase.staff_user_id a;
     Supabase.business_customer_id := Supabase.business_customer_id a;
     Supabase.start_time := Supabase.start_time a;
     Supabase.end_time := Supabase.end_time a;
     Supabase.status := Supabase.status a;
     created_at := created_at a; updated_at := t |}.

(** The row under [i], if there is one, carries [i] as its identifier. *)
Definition keyed_at (i : string) (w : World) : Prop :=
  forall a, appointments w !! i = Some a -> id a = i.

(** A [PUT /appointments/:id] once the router has filled in the parameter. *)
Definition put_request (i : string) (b : gmap string jsval) : Request :=
  appointment_request PUT ["appointments"; i] i "owner-token" b.

(** A body whose times the engine cannot order, and one that moves the
    start of the stored appointment past its end. *)
Definition unordered_times : gmap string jsval :=
  {[ "start_time" := JStr "2024-02-15T12:00:00Z";
     "end_time" := JStr "2024-02-15T11:00:00Z" ]}.

Definition late_start : gmap string jsval :=
  {[ "start_time" := JStr "2024-03-01T09:00:00Z" ]}.

Definition completed_only : gmap string jsval := {[ "status" := JStr "completed" ]}.

(** The same, with keys the schema does not have. *)
Definition smuggled : gmap string jsval :=
  <["id" := JStr A3_id]>
  (<["business_id" := JStr "other"]>
  (<["created_at" := JStr "1999-01-01T00:00:00Z"]>
  (<["status" := JStr "completed"]> ∅))).



(** An approval that carries other keys as well. *)
Definition approve_A1_with (b : gmap string jsval) : Request :=
  appointment_request PATCH ["appointments"; A1_id; "status"] A1_id "owner-token"
    (<["action" := JStr "approve"]> b).


(** A body whose status is not one of the four. *)
Definition done_body : gmap string jsval := {[ "status" := JStr "done" ]}.
(** ** The credential *)

Definition unauthorized : Response := respond 401 (error_body "Unauthorized").

(** A request with the given [Authorization] header and nothing else. *)
Definition with_header (h : string) : Request :=
  {| method := DELETE; path := ["appointments"; A1_id]; authorization := Some h;
     query := ∅; body := ∅; params := ∅; Http.user := None |}.

(** A world in which a session resolves without error and without a user. *)
Definition userless : World :=
  {| businesses := businesses salon; services := services salon;
     profiles := profiles salon; business_customers := business_customers salon;
     appointments := appointments salon; reports := reports salon;
     listing := listing salon; new_id := new_id salon; db_now := db_now salon;
     sessions := fun _ => {| Supabase.user := None; Supabase.error := false |};
     clock := clock salon; journal := [] |}.

(** A world in which the one session is that of a user without a role. *)
Definition roleless : World :=
  {| businesses := businesses salon; services := services salon;
     profiles := profiles salon; business_customers := business_customers salon;
     appointments := appointments salon; reports := reports salon;
     listing := listing salon; new_id := new_id salon; db_now := db_now salon;
     sessions := fun _ => {| Supabase.user := Some {| uid := "new"; role := None |};
                             Supabase.error := false |};
     clock := clock salon; journal := [] |}.

(** ** The role string *)

(** The string has a comma in it. *)
Fixpoint has_comma (s : string) : bool :=
  match s with
  | EmptyString => false
  | String c rest => Ascii.eqb c "," || has_comma rest
  end.

(** ** Requests by method and path *)

(** A request without any credential. *)
Definition anonymous (m : Method) (p : list string) (b : gmap string jsval) : Request :=
  {| method := m; path := p; authorization := None;
     query := ∅; body := b; params := ∅; Http.user := None |}.


(** ** Two engines

    The patterns of [z.uuid()] and of [z.string().datetime()] on the
    strings YYYY-MM-DDTHH:MM:SSZ, and two readings of [new Date(s)]: one
    that reads those date-times and nothing else, and one that reads a bare
    time of day as well.  Node.js is of the first kind. *)

Definition is_hex (c : ascii) : bool :=
  is_digit c || in_range "a" "f" c || in_range "A" "F" c.

Fixpoint all_hex (s : string) : bool :=
  match s with
  | EmptyString => true
  | String c rest => is_hex c && all_hex rest
  end.

Definition char_is (p : ascii -> bool) (n : nat) (s : string) : bool :=
  match String.get n s with
  | Some c => p c
  | None => false
  end.

Definition dash (c : ascii) : bool := Ascii.eqb c "-".

(** [[0-9a-fA-F]{8}-[0-9a-fA-F]{4}-[1-8][0-9a-fA-F]{3}-[89abAB][0-9a-fA-F]{3}-[0-9a-fA-F]{12}] *)
Definition uuid_pattern (s : string) : bool :=
  Nat.eqb (String.length s) 36
  && all_hex (substring 0 8 s) && char_is dash 8 s
  && all_hex (substring 9 4 s) && char_is dash 13 s
  && char_is (in_range "1" "8") 14 s && all_hex (substring 15 3 s)
  && char_is dash 18 s
  && char_is (fun c => existsb (Ascii.eqb c) ["8"; "9"; "a"; "b"; "A"; "B"]%char) 19 s
  && all_hex (substring 20 3 s) && char_is dash 23 s
  && all_hex (substring 24 12 s).

(** The number a list of decimal digits writes. *)
Fixpoint number_from (acc : Z) (l : list ascii) : option Z :=
  match l with
  | [] => Some acc
  | c :: rest =>
      if is_digit c
      then number_from (10 * acc + (Z.of_nat (nat_of_ascii c) - 48))%Z rest
      else None
  end.

Definition number (l : list ascii) : option Z := number_from 0%Z l.

Definition leap (y : Z) : bool :=
  ((y mod 4 =? 0) && negb (y mod 100 =? 0) || (y mod 400 =? 0))%Z.

Definition days_in_month (y m : Z) : Z :=
  if (m =? 2)%Z then (if leap y then 29 else 28)%Z
  else if ((m =? 4) || (m =? 6) || (m =? 9) || (m =? 11))%Z then 30%Z
  else 31%Z.

(** The days from 1970-01-01 to the given day of the civil calendar. *)
Definition days_from_civil (y m d : Z) : Z :=
  let y' := (if m <=? 2 then y - 1 else y)%Z in
  let era := (y' / 400)%Z in
  let yoe := (y' - era * 400)%Z in
  let mp := ((m + 9) mod 12)%Z in
  let doy := ((153 * mp + 2) / 5 + d - 1)%Z in
  let doe := (yoe * 365 + yoe / 4 - yoe / 100 + doy)%Z in
  (era * 146097 + doe - 719468)%Z.

(** The time value of a date-time YYYY-MM-DDTHH:MM:SSZ. *)
Definition date_time_ms (s : string) : option Z :=
  match s with
  | String y1 (String y2 (String y3 (String y4 (String d1
    (String m1 (String m2 (String d2
    (String a1 (String a2 (String t
    (String h1 (String h2 (String c1
    (String n1 (String n2 (String c2
    (String s1 (String s2 (String z EmptyString))))))))))))))))))) =>
      y ← number [y1; y2; y3; y4];
      m ← number [m1; m2];
      d ← number [a1; a2];
      h ← number [h1; h2];
      n ← number [n1; n2];
      sec ← number [s1; s2];
      if (dash d1 && dash d2 && Ascii.eqb t "T" && Ascii.eqb c1 ":"
          && Ascii.eqb c2 ":" && Ascii.eqb z "Z"
          && (1 <=? m)%Z && (m <=? 12)%Z && (1 <=? d)%Z && (d <=? days_in_month y m)%Z
          && (h <=? 23)%Z && (n <=? 59)%Z && (sec <=? 59)%Z)
      then Some ((((days_from_civil y m d * 24 + h) * 60 + n) * 60 + sec) * 1000)%Z
      else None
  | _ => None
  end.

Definition date_time_pattern (s : string) : bool :=
  match date_time_ms s with Some _ => true | None => false end.

(** The milliseconds since midnight of a time of day HH:MM or HH:MM:SS. *)
Definition time_of_day_ms (s : string) : option Z :=
  if iso_time s then
    match s with
    | String h1 (String h2 (String _ (String n1 (String n2 EmptyString)))) =>
        h ← number [h1; h2];
        n ← number [n1; n2];
        Some (((h * 60 + n) * 60) * 1000)%Z
    | String h1 (String h2 (String _ (String n1 (String n2
      (String _ (String s1 (String s2 EmptyString))))))) =>
        h ← number [h1; h2];
        n ← number [n1; n2];
        sec ← number [s1; s2];
        Some (((h * 60 + n) * 60 + sec) * 1000)%Z
    | _ => None
    end
  else None.

(** An engine whose [Date] reads the date-times and no bare time of day. *)
Definition strict_runtime : Runtime :=
  {| uuid_ok := uuid_pattern;
     datetime_ok := date_time_pattern;
     Date_parse := date_time_ms |}.

(** An engine whose [Date] reads a bare time of day as well, as a time of
    the day the epoch starts with. *)
Definition lenient_runtime : Runtime :=
  {| uuid_ok := uuid_pattern;
     datetime_ok := date_time_pattern;
     Date_parse := fun s =>
       match date_time_ms s with
       | Some t => Some t
       | None => time_of_day_ms s
       end |}.

(** ** Bodies of a creation, with times of day *)


Definition order_message : string :=
  "End time must be strictly greater than start time.".

Definition update_order_message : string :=
  "End time must be strictly greater than start time if both are provided for update.".









(** The same window, end before start. *)
Definition backwards_body : gmap string jsval :=
  <["start_time" := JStr "11:00:00"]>
  (<["end_time" := JStr "10:00:00"]> time_of_day_body).


(** Windows of an update, as date-times. *)
Definition ordered_times : gmap string jsval :=
  {[ "start_time" := JStr "2024-02-15T11:00:00Z";
     "end_time" := JStr "2024-02-15T12:00:00Z" ]}.

(** * Properties *)

(** ** The model on small inputs *)

Example iso_time_samples :
  iso_time "03:15" = true /\ iso_time "03:15:00" = true /\
  iso_time "03:15:00.9999999" = true /\ iso_time "03:15:00Z" = false /\
  iso_time "24:00" = false /\ iso_time "2024-02-15T10:00:00Z" = false.
Proof. repeat split. Qed.

Example split_samples :
  split_comma "businessStaff,customer" = ["businessStaff"; "customer"] /\
  split_comma "admin" = ["admin"] /\
  split_comma "a,,b" = ["a"; EmptyString; "b"] /\
  split_second "Bearer " "Bearer abc" = Some "abc" /\
  split_second "Bearer " "Bearer " = Some EmptyString /\
  split_second "Bearer " "Basic abc" = None.
Proof. repeat split. Qed.

Example join_sample : join ". " ["a."; "b."] = "a.. b.".
Proof. reflexivity. Qed.

Example admin_all (resource : Resource) (action : Action) :
  hasPermission ["admin"] resource action = true.
Proof. destruct resource, action; vm_compute; reflexivity. Qed.

Example staff_samples :
  hasPermission ["businessStaff"] R_product_order A_delete = true /\
  hasPermission ["businessStaff"] R_product_order A_update = false /\
  hasPermission ["businessStaff"] R_appointment A_view = false /\
  hasPermission ["businessStaff"; "customer"] R_appointment A_view = true /\
  hasPermission ["constructor"] R_business A_view = false.
Proof. repeat split. Qed.

Example unauthenticated_401 :
  checkForUser (request DELETE ["appointments"; A1_id] "no-such-token" ∅) salon
  = Respond (respond 401 (error_body "Unauthorized")).
Proof. vm_compute. reflexivity. Qed.

Example time_of_day_rejected :
  createAppointment (rt := plain_runtime)
    (create_request B_id "owner-token" time_of_day_body) salon
  = (respond 400 (error_body "End time must be strictly greater than start time."),
     salon).
Proof. vm_compute. reflexivity. Qed.

Lemma includes_In (allowed : list Action) (action : Action) :
  includes allowed action = true <-> In action allowed.
Proof.
  unfold includes. rewrite existsb_exists. split.
  - intros [a [Ha Hd]]. apply bool_decide_eq_true in Hd. now subst.
  - intros Ha. exists action. split; [assumption | now apply bool_decide_eq_true].
Qed.

Lemma granted_dec_true (role : string) (resource : Resource) (action : Action) :
  granted role resource action <->
  hasPermission [role] resource action = true.
Proof.
  unfold granted. cbn [hasPermission]. split.
  - intros (pm & allowed & Hpm & Hres & Hin).
    rewrite Hpm, Hres. apply includes_In in Hin. now rewrite Hin.
  - destruct (ALL_PERMISSIONS !! role) as [pm|] eqn:Hpm; [|discriminate].
    destruct (pm resource) as [allowed|] eqn:Hres; [|discriminate].
    destruct (includes allowed action) eqn:Hin; [|discriminate].
    intros _. exists pm, allowed. repeat split; try assumption.
    now apply includes_In.
Qed.

Lemma hasPermission_cons (role : string) (rest : list string)
    (resource : Resource) (action : Action) :
  hasPermission (role :: rest) resource action =
  hasPermission [role] resource action || hasPermission rest resource action.
Proof.
  cbn [hasPermission].
  destruct (ALL_PERMISSIONS !! role) as [pm|]; [|reflexivity].
  destruct (pm resource) as [allowed|]; [|reflexivity].
  now destruct (includes allowed action).
Qed.

Lemma hasPermission_exists (userRoles : list string) (resource : Resource)
    (action : Action) :
  hasPermission userRoles resource action = true <->
  exists role, In role userRoles /\ granted role resource action.
Proof.
  induction userRoles as [|role rest IH].
  - split; [discriminate | intros (r & [] & _)].
  - rewrite hasPermission_cons, orb_true_iff, IH, <- granted_dec_true. split.
    + intros [Hg | (r & Hr & Hg)].
      * exists role. split; [now left | assumption].
      * exists r. split; [now right | assumption].
    + intros (r & [-> | Hr] & Hg); [now left | right; eauto].
Qed.

Lemma hasPermission_none (userRoles : list string) (resource : Resource)
    (action : Action) :
  hasPermission userRoles resource action = false <->
  forall role, In role userRoles -> ~ granted role resource action.
Proof.
  rewrite <- not_true_iff_false, hasPermission_exists. split.
  - intros Hno role Hin Hg. apply Hno. eauto.
  - intros Hall (role & Hin & Hg). exact (Hall role Hin Hg).
Qed.

Lemma hasPermission_Permutation (l l' : list string) (resource : Resource)
    (action : Action) :
  Permutation l l' ->
  hasPermission l resource action = hasPermission l' resource action.
Proof.
  induction 1 as [| x l l' _ IH | x y l | l l' l'' _ IH1 _ IH2].
  - reflexivity.
  - now rewrite (hasPermission_cons x l), (hasPermission_cons x l'), IH.
  - rewrite (hasPermission_cons y), (hasPermission_cons x),
      (hasPermission_cons x (y :: l)), (hasPermission_cons y l).
    now destruct (hasPermission [x] resource action),
                 (hasPermission [y] resource action).
  - now rewrite IH1.
Qed.

(** What the gate does with a principal that is authenticated and has a
    non-empty role string. *)
Lemma canAccessResource_authenticated (resource : Resource) (action : Action)
    (req req' : Request) (w : World) (u : User) (r : string) :
  getUser req w = inr req' -> Http.user req' = Some u ->
  role u = Some r -> r <> EmptyString ->
  canAccessResource resource action req w =
  if hasPermission (split_comma r) resource action
  then Next req' else Respond forbidden.
Proof.
  intros Hget Hu Hr Hne. unfold canAccessResource.
  rewrite Hget, Hu, Hr.
  destruct (String.eqb_spec r EmptyString); [contradiction | reflexivity].
Qed.

Lemma canAccessResource_denied (resource : Resource) (action : Action)
    (req req' : Request) (w : World) (u : User) (r : string) :
  getUser req w = inr req' -> Http.user req' = Some u ->
  role u = Some r ->
  hasPermission (split_comma r) resource action = false ->
  canAccessResource resource action req w = Respond forbidden.
Proof.
  intros Hget Hu Hr Hno. unfold canAccessResource.
  rewrite Hget, Hu, Hr, Hno. now destruct (r =? EmptyString).
Qed.

(** C3. Default deny: when no entry of the permission table grants the
    action on the resource to any role of an authenticated principal, the
    gate answers 403 and the handler behind it is not run (the reply and the
    world are the same whatever the handler is).  A role without a table
    entry, and a resource absent from a role's map, grant nothing; so
    [businessStaff] is granted no action on [appointment]. *)
Theorem default_deny :
  (forall resource action req w u r (handler : Request -> M Response),
      authenticated req w u -> role u = Some r ->
      (forall role0, In role0 (split_comma r) -> ~ granted role0 resource action) ->
      run_chain [CanAccessResource resource action] handler req w
      = (Sent forbidden, w))
  /\ status_code forbidden = 403
  /\ (forall role0 resource action,
         ALL_PERMISSIONS !! role0 = None -> ~ granted role0 resource action)
  /\ (forall role0 permissionsForRole resource action,
         ALL_PERMISSIONS !! role0 = Some permissionsForRole ->
         permissionsForRole resource = None -> ~ granted role0 resource action)
  /\ (forall action, ~ granted "businessStaff" R_appointment action).
Proof.
  split; [|split; [reflexivity|split; [|split]]].
  - intros resource action req w u r handler (req' & Hget & Hu) Hr Hno.
    apply hasPermission_none in Hno. cbn [run_chain run_middleware].
    now rewrite (canAccessResource_denied _ _ _ _ _ _ _ Hget Hu Hr Hno).
  - intros role0 resource action Hnone (pm & allowed & Hpm & _).
    rewrite Hnone in Hpm. discriminate.
  - intros role0 pm resource action Hpm Hres (pm' & allowed & Hpm' & Hres' & _).
    rewrite Hpm in Hpm'. injection Hpm' as <-. rewrite Hres in Hres'. discriminate.
  - intros action Hg. apply granted_dec_true in Hg. vm_compute in Hg. discriminate.
Qed.

Lemma default_deny_witness :
  run_chain [CanAccessResource R_appointment A_create] deleteAppointment
            (request DELETE ["appointments"; A1_id] "staff-token" ∅) salon
  = (Sent forbidden, salon)
  /\ ~ granted "guest" R_business A_view
  /\ ~ granted "businessStaff" R_review A_view.
Proof.
  destruct default_deny as (Hgate & _ & Hrole & Hresource & _).
  split; [|split].
  - apply Hgate with (u := {| uid := "staff"; role := Some "businessStaff" |})
                     (r := "businessStaff").
    + eexists. split; reflexivity.
    + reflexivity.
    + intros role0 Hin. simpl in Hin. destruct Hin as [<- | []].
      apply (Hresource "businessStaff" businessStaffPermissions); reflexivity.
  - apply Hrole. reflexivity.
  - apply (Hresource "businessStaff" businessStaffPermissions); reflexivity.
Defined.

Lemma getUser_sets_user (req req' : Request) (w : World) :
  getUser req w = inr req' -> req' = with_user (Http.user req') req.
Proof.
  unfold getUser.
  destruct (match authorization req with
            | Some h => split_second "Bearer " h | None => None end) as [t|];
    [|discriminate].
  destruct (t =? EmptyString); [discriminate|].
  destruct (Supabase.error (sessions w t)); [discriminate|].
  intros [= <-]. reflexivity.
Qed.

(** C4. Union of roles: the role loop succeeds exactly when some held role
    is granted the action on the resource by the table, whatever the order
    of the roles; for an authenticated principal the gate then hands the
    request to the handler, and otherwise answers 403. *)
Theorem union_of_roles (userRoles : list string) (resource : Resource)
    (action : Action) :
  (hasPermission userRoles resource action = true <->
   exists role0, In role0 userRoles /\ granted role0 resource action)
  /\ (hasPermission userRoles resource action = false <->
      forall role0, In role0 userRoles -> ~ granted role0 resource action)
  /\ (forall userRoles', Permutation userRoles userRoles' ->
        hasPermission userRoles' resource action
        = hasPermission userRoles resource action)
  /\ (forall req w u r (handler : Request -> M Response),
        authenticated req w u -> role u = Some r -> split_comma r = userRoles ->
        run_chain [CanAccessResource resource action] handler req w
        = if hasPermission userRoles resource action
          then (let '(res, w') := handler (with_user (Some u) req) w in (Sent res, w'))
          else (Sent forbidden, w)).
Proof.
  split; [apply hasPermission_exists|].
  split; [apply hasPermission_none|].
  split; [intros l' Hp; symmetry; now apply hasPermission_Permutation|].
  intros req w u r handler (req' & Hget & Hu) Hr <-.
  cbn [run_chain run_middleware].
  destruct (String.eqb_spec r EmptyString) as [-> | Hne].
  - unfold canAccessResource. now rewrite Hget, Hu, Hr.
  - rewrite (canAccessResource_authenticated _ _ _ _ _ _ _ Hget Hu Hr Hne).
    destruct (hasPermission (split_comma r) resource action); [|reflexivity].
    apply getUser_sets_user in Hget. rewrite Hu in Hget. now rewrite <- Hget.
Qed.

Lemma union_of_roles_witness :
  hasPermission ["customer"; "businessStaff"] R_appointment A_create
  = hasPermission ["businessStaff"; "customer"] R_appointment A_create
  /\ run_chain [CanAccessResource R_appointment A_create] deleteAppointment
               (request DELETE ["appointments"; A1_id] "both-token" ∅) salon
     = (Sent (respond 204 no_body),
        snd (deleteAppointment
               (with_user (Some {| uid := "both"; role := Some "businessStaff,customer" |})
                  (request DELETE ["appointments"; A1_id] "both-token" ∅)) salon)).
Proof.
  pose proof (union_of_roles ["businessStaff"; "customer"] R_appointment A_create)
    as (_ & _ & Hperm & Hgate).
  split.
  - apply Hperm. apply perm_swap.
  - rewrite (Hgate _ salon {| uid := "both"; role := Some "businessStaff,customer" |}
                   "businessStaff,customer").
    + reflexivity.
    + eexists. split; reflexivity.
    + reflexivity.
    + reflexivity.
Defined.

(** ** Running the handlers *)

Ltac run := unfold mbind, M_bind, bind, mret, M_ret, ret, now.

Lemma select_business_run (b : string) (w : World) :
  exists r, select_business b w = (r, received (SelectBusiness b) w) /\
            (business_ok w b = true -> r = Data tt) /\
            (business_ok w b = false -> exists e, r = Error e).
Proof.
  unfold select_business, ask, business_ok, reported, one_row.
  destruct (reports w (SelectBusiness b)) as [e|]; cbn.
  - eexists. split; [reflexivity|]. split; [discriminate | eauto].
  - destruct (bool_decide (b ∈ businesses w)); eexists;
      (split; [reflexivity|]); split; try discriminate; eauto.
Qed.

Lemma select_service_run (s b : string) (w : World) :
  exists r, select_service s b w = (r, received (SelectService s b) w) /\
            (service_ok w s b = true -> r = Data tt) /\
            (service_ok w s b = false -> exists e, r = Error e).
Proof.
  unfold select_service, ask, service_ok, reported, one_row.
  destruct (reports w (SelectService s b)) as [e|]; cbn.
  - eexists. split; [reflexivity|]. split; [discriminate | eauto].
  - destruct (bool_decide (services w !! s = Some b)); eexists;
      (split; [reflexivity|]); split; try discriminate; eauto.
Qed.

Lemma select_profile_run (u : string) (w : World) :
  exists r, select_profile u w = (r, received (SelectProfile u) w) /\
            (profile_ok w u = true -> r = Data tt) /\
            (profile_ok w u = false -> exists e, r = Error e).
Proof.
  unfold select_profile, ask, profile_ok, reported, one_row.
  destruct (reports w (SelectProfile u)) as [e|]; cbn.
  - eexists. split; [reflexivity|]. split; [discriminate | eauto].
  - destruct (bool_decide (u ∈ profiles w)); eexists;
      (split; [reflexivity|]); split; try discriminate; eauto.
Qed.

Lemma select_business_customer_run (c b : string) (w : World) :
  exists r, select_business_customer c b w
            = (r, received (SelectBusinessCustomer c b) w) /\
            (customer_ok w c b = true -> r = Data tt) /\
            (customer_ok w c b = false -> exists e, r = Error e).
Proof.
  unfold select_business_customer, ask, customer_ok, reported, one_row.
  destruct (reports w (SelectBusinessCustomer c b)) as [e|]; cbn.
  - eexists. split; [reflexivity|]. split; [discriminate | eauto].
  - destruct (bool_decide (business_customers w !! c = Some b)); eexists;
      (split; [reflexivity|]); split; try discriminate; eauto.
Qed.

(** A lookup that a payload may ask for. *)
Lemma when_given_run (ref : nullish string) (check : string -> M (result unit))
    (q : string -> Query) (ok : string -> bool) (otherwise : Response)
    (rest : M Response) (w : World) :
  (forall r, exists a, check r w = (a, received (q r) w) /\
                       (ok r = true -> a = Data tt) /\
                       (ok r = false -> exists e, a = Error e)) ->
  when_given ref check otherwise rest w =
  match given ref with
  | Some r => if ok r then rest (received (q r) w) else (otherwise, received (q r) w)
  | None => rest w
  end.
Proof.
  intros Hcheck. unfold when_given, given.
  destruct ref as [| |r]; try reflexivity.
  destruct (r =? EmptyString); [reflexivity|].
  destruct (Hcheck r) as (a & Hrun & Hok & Hfail).
  unfold must_exist. run. rewrite Hrun.
  destruct (ok r).
  - now rewrite (Hok eq_refl).
  - destruct (Hfail eq_refl) as [e ->]. reflexivity.
Qed.

Lemma must_exist_run (check : M (result unit)) (q : Query) (ok : bool)
    (otherwise : Response) (rest : M Response) (w : World) :
  (exists a, check w = (a, received q w) /\
             (ok = true -> a = Data tt) /\
             (ok = false -> exists e, a = Error e)) ->
  must_exist check otherwise rest w =
  if ok then rest (received q w) else (otherwise, received q w).
Proof.
  intros (a & Hrun & Hok & Hfail). unfold must_exist. run. rewrite Hrun.
  destruct ok.
  - now rewrite (Hok eq_refl).
  - destruct (Hfail eq_refl) as [e ->]. reflexivity.
Qed.

(** The handler after a successful parse, as a decision list: each lookup
    is journalled, and the first one that fails ends the request. *)
Lemma createAppointment_parsed_run (businessId : string) (data : CreateData)
    (w : World) :
  createAppointment_parsed businessId data w =
  let w1 := received (SelectBusiness businessId) w in
  let w2 := received (SelectService (service_id data) businessId) w1 in
  let w3 := looked_up (user_id data) SelectProfile w2 in
  let w4 := looked_up (business_customer_id data)
                      (fun c => SelectBusinessCustomer c businessId) w3 in
  if negb (business_ok w businessId) then
    (respond 404 (error_body "Business not found."), w1)
  else if negb (service_ok w (service_id data) businessId) then
    (respond 400 (error_body "Service not found or does not belong to this business."),
     w2)
  else if negb (from_option (profile_ok w) true (given (user_id data))) then
    (respond 400 (error_body "User profile not found."), w3)
  else if negb (from_option (fun c => customer_ok w c businessId) true
                            (given (business_customer_id data))) then
    (respond 400
       (error_body "Business-customer not found or does not belong to this business."),
     w4)
  else
    let '(r, w5) := insert_appointment (create_payload businessId data) w4 in
    (match r with
     | Error e => respond 400 (error_body (details e))
     | Data appointment => respond 201 (data_body appointment)
     end, w5).
Proof.
  unfold createAppointment_parsed. cbv zeta.
  rewrite (must_exist_run _ _ (business_ok w businessId) _ _ _
             (select_business_run businessId w)).
  destruct (business_ok w businessId); cbn [negb]; [|reflexivity].
  set (w1 := received (SelectBusiness businessId) w).
  rewrite (must_exist_run _ _ (service_ok w (service_id data) businessId) _ _ _
             (select_service_run (service_id data) businessId w1)).
  destruct (service_ok w (service_id data) businessId); cbn [negb]; [|reflexivity].
  set (w2 := received (SelectService (service_id data) businessId) w1).
  rewrite (when_given_run (user_id data) select_profile SelectProfile
             (profile_ok w) _ _ w2 (fun u => select_profile_run u w2)).
  unfold looked_up.
  destruct (given (user_id data)) as [u|]; cbn [from_option].
  - destruct (profile_ok w u); cbn [negb]; [|reflexivity].
    set (w3 := received (SelectProfile u) w2).
    rewrite (when_given_run (business_customer_id data)
               (fun c => select_business_customer c businessId)
               (fun c => SelectBusinessCustomer c businessId)
               (fun c => customer_ok w c businessId) _ _ w3
               (fun c => select_business_customer_run c businessId w3)).
    unfold looked_up.
    destruct (given (business_customer_id data)) as [c|]; cbn [from_option].
    + destruct (customer_ok w c businessId); cbn [negb]; [|reflexivity].
      run. now destruct (insert_appointment _ _) as [[a|e] w5].
    + run. now destruct (insert_appointment _ _) as [[a|e] w5].
  - rewrite (when_given_run (business_customer_id data)
               (fun c => select_business_customer c businessId)
               (fun c => SelectBusinessCustomer c businessId)
               (fun c => customer_ok w c businessId) _ _ w2
               (fun c => select_business_customer_run c businessId w2)).
    unfold looked_up.
    destruct (given (business_customer_id data)) as [c|]; cbn [from_option].
    + destruct (customer_ok w c businessId); cbn [negb]; [|reflexivity].
      run. now destruct (insert_appointment _ _) as [[a|e] w5].
    + run. now destruct (insert_appointment _ _) as [[a|e] w5].
Qed.





(** ** The creation schema *)

Section Schema.
Context {rt : Runtime}.

Lemma safeParse_Failure (o : gmap string jsval) (i : issue) :
  In i (CreateAppointmentSchema_issues o) ->
  CreateAppointmentSchema_safeParse o = Failure (CreateAppointmentSchema_issues o).
Proof.
  unfold CreateAppointmentSchema_safeParse.
  destruct (CreateAppointmentSchema_issues o); [intros [] | reflexivity].
Qed.


Lemma shape_issues (o : gmap string jsval) (i : issue) :
  In i (CreateAppointmentSchema_shape o) -> In i (CreateAppointmentSchema_issues o).
Proof.
  unfold CreateAppointmentSchema_issues.
  destruct (CreateAppointmentSchema_value o); [|trivial].
  intros Hin. apply in_or_app. now left.
Qed.

Lemma format_nil (ok : string -> bool) (msg : string) (v : jsval) :
  format ok msg v = [] -> is_Some (required_string v).
Proof. destruct v; try discriminate. intros _. eexists. reflexivity. Qed.

Lemma nullable_format_nil (ok : string -> bool) (msg : string) (v : jsval) :
  optional (nullable (format ok msg)) v = [] -> is_Some (nullish_string v).
Proof. destruct v; try discriminate; intros _; eexists; reflexivity. Qed.

Lemma status_nil (v : jsval) :
  optional AppointmentStatusSchema v = [] -> is_Some (status_or_default v).
Proof.
  destruct v as [| | | |s|]; try discriminate.
  - intros _. eexists. reflexivity.
  - unfold optional, AppointmentStatusSchema, enum, status_or_default,
      Status_of_string, existsb.
    destruct (s =? "pending"); [eexists; reflexivity|].
    destruct (s =? "confirmed"); [eexists; reflexivity|].
    destruct (s =? "cancelled"); [eexists; reflexivity|].
    destruct (s =? "completed"); [eexists; reflexivity|].
    discriminate.
Qed.

(** When no field raises an issue the parsed object exists, so a failed
    parse always has a message to report. *)
Lemma shape_nil_value (o : gmap string jsval) :
  CreateAppointmentSchema_shape o = [] -> is_Some (CreateAppointmentSchema_value o).
Proof.
  unfold CreateAppointmentSchema_shape, CreateAppointmentSchema_value.
  intros Hnil.
  repeat match type of Hnil with
         | (_ ++ _)%list = [] =>
             apply app_eq_nil in Hnil; let Hf := fresh "Hf" in destruct Hnil as [Hf Hnil]
         end.
  destruct (format_nil _ _ _ Hf) as [? ->].
  destruct (nullable_format_nil _ _ _ Hf0) as [? ->].
  destruct (nullable_format_nil _ _ _ Hf1) as [? ->].
  destruct (nullable_format_nil _ _ _ Hf2) as [? ->].
  destruct (format_nil _ _ _ Hf3) as [? ->].
  destruct (format_nil _ _ _ Hf4) as [? ->].
  destruct (status_nil _ Hnil) as [? ->].
  eexists. reflexivity.
Qed.

Lemma safeParse_Failure_nonempty (o : gmap string jsval) (issues : list issue) :
  CreateAppointmentSchema_safeParse o = Failure issues -> issues <> [].
Proof.
  unfold CreateAppointmentSchema_safeParse, CreateAppointmentSchema_issues.
  destruct (CreateAppointmentSchema_value o) as [data|] eqn:Hv.
  - destruct (_ ++ _)%list eqn:Hi; [discriminate|]. now intros [= <-].
  - destruct (CreateAppointmentSchema_shape o) eqn:Hs.
    + destruct (shape_nil_value o Hs) as [d Hd]. rewrite Hv in Hd. discriminate.
    + now intros [= <-].
Qed.

(** The refinement on the two times fails as soon as the engine's [Date]
    does not understand one of them. *)
Lemma end_after_start_unparsed (data : CreateData) :
  Date_parse (start_time data) = None \/ Date_parse (end_time data) = None ->
  end_after_start data = false.
Proof.
  unfold end_after_start, date_gt. intros [-> | ->]; [|reflexivity].
  now destruct (Date_parse (end_time data)).
Qed.

Lemma createAppointment_Failure (req : Request) (w : World) (i : issue) :
  In i (CreateAppointmentSchema_issues (body req)) ->
  createAppointment req w
  = (respond 400 (error_body (issues_message (CreateAppointmentSchema_issues (body req)))),
     w).
Proof.
  intros Hin. unfold createAppointment. now rewrite (safeParse_Failure _ _ Hin).
Qed.

End Schema.

(** ** Creation: what is stored, and when

    [createAppointment] is [createAppointment_parsed] behind the schema.
    Which bodies the schema lets through depends on the engine: the two
    times have to be times of day for [z.iso.time], and [Date] has to read
    them for the second refinement.  On an engine that reads no bare time
    of day, as Node.js, no body passes (see [createAppointment_time_of_day]
    below).  The statements of this part are about [createAppointment] on
    every engine; they are witnessed on an engine that reads a time of
    day. *)










(** ** The customer-reference rule *)

Lemma aborted_nonempty (l : list issue) : aborted l = true -> exists i, In i l.
Proof. destruct l as [|i l]; [discriminate|]. intros _. exists i. now left. Qed.



Lemma aborted_app (l1 l2 : list issue) :
  aborted (l1 ++ l2) = aborted l1 || aborted l2.
Proof. apply existsb_app. Qed.

Lemma format_unaborted (ok : string -> bool) (msg : string) (v : jsval) :
  aborted (format ok msg v) = false -> is_Some (required_string v).
Proof. destruct v; try discriminate. intros _. eexists. reflexivity. Qed.

Lemma nullable_format_unaborted (ok : string -> bool) (msg : string) (v : jsval) :
  aborted (optional (nullable (format ok msg)) v) = false ->
  is_Some (nullish_string v).
Proof. destruct v; try discriminate; intros _; eexists; reflexivity. Qed.

Lemma status_unaborted (v : jsval) :
  aborted (optional AppointmentStatusSchema v) = false ->
  is_Some (status_or_default v).
Proof.
  destruct v as [| | | |s|]; try discriminate.
  - intros _. eexists. reflexivity.
  - unfold optional, AppointmentStatusSchema, enum, status_or_default,
      Status_of_string, existsb.
    destruct (s =? "pending"); [eexists; reflexivity|].
    destruct (s =? "confirmed"); [eexists; reflexivity|].
    destruct (s =? "cancelled"); [eexists; reflexivity|].
    destruct (s =? "completed"); [eexists; reflexivity|].
    discriminate.
Qed.

(** The refinements run exactly when every field has the type its schema
    expects. *)
Lemma unaborted_value `{Runtime} (o : gmap string jsval) :
  aborted (CreateAppointmentSchema_shape o) = false ->
  is_Some (CreateAppointmentSchema_value o).
Proof.
  unfold CreateAppointmentSchema_shape, CreateAppointmentSchema_value.
  intros Hab.
  repeat match type of Hab with
         | aborted (_ ++ _) = false =>
             rewrite aborted_app in Hab; apply orb_false_iff in Hab;
             let Hf := fresh "Hf" in destruct Hab as [Hf Hab]
         end.
  destruct (format_unaborted _ _ _ Hf) as [? ->].
  destruct (nullable_format_unaborted _ _ _ Hf0) as [? ->].
  destruct (nullable_format_unaborted _ _ _ Hf1) as [? ->].
  destruct (nullable_format_unaborted _ _ _ Hf2) as [? ->].
  destruct (format_unaborted _ _ _ Hf3) as [? ->].
  destruct (format_unaborted _ _ _ Hf4) as [? ->].
  destruct (status_unaborted _ Hab) as [? ->].
  eexists. reflexivity.
Qed.












(** ** The first end-to-end scenario *)

Lemma format_In (ok : string -> bool) (msg : string) (s : string) :
  ok s = false -> In (Issue msg true) (format ok msg (JStr s)).
Proof. intros Hok. cbn. rewrite Hok. now left. Qed.

(** C5. The scenario's body does not pass the schema: [start_time] and
    [end_time] are checked with the time-of-day pattern, which a date-time
    such as 2024-02-15T10:00:00Z does not match.  Whatever the business,
    the service, the customer and the state of the database, the request is
    answered 400 with the two messages among the issues, and no query is
    sent. *)
Theorem scenario_1_rejected (rt : Runtime) (businessId S C token : string)
    (w : World) :
  iso_time "2024-02-15T10:00:00Z" = false
  /\ iso_time "2024-02-15T11:00:00Z" = false
  /\ exists issues,
      CreateAppointmentSchema_safeParse (scenario_body S C) = Failure issues
      /\ In (Issue "Start time must be a valid ISO 8601 datetime string." true) issues
      /\ In (Issue "End time must be a valid ISO 8601 datetime string." true) issues
      /\ createAppointment (create_request businessId token (scenario_body S C)) w
         = (respond 400 (error_body (issues_message issues)), w).
Proof.
  split; [reflexivity|]. split; [reflexivity|].
  assert (Hstart : In (Issue "Start time must be a valid ISO 8601 datetime string." true)
                      (CreateAppointmentSchema_issues (scenario_body S C))).
  { apply shape_issues. unfold CreateAppointmentSchema_shape.
    do 4 (apply in_or_app; right). apply in_or_app. left.
    change (get (scenario_body S C) "start_time") with (JStr "2024-02-15T10:00:00Z").
    now apply format_In. }
  assert (Hend : In (Issue "End time must be a valid ISO 8601 datetime string." true)
                    (CreateAppointmentSchema_issues (scenario_body S C))).
  { apply shape_issues. unfold CreateAppointmentSchema_shape.
    do 5 (apply in_or_app; right). apply in_or_app. left.
    change (get (scenario_body S C) "end_time") with (JStr "2024-02-15T11:00:00Z").
    now apply format_In. }
  exists (CreateAppointmentSchema_issues (scenario_body S C)).
  split; [exact (safeParse_Failure _ _ Hstart)|].
  split; [exact Hstart|]. split; [exact Hend|].
  exact (createAppointment_Failure
           (create_request businessId token (scenario_body S C)) w _ Hstart).
Qed.

(** On an engine whose [Date] understands no time of day without a date
    (as is the case of Node.js), the two checks on the times exclude each
    other, and the creation endpoint answers 400 to every request. *)
Lemma createAppointment_time_of_day (rt : Runtime) :
  (forall s, iso_time s = true -> Date_parse s = None) ->
  forall req w, exists msg,
    createAppointment req w = (respond 400 (error_body msg), w).
Proof.
  intros Hengine req w.
  assert (Hi : exists i, In i (CreateAppointmentSchema_issues (body req))).
  { unfold CreateAppointmentSchema_issues.
    destruct (CreateAppointmentSchema_value (body req)) as [data|] eqn:Hv.
    - destruct (CreateAppointmentSchema_shape (body req)) as [|i l] eqn:Hs.
      + assert (Hst : iso_time (start_time data) = true).
        { unfold CreateAppointmentSchema_shape, CreateAppointmentSchema_value in *.
          repeat match type of Hs with
                 | (_ ++ _)%list = [] =>
                     apply app_eq_nil in Hs; let Hf := fresh "Hf" in
                                             destruct Hs as [Hf Hs]
                 end.
          destruct (required_string (get (body req) "service_id")); [|discriminate].
          destruct (nullish_string (get (body req) "user_id")); [|discriminate].
          destruct (nullish_string (get (body req) "staff_user_id")); [|discriminate].
          destruct (nullish_string (get (body req) "business_customer_id"));
            [|discriminate].
          destruct (get (body req) "start_time") as [| | | |st|]; try discriminate.
          destruct (required_string (get (body req) "end_time")); [|discriminate].
          destruct (status_or_default (get (body req) "status")); [|discriminate].
          cbn in Hv. injection Hv as <-. cbn in Hf3 |- *.
          now destruct (iso_time st). }
        exists (Issue "End time must be strictly greater than start time." true).
        cbn. unfold refine. cbn.
        rewrite (end_after_start_unparsed data (or_introl (Hengine _ Hst))).
        destruct (either_customer data); cbn; auto.
      + exists i. now left.
    - destruct (CreateAppointmentSchema_shape (body req)) as [|i l] eqn:Hs.
      + destruct (shape_nil_value _ Hs) as [d Hd]. rewrite Hv in Hd. discriminate.
      + exists i. now left. }
  destruct Hi as [i Hi]. eexists. exact (createAppointment_Failure req w i Hi).
Qed.

(** An engine that reads the date-times only is such an engine. *)
Lemma strict_reads_no_time_of_day (s : string) :
  iso_time s = true -> date_time_ms s = None.
Proof.
  destruct s as [|h1 [|h2 [|c1 [|m1 [|m2 rest]]]]]; try discriminate.
  cbn [iso_time]. intros Htime.
  repeat (apply andb_true_iff in Htime; destruct Htime as [Htime ?]).
  assert (Hc : c1 = ":"%char) by (now apply Ascii.eqb_eq).
  subst c1. unfold date_time_ms.
  repeat match goal with
         | |- context [match ?x with EmptyString => _ | String _ _ => _ end] =>
             destruct x; try reflexivity
         end.
  unfold number. cbn [number_from].
  destruct (is_digit h1); [|reflexivity]. destruct (is_digit h2); reflexivity.
Qed.

Lemma createAppointment_strict (req : Request) (w : World) :
  exists msg,
    createAppointment (rt := strict_runtime) req w = (respond 400 (error_body msg), w).
Proof.
  apply (createAppointment_time_of_day strict_runtime). exact strict_reads_no_time_of_day.
Qed.

(** ** Creation: the order of the referential checks *)



(** ** The status endpoint *)

Lemma patched_status (s : Status) (t : string) (a : Appointment) :
  patched a (status_patch (Status_to_string s) t) = Some (with_status s t a).
Proof. destruct a, s; vm_compute; reflexivity. Qed.

Lemma patched_reschedule (st en t : string) (a : Appointment) :
  patched a (reschedule_patch (JStr st) (JStr en) t) = Some (rescheduled st en t a).
Proof. destruct a; vm_compute; reflexivity. Qed.

Lemma status_patch_columns (s t : string) : known_columns (status_patch s t) = true.
Proof. vm_compute. reflexivity. Qed.

Lemma reschedule_patch_columns (st en : jsval) (t : string) :
  known_columns (reschedule_patch st en t) = true.
Proof. vm_compute. reflexivity. Qed.

(** An update that keeps the identifier of the row it finds. *)
Lemma update_appointment_found (i : string) (patch : gmap string jsval)
    (a a' : Appointment) (w : World) :
  reports w (UpdateAppointment i patch) = None ->
  known_columns patch = true ->
  appointments w !! i = Some a ->
  patched a patch = Some a' -> id a' = i ->
  update_appointment i patch w = (Data a', updated i patch a' w).
Proof.
  intros Hrep Hcols Hfound Hpatch Hid. unfold update_appointment, ask.
  rewrite Hrep, Hcols.
  change (appointments (received _ w)) with (appointments w).
  rewrite Hfound, Hpatch. now rewrite (bool_decide_eq_true_2 _ Hid).
Qed.

Lemma status_updateData_approve (o : gmap string jsval) :
  get o "action" = JStr "approve" ->
  status_updateData o = inr (<["status" := JStr "confirmed"]> ∅).
Proof. intros Ha. unfold status_updateData. now rewrite Ha. Qed.

Lemma status_updateData_cancel (o : gmap string jsval) :
  get o "action" = JStr "cancel" ->
  status_updateData o = inr (<["status" := JStr "cancelled"]> ∅).
Proof. intros Ha. unfold status_updateData. now rewrite Ha. Qed.

Lemma get_rest (o : gmap string jsval) (k : string) :
  k <> "action" -> get (base.delete "action" o) k = get o k.
Proof. intros Hk. unfold get. now rewrite lookup_delete_ne. Qed.

Lemma status_updateData_reschedule (o : gmap string jsval) :
  get o "action" = JStr "reschedule" ->
  status_updateData o =
  if negb (truthy (get o "start_time")) || negb (truthy (get o "end_time"))
  then inl (respond 400 (error_body "Missing start_time or end_time for reschedule"))
  else inr (<["start_time" := get o "start_time"]>
            (<["end_time" := get o "end_time"]>
            (<["status" := JStr "pending"]> ∅))).
Proof.
  intros Ha. unfold status_updateData. rewrite Ha.
  rewrite !get_rest by discriminate. reflexivity.
Qed.

Lemma status_updateData_other (o : gmap string jsval) :
  strict_eq_str (get o "action") "approve" = false ->
  strict_eq_str (get o "action") "cancel" = false ->
  strict_eq_str (get o "action") "reschedule" = false ->
  status_updateData o =
  inl (respond 400 (error_body "Invalid action. Must be approve, cancel, or reschedule")).
Proof. intros H1 H2 H3. unfold status_updateData. now rewrite H1, H2, H3. Qed.

(** The tail of the handler, once [updateData] is known and the row is
    found. *)
Lemma updateAppointmentStatus_found (req : Request) (w : World)
    (updateData : gmap string jsval) (a a' : Appointment) :
  let i := param req "id" in
  let patch := <["updated_at" := JStr (clock w)]> updateData in
  status_updateData (body req) = inr updateData ->
  reports w (UpdateAppointment i patch) = None ->
  known_columns patch = true ->
  appointments w !! i = Some a ->
  patched a patch = Some a' -> id a' = i ->
  updateAppointmentStatus req w
  = (respond 200 (data_body a'), updated i patch a' w).
Proof.
  cbv zeta. intros Hdata Hrep Hcols Hfound Hpatch Hid.
  unfold updateAppointmentStatus. rewrite Hdata. run.
  now rewrite (update_appointment_found _ _ _ _ _ Hrep Hcols Hfound Hpatch Hid).
Qed.

Lemma updateAppointmentStatus_sets (req : Request) (w : World) (a : Appointment)
    (action : string) (s : Status) :
  status_updateData (body req) = inr (<["status" := JStr (Status_to_string s)]> ∅) ->
  appointments w !! param req "id" = Some a ->
  id a = param req "id" ->
  reports w (UpdateAppointment (param req "id")
                               (status_patch (Status_to_string s) (clock w))) = None ->
  updateAppointmentStatus req w
  = (respond 200 (data_body (with_status s (clock w) a)),
     updated (param req "id") (status_patch (Status_to_string s) (clock w))
             (with_status s (clock w) a) w).
Proof.
  intros Hdata Hfound Hid Hrep.
  apply (updateAppointmentStatus_found req w _ a); try assumption.
  - apply status_patch_columns.
  - apply patched_status.
Qed.

(** C7, as the code has it. [approve] writes status [confirmed] and
    [cancel] writes status [cancelled], together with [updated_at], which is
    set to the time of the server; the other columns (identifier, business,
    service, customer references, staff, time window, creation time) keep
    their values.  Each action is answered 200 whatever the current status,
    as long as the row exists and the database reports no error; a second
    [approve] is answered 200 again and leaves [confirmed]. *)
Theorem approve_and_cancel (req : Request) (w : World) (a : Appointment) :
  let i := param req "id" in
  appointments w !! i = Some a -> id a = i ->
  (get (body req) "action" = JStr "approve" ->
   reports w (UpdateAppointment i (status_patch "confirmed" (clock w))) = None ->
   let a' := with_status confirmed (clock w) a in
   let w' := updated i (status_patch "confirmed" (clock w)) a' w in
   updateAppointmentStatus req w = (respond 200 (data_body a'), w')
   /\ updateAppointmentStatus req w'
      = (respond 200 (data_body a'),
         updated i (status_patch "confirmed" (clock w)) a' w')
   /\ appointments w' !! i = Some a')
  /\ (get (body req) "action" = JStr "cancel" ->
      reports w (UpdateAppointment i (status_patch "cancelled" (clock w))) = None ->
      let a' := with_status cancelled (clock w) a in
      let w' := updated i (status_patch "cancelled" (clock w)) a' w in
      updateAppointmentStatus req w = (respond 200 (data_body a'), w')
      /\ appointments w' !! i = Some a')
  /\ (forall s t,
         let a' := with_status s t a in
         same_booking a a' /\
         Supabase.start_time a' = Supabase.start_time a /\
         Supabase.end_time a' = Supabase.end_time a /\
         Supabase.status a' = s /\ updated_at a' = t).
Proof.
  cbv zeta. intros Hfound Hid. split; [|split].
  - intros Hact Hrep.
    pose proof (status_updateData_approve _ Hact) as Hdata.
    split; [|split].
    + exact (updateAppointmentStatus_sets req w a "approve" confirmed
               Hdata Hfound Hid Hrep).
    + set (a' := with_status confirmed (clock w) a).
      set (w' := updated (param req "id") (status_patch "confirmed" (clock w)) a' w).
      assert (Hfound' : appointments w' !! param req "id" = Some a')
        by (cbn; apply lookup_insert_eq).
      exact (updateAppointmentStatus_sets req w' a' "approve" confirmed
               Hdata Hfound' Hid Hrep).
    + cbn. apply lookup_insert_eq.
  - intros Hact Hrep.
    pose proof (status_updateData_cancel _ Hact) as Hdata.
    split.
    + exact (updateAppointmentStatus_sets req w a "cancel" cancelled
               Hdata Hfound Hid Hrep).
    + cbn. apply lookup_insert_eq.
  - intros s t. unfold same_booking. cbn. repeat split; reflexivity.
Qed.

Lemma approve_and_cancel_witness :
  fst (updateAppointmentStatus approve_A3 salon)
  = respond 200 (data_body (with_status confirmed (clock salon) booked))
  /\ fst (updateAppointmentStatus approve_A3
            (snd (updateAppointmentStatus approve_A3 salon)))
     = respond 200 (data_body (with_status confirmed (clock salon) booked))
  /\ fst (updateAppointmentStatus cancel_A1 salon)
     = respond 200 (data_body (with_status cancelled (clock salon) stored)).
Proof.
  assert (Hfound : appointments salon !! param approve_A3 "id" = Some booked)
    by (vm_compute; reflexivity).
  assert (Hid : id booked = param approve_A3 "id") by (vm_compute; reflexivity).
  assert (Hact : get (body approve_A3) "action" = JStr "approve")
    by (vm_compute; reflexivity).
  assert (Hrep : reports salon
                   (UpdateAppointment (param approve_A3 "id")
                      (status_patch "confirmed" (clock salon))) = None)
    by reflexivity.
  pose proof (proj1 (approve_and_cancel approve_A3 salon booked Hfound Hid) Hact Hrep)
    as Happrove.
  cbv zeta in Happrove. destruct Happrove as (Hfirst & Hsecond & _).
  split; [|split].
  - now rewrite Hfirst.
  - rewrite Hfirst. cbn [fst snd]. now rewrite Hsecond.
  - refine (f_equal fst
              (proj1 (proj1 (proj2 (approve_and_cancel cancel_A1 salon stored _ _))
                        _ _)));
      vm_compute; reflexivity.
Defined.

(** C7, as the specification states it, fails: [approve] changes the
    [updated_at] column of the appointment along with its status. *)
Lemma approve_alters_updated_at_counterexample :
  fst (updateAppointmentStatus approve_A1 salon)
  = respond 200
      (data_body
         {| id := A1_id; business_id := B_id; Supabase.service_id := S_id;
            Supabase.user_id := Some C_id; Supabase.staff_user_id := None;
            Supabase.business_customer_id := None;
            Supabase.start_time := "2024-02-15T10:00:00+00:00";
            Supabase.end_time := "2024-02-15T11:00:00+00:00";
            Supabase.status := confirmed;
            created_at := "2024-02-01T09:00:00+00:00";
            updated_at := "2024-02-02T08:00:00.000Z" |})
  /\ updated_at stored = "2024-02-01T09:00:00+00:00"
  /\ updated_at
       <$> (appointments (snd (updateAppointmentStatus approve_A1 salon)) !! A1_id)
     = Some "2024-02-02T08:00:00.000Z"
  /\ "2024-02-02T08:00:00.000Z" <> updated_at stored.
Proof.
  split; [|split; [|split]]; [vm_compute; reflexivity .. | discriminate].
Qed.

(** C6, as the code has it. A [reschedule] in which [start_time] or
    [end_time] is missing (or otherwise falsy) is answered 400 with the
    message "Missing start_time or end_time for reschedule", and an action
    other than the three is answered 400 with "Invalid action. Must be
    approve, cancel, or reschedule"; in both cases no query is sent, so the
    world is the same.  A [reschedule] with two non-empty timestamps
    replaces the window and sets the status to [pending] (and [updated_at]
    to the time of the server), whatever the status was. *)
Theorem reschedule_and_invalid_action (req : Request) (w : World) :
  let i := param req "id" in
  (get (body req) "action" = JStr "reschedule" ->
   truthy (get (body req) "start_time") = false \/
   truthy (get (body req) "end_time") = false ->
   updateAppointmentStatus req w
   = (respond 400 (error_body "Missing start_time or end_time for reschedule"), w))
  /\ (forall a st en,
         get (body req) "action" = JStr "reschedule" ->
         get (body req) "start_time" = JStr st -> st <> EmptyString ->
         get (body req) "end_time" = JStr en -> en <> EmptyString ->
         appointments w !! i = Some a -> id a = i ->
         reports w (UpdateAppointment i
                      (reschedule_patch (JStr st) (JStr en) (clock w))) = None ->
         let a' := rescheduled st en (clock w) a in
         let w' := updated i (reschedule_patch (JStr st) (JStr en) (clock w)) a' w in
         updateAppointmentStatus req w = (respond 200 (data_body a'), w')
         /\ appointments w' !! i = Some a'
         /\ same_booking a a'
         /\ Supabase.start_time a' = st /\ Supabase.end_time a' = en
         /\ Supabase.status a' = pending)
  /\ (strict_eq_str (get (body req) "action") "approve" = false ->
      strict_eq_str (get (body req) "action") "cancel" = false ->
      strict_eq_str (get (body req) "action") "reschedule" = false ->
      updateAppointmentStatus req w
      = (respond 400
           (error_body "Invalid action. Must be approve, cancel, or reschedule"),
         w)).
Proof.
  cbv zeta. split; [|split].
  - intros Hact Hmissing. unfold updateAppointmentStatus.
    rewrite (status_updateData_reschedule _ Hact).
    destruct Hmissing as [-> | ->]; cbn [negb orb]; [reflexivity|].
    now rewrite orb_true_r.
  - intros a st en Hact Hst Hst0 Hen Hen0 Hfound Hid Hrep.
    assert (Hdata : status_updateData (body req)
                    = inr (<["start_time" := JStr st]>
                           (<["end_time" := JStr en]>
                           (<["status" := JStr "pending"]> ∅)))).
    { rewrite (status_updateData_reschedule _ Hact), Hst, Hen. cbn [truthy].
      destruct (String.eqb_spec st EmptyString); [contradiction|].
      destruct (String.eqb_spec en EmptyString); [contradiction|]. reflexivity. }
    split; [|split; [|split]].
    + apply (updateAppointmentStatus_found req w _ a); try assumption.
      * apply reschedule_patch_columns.
      * apply patched_reschedule.
    + cbn. apply lookup_insert_eq.
    + unfold same_booking. cbn. repeat split; reflexivity.
    + cbn. repeat split; reflexivity.
  - intros H1 H2 H3. unfold updateAppointmentStatus.
    now rewrite (status_updateData_other _ H1 H2 H3).
Qed.

Lemma reschedule_and_invalid_action_witness :
  updateAppointmentStatus (reschedule_A3 {[ "start_time" := JStr "2024-02-15T15:00:00Z" ]})
                          salon
  = (respond 400 (error_body "Missing start_time or end_time for reschedule"), salon)
  /\ Supabase.status booked = confirmed
  /\ fst (updateAppointmentStatus (reschedule_A3 new_window) salon)
     = respond 200
         (data_body (rescheduled "2024-02-15T15:00:00Z" "2024-02-15T15:45:00Z"
                                 (clock salon) booked))
  /\ updateAppointmentStatus archive_A3 salon
     = (respond 400
          (error_body "Invalid action. Must be approve, cancel, or reschedule"),
        salon).
Proof.
  split; [|split; [reflexivity|split]].
  - apply (proj1 (reschedule_and_invalid_action _ salon)).
    + vm_compute. reflexivity.
    + right. vm_compute. reflexivity.
  - refine (f_equal fst
              (proj1 (proj1 (proj2 (reschedule_and_invalid_action
                                      (reschedule_A3 new_window) salon))
                        booked "2024-02-15T15:00:00Z" "2024-02-15T15:45:00Z"
                        _ _ _ _ _ _ _ _)));
      try (vm_compute; reflexivity); discriminate.
  - apply (proj2 (proj2 (reschedule_and_invalid_action archive_A3 salon)));
      vm_compute; reflexivity.
Defined.

(** C6, as the specification states it, fails on the two messages: the
    handler's are "Missing start_time or end_time for reschedule" and
    "Invalid action. Must be approve, cancel, or reschedule". *)
Lemma status_messages_counterexample :
  fst (updateAppointmentStatus (reschedule_A3 ∅) salon)
  = respond 400 (error_body "Missing start_time or end_time for reschedule")
  /\ "Missing start_time or end_time for reschedule"
     <> "missing start_time or end_time for reschedule"
  /\ fst (updateAppointmentStatus archive_A3 salon)
     = respond 400 (error_body "Invalid action. Must be approve, cancel, or reschedule")
  /\ "Invalid action. Must be approve, cancel, or reschedule" <> "invalid action".
Proof.
  split; [|split; [|split]];
    [vm_compute; reflexivity | discriminate | vm_compute; reflexivity | discriminate].
Qed.

(** ** Deletion *)

(** C10. [DELETE /appointments/:id] is answered 500 when the database
    reports an error and 204 otherwise, never 404: for an identifier that
    matches no row the answer is 204 and the table is as before. *)
Theorem delete_never_404 (req : Request) (w : World) :
  let i := param req "id" in
  let w1 := received (DeleteAppointment i) w in
  deleteAppointment req w
  = match reports w (DeleteAppointment i) with
    | Some e => (respond 500 (error_body (details e)), w1)
    | None => (respond 204 no_body,
               with_appointments (base.delete i (appointments w)) w1)
    end
  /\ status_code (fst (deleteAppointment req w)) <> 404
  /\ (status_code (fst (deleteAppointment req w)) = 204 \/
      status_code (fst (deleteAppointment req w)) = 500)
  /\ (appointments w !! i = None -> reports w (DeleteAppointment i) = None ->
      fst (deleteAppointment req w) = respond 204 no_body /\
      appointments (snd (deleteAppointment req w)) = appointments w).
Proof.
  cbv zeta.
  assert (Hrun : deleteAppointment req w
                 = match reports w (DeleteAppointment (param req "id")) with
                   | Some e => (respond 500 (error_body (details e)),
                                received (DeleteAppointment (param req "id")) w)
                   | None => (respond 204 no_body,
                              with_appointments
                                (base.delete (param req "id") (appointments w))
                                (received (DeleteAppointment (param req "id")) w))
                   end).
  { unfold deleteAppointment, delete_appointment, ask. run.
    now destruct (reports w (DeleteAppointment (param req "id"))). }
  split; [exact Hrun|]. rewrite Hrun.
  split; [|split].
  - destruct (reports w _); cbn; discriminate.
  - destruct (reports w _); cbn; auto.
  - intros Hnone ->. cbn. split; [reflexivity|]. now apply delete_id.
Qed.

Lemma delete_never_404_witness :
  appointments salon !! A2_id = None
  /\ fst (deleteAppointment (delete_request A2_id "owner-token") salon)
     = respond 204 no_body
  /\ appointments (snd (deleteAppointment (delete_request A2_id "owner-token") salon))
     = appointments salon.
Proof.
  split; [vm_compute; reflexivity|].
  apply (proj2 (proj2 (proj2 (delete_never_404 (delete_request A2_id "owner-token") salon)))).
  - vm_compute. reflexivity.
  - reflexivity.
Defined.

(** During an outage the same request is answered 500. *)
Example delete_during_outage :
  fst (deleteAppointment (delete_request A1_id "owner-token") outage)
  = respond 500 (error_body "service unavailable").
Proof. vm_compute. reflexivity. Qed.

(** ** The appointment routes *)

Lemma same_but_credential_with_user (r1 r2 : Request) (u1 u2 : option User) :
  same_but_credential r1 r2 ->
  same_but_credential (with_user u1 r1) (with_user u2 r2).
Proof. intros H. exact H. Qed.

Lemma same_but_credential_with_params (r1 r2 : Request) (ps : gmap string string) :
  same_but_credential r1 r2 ->
  same_but_credential (with_params ps r1) (with_params ps r2).
Proof.
  intros (Hm & Hp & Hq & Hb & _). repeat split; assumption.
Qed.

Section Blind.
Context {rt : Runtime}.

Lemma getBusinessAppointments_blind : blind getBusinessAppointments.
Proof.
  intros r1 r2 (_ & _ & Hq & _ & Hps).
  unfold getBusinessAppointments, param. now rewrite Hq, Hps.
Qed.

Lemma createAppointment_blind : blind createAppointment.
Proof.
  intros r1 r2 (_ & _ & _ & Hb & Hps).
  unfold createAppointment, param. now rewrite Hb, Hps.
Qed.

Lemma updateAppointment_blind : blind updateAppointment.
Proof.
  intros r1 r2 (_ & _ & _ & Hb & Hps).
  unfold updateAppointment, param. now rewrite Hb, Hps.
Qed.

Lemma deleteAppointment_blind : blind deleteAppointment.
Proof.
  intros r1 r2 (_ & _ & _ & _ & Hps).
  unfold deleteAppointment, param. now rewrite Hps.
Qed.

Lemma updateAppointmentStatus_blind : blind updateAppointmentStatus.
Proof.
  intros r1 r2 (_ & _ & _ & Hb & Hps).
  unfold updateAppointmentStatus, param. now rewrite Hb, Hps.
Qed.

(** Every registration of the router: its guards are [checkForUser] at
    most, and its handler is blind. *)
Lemma router_routes (r : Route) :
  In r router ->
  Forall (fun m => m = CheckForUser) (route_middlewares r) /\
  blind (route_handler r).
Proof.
  intros [<- | [<- | [<- | [<- | [<- | []]]]]]; cbn; split;
    auto using getBusinessAppointments_blind, createAppointment_blind,
               updateAppointment_blind, deleteAppointment_blind,
               updateAppointmentStatus_blind.
Qed.

End Blind.

(** Whether [getUser] lets a request through depends on its credential
    only. *)
Lemma getUser_through (req : Request) (w : World) (u : User) (req0 : Request) :
  authenticated req w u -> authorization req0 = authorization req ->
  getUser req0 w = inr (with_user (Some u) req0).
Proof.
  intros (req' & Hget & Hu) Hauth. unfold getUser in *. rewrite Hauth.
  destruct (match authorization req with
            | Some h => split_second "Bearer " h | None => None end) as [t|];
    [|discriminate].
  destruct (t =? EmptyString); [discriminate|].
  destruct (Supabase.error (sessions w t)); [discriminate|].
  injection Hget as <-. cbn in Hu. now rewrite Hu.
Qed.

Lemma run_chain_blind (ms : list Middleware) (handler : Request -> M Response)
    (r1 r2 q1 q2 : Request) (w : World) (u1 u2 : User) :
  Forall (fun m => m = CheckForUser) ms -> blind handler ->
  authenticated q1 w u1 -> authenticated q2 w u2 ->
  authorization r1 = authorization q1 -> authorization r2 = authorization q2 ->
  same_but_credential r1 r2 ->
  run_chain ms handler r1 w = run_chain ms handler r2 w.
Proof.
  intros Hms Hblind Ha1 Ha2. revert r1 r2.
  induction Hms as [|m ms -> _ IH]; intros r1 r2 Hr1 Hr2 Hsame.
  - cbn. now rewrite (Hblind r1 r2 Hsame).
  - cbn [run_chain run_middleware]. unfold checkForUser.
    rewrite (getUser_through q1 w u1 r1 Ha1 Hr1),
            (getUser_through q2 w u2 r2 Ha2 Hr2).
    apply IH; assumption.
Qed.

Lemma dispatch_blind (routes : list Route) (r1 r2 : Request) (w : World)
    (u1 u2 : User) :
  (forall r, In r routes ->
             Forall (fun m => m = CheckForUser) (route_middlewares r) /\
             blind (route_handler r)) ->
  authenticated r1 w u1 -> authenticated r2 w u2 ->
  same_but_credential r1 r2 ->
  dispatch routes r1 w = dispatch routes r2 w.
Proof.
  intros Hroutes Ha1 Ha2 Hsame.
  induction routes as [|r routes IH]; [reflexivity|].
  cbn [dispatch]. destruct Hsame as (Hm & Hp & Hrest).
  rewrite <- Hm, <- Hp.
  rewrite IH by (intros r0 Hin; apply Hroutes; now right).
  destruct (bool_decide (route_method r = method r1)); [|reflexivity].
  destruct (match_path (route_path r) (path r1) ∅) as [ps|]; [|reflexivity].
  destruct (Hroutes r (or_introl eq_refl)) as [Hms Hblind].
  apply (run_chain_blind _ _ _ _ r1 r2 w u1 u2 Hms Hblind Ha1 Ha2);
    try reflexivity.
  apply same_but_credential_with_params. repeat split; tauto.
Qed.

(** C9. No registration of the appointment router uses the permission
    gate: the four mutating routes are guarded by [checkForUser] alone.
    So two requests that differ only in their credential, both resolved by
    the identity service (to users of whatever roles), get the same reply
    and leave the same world. *)
Theorem appointment_routes_ignore_roles (rt : Runtime) :
  (forall r m, In r router -> In m (route_middlewares r) -> m = CheckForUser)
  /\ (forall r, In r router -> route_method r <> GET ->
                route_middlewares r = [CheckForUser])
  /\ (forall r1 r2 w u1 u2,
         same_but_credential r1 r2 ->
         authenticated r1 w u1 -> authenticated r2 w u2 ->
         dispatch router r1 w = dispatch router r2 w).
Proof.
  split; [|split].
  - intros r m Hr Hm. destruct (router_routes r Hr) as [Hms _].
    rewrite Forall_forall in Hms. apply Hms. now apply list_elem_of_In.
  - intros r [<- | [<- | [<- | [<- | [<- | []]]]]] Hget; cbn in *;
      try reflexivity; contradiction.
  - intros r1 r2 w u1 u2 Hsame Ha1 Ha2.
    now apply (dispatch_blind router r1 r2 w u1 u2 (router_routes)).
Qed.

Lemma appointment_routes_ignore_roles_witness :
  dispatch (@router plain_runtime)
    (request PATCH ["appointments"; A1_id; "status"] "owner-token"
             {[ "action" := JStr "approve" ]}) salon
  = dispatch (@router plain_runtime)
      (request PATCH ["appointments"; A1_id; "status"] "staff-token"
               {[ "action" := JStr "approve" ]}) salon
  /\ fst (dispatch (@router plain_runtime)
            (request PATCH ["appointments"; A1_id; "status"] "staff-token"
                     {[ "action" := JStr "approve" ]}) salon)
     = Sent (respond 200 (data_body (with_status confirmed (clock salon) stored)))
  /\ Forall (fun r => route_method r <> GET -> route_middlewares r = [CheckForUser])
            (@router plain_runtime).
Proof.
  split; [|split].
  - apply (proj2 (proj2 (appointment_routes_ignore_roles plain_runtime)))
      with (u1 := {| uid := "owner"; role := Some "businessOwner" |})
           (u2 := {| uid := "staff"; role := Some "businessStaff" |}).
    + repeat split.
    + eexists. split; reflexivity.
    + eexists. split; reflexivity.
  - vm_compute. reflexivity.
  - apply Forall_forall. intros r Hr.
    apply (proj1 (proj2 (appointment_routes_ignore_roles plain_runtime))).
    now apply list_elem_of_In.
Defined.

(** * Further properties of the code *)

(** ** The request logger *)

Lemma json_ind (P : json -> Prop) :
  P J_null -> (forall b, P (J_bool b)) -> (forall n, P (J_num n)) ->
  (forall s, P (J_str s)) ->
  (forall items, Forall P items -> P (J_arr items)) ->
  (forall fields, Forall (fun kv => P (snd kv)) fields -> P (J_obj fields)) ->
  forall j, P j.
Proof.
  intros Hnull Hbool Hnum Hstr Harr Hobj.
  fix IH 1. intros [| b | n | s | items | fields].
  - exact Hnull.
  - apply Hbool.
  - apply Hnum.
  - apply Hstr.
  - apply Harr. induction items as [|x items IHitems]; constructor.
    + apply IH.
    + exact IHitems.
  - apply Hobj. induction fields as [|[k v] fields IHfields]; constructor.
    + apply IH.
    + exact IHfields.
Qed.

Example censor_login_body :
  censorPasswords login_body
  = J_obj [ ("email", J_str "owner@example.com");
            ("Password", J_str "********");
            ("profile", J_obj [ ("old_passwords", J_str "********");
                                ("name", J_str "Ann") ]) ].
Proof. reflexivity. Qed.

Lemma censorPasswords_obj (fields : list (string * json)) :
  censorPasswords (J_obj fields) = J_obj (censor_fields fields).
Proof.
  reflexivity.
Qed.

Lemma primitive_redacted (v : json) : is_object v = false -> redacted v = true.
Proof. now destruct v. Qed.

Lemma censorPasswords_primitive (v : json) :
  is_object v = false -> censorPasswords v = v.
Proof. now destruct v. Qed.

Lemma censorPasswords_is_object (v : json) :
  is_object (censorPasswords v) = is_object v.
Proof. now destruct v. Qed.

(** X1. Whatever the logger prints has no password in it: in the result of
    [censorPasswords], every field whose key contains "password" (in any
    case), at any depth of objects and arrays, holds "********". *)
Theorem censorPasswords_redacts (j : json) : redacted (censorPasswords j) = true.
Proof.
  induction j as [| b | n | s | items IH | fields IH] using json_ind;
    try reflexivity.
  - cbn [censorPasswords redacted]. induction IH as [|x items Hx _ IHitems];
      [reflexivity|]. cbn. now rewrite Hx, IHitems.
  - rewrite censorPasswords_obj. cbn [redacted].
    induction IH as [|[k v] fields Hv _ IHfields]; [reflexivity|].
    cbn [censor_fields]. destruct (k =? "__proto__"); [exact IHfields|].
    cbn [forallb]. rewrite IHfields, andb_true_r.
    destruct (is_password k); [reflexivity|].
    destruct (is_object v) eqn:Hobj; [exact Hv | now apply primitive_redacted].
Qed.

(** X2. [censorPasswords] is idempotent: censoring a censored value changes
    nothing. *)
Theorem censorPasswords_idempotent (j : json) :
  censorPasswords (censorPasswords j) = censorPasswords j.
Proof.
  induction j as [| b | n | s | items IH | fields IH] using json_ind;
    try reflexivity.
  - cbn [censorPasswords]. f_equal. rewrite map_map.
    induction IH as [|x items Hx _ IHitems]; [reflexivity|].
    cbn. now rewrite Hx, IHitems.
  - rewrite !censorPasswords_obj. f_equal.
    induction IH as [|[k v] fields Hv _ IHfields]; [reflexivity|].
    cbn [censor_fields]. destruct (k =? "__proto__") eqn:Hk; [exact IHfields|].
    cbn [censor_fields]. rewrite Hk, IHfields. f_equal. f_equal.
    destruct (is_password k); [reflexivity|].
    destruct (is_object v) eqn:Hobj.
    + rewrite censorPasswords_is_object, Hobj. exact Hv.
    + now rewrite Hobj.
Qed.

(** X3. A value without any password-like key and without a [__proto__]
    key, at any depth, is logged as it is. *)
Theorem censorPasswords_plain (j : json) :
  plain j = true -> censorPasswords j = j.
Proof.
  induction j as [| b | n | s | items IH | fields IH] using json_ind;
    try reflexivity.
  - cbn [plain censorPasswords]. intros Hplain. f_equal.
    induction IH as [|x items Hx _ IHitems]; [reflexivity|].
    cbn in Hplain. apply andb_true_iff in Hplain. destruct Hplain as [H1 H2].
    cbn. now rewrite (Hx H1), (IHitems H2).
  - rewrite censorPasswords_obj. cbn [plain]. intros Hplain. f_equal.
    induction IH as [|[k v] fields Hv _ IHfields]; [reflexivity|].
    cbn in Hplain. apply andb_true_iff in Hplain. destruct Hplain as [H1 H2].
    apply andb_true_iff in H1. destruct H1 as [H1 Hpv].
    apply andb_true_iff in H1. destruct H1 as [Hpw Hproto].
    apply negb_true_iff in Hpw. apply negb_true_iff in Hproto.
    cbn [censor_fields]. rewrite Hproto, Hpw, (IHfields H2). f_equal. f_equal.
    cbn in Hv. destruct (is_object v) eqn:Hobj; [now apply Hv | reflexivity].
Qed.

Lemma censorPasswords_plain_witness : censorPasswords booking_body = booking_body.
Proof. apply censorPasswords_plain. reflexivity. Defined.

Lemma keys_censor_fields (fields : list (string * json)) :
  map fst (censor_fields fields)
  = filter (fun k => negb (k =? "__proto__")) (map fst fields).
Proof.
  induction fields as [|[k v] fields IH]; [reflexivity|].
  cbn [censor_fields map fst]. rewrite filter_cons.
  destruct (k =? "__proto__") eqn:Hk; cbn.
  - rewrite decide_False by (cbn; auto). exact IH.
  - rewrite decide_True by (cbn; auto). cbn. now rewrite IH.
Qed.

(** X4. The logged copy of an object has the keys of the original, in the
    same order, except [__proto__]; a field that is neither password-like
    nor [__proto__] and holds a primitive value is copied unchanged, and an
    array keeps its length. *)
Theorem censorPasswords_shape :
  (forall fields,
      keys (censorPasswords (J_obj fields))
      = filter (fun k => negb (k =? "__proto__")) (map fst fields))
  /\ (forall fields k v,
         In (k, v) fields -> k <> "__proto__" -> is_password k = false ->
         is_object v = false ->
         exists out, censorPasswords (J_obj fields) = J_obj out /\ In (k, v) out)
  /\ (forall items, exists out,
         censorPasswords (J_arr items) = J_arr out /\ length out = length items).
Proof.
  split; [|split].
  - intros fields. rewrite censorPasswords_obj. apply keys_censor_fields.
  - intros fields k v Hin Hk Hpw Hobj. exists (censor_fields fields).
    split; [apply censorPasswords_obj|].
    induction fields as [|[k0 v0] fields IH]; [destruct Hin|].
    cbn [censor_fields]. destruct Hin as [[= -> ->] | Hin].
    + destruct (String.eqb_spec k "__proto__"); [contradiction|].
      rewrite Hpw, Hobj. now left.
    + destruct (k0 =? "__proto__"); [now apply IH | right; now apply IH].
  - intros items. exists (map censorPasswords items). split; [reflexivity|].
    apply length_map.
Qed.

Lemma censorPasswords_shape_witness :
  exists out, censorPasswords login_body = J_obj out
              /\ In ("email", J_str "owner@example.com") out.
Proof.
  apply (proj1 (proj2 censorPasswords_shape)); [now left | discriminate | reflexivity ..].
Defined.

(** ** The permission table and the role string *)

Lemma role_known (role0 : string) (pm : PermissionsMap) :
  ALL_PERMISSIONS !! role0 = Some pm ->
  (role0 = "admin" /\ pm = permissionStatements)
  \/ (role0 = "businessOwner" /\ pm = businessOwnerPermissions)
  \/ (role0 = "businessStaff" /\ pm = businessStaffPermissions)
  \/ (role0 = "customer" /\ pm = customerPermissions).
Proof.
  unfold ALL_PERMISSIONS. intros Hpm.
  apply lookup_insert_Some in Hpm. destruct Hpm as [[<- <-] | [_ Hpm]]; [auto|].
  apply lookup_insert_Some in Hpm. destruct Hpm as [[<- <-] | [_ Hpm]]; [auto|].
  apply lookup_insert_Some in Hpm. destruct Hpm as [[<- <-] | [_ Hpm]]; [auto|].
  apply lookup_insert_Some in Hpm. destruct Hpm as [[<- <-] | [_ Hpm]]; [auto 6|].
  rewrite lookup_empty in Hpm. discriminate.
Qed.

Lemma granted_admin (resource : Resource) (action : Action) :
  granted "admin" resource action.
Proof. apply granted_dec_true. destruct resource, action; vm_compute; reflexivity. Qed.

(** X5. The table orders the roles: [admin] is granted every action on
    every resource, so it is granted whatever any role is granted;
    [businessOwner] is granted whatever [businessStaff] is; and no role but
    [admin] is granted anything on [admin-user].  A principal that holds
    [admin] among its roles passes every gate. *)
Theorem role_hierarchy :
  (forall resource action, granted "admin" resource action)
  /\ (forall resource action,
         granted "businessStaff" resource action ->
         granted "businessOwner" resource action)
  /\ (forall role0 action, granted role0 R_admin_user action -> role0 = "admin")
  /\ (forall userRoles resource action,
         In "admin" userRoles -> hasPermission userRoles resource action = true).
Proof.
  split; [exact granted_admin|]. split; [|split].
  - intros resource action Hg. apply granted_dec_true in Hg. apply granted_dec_true.
    destruct resource, action; vm_compute in Hg |- *; congruence.
  - intros role0 action (pm & allowed & Hpm & Hres & _).
    destruct (role_known _ _ Hpm)
      as [[-> _] | [[_ ->] | [[_ ->] | [_ ->]]]]; [reflexivity | discriminate ..].
  - intros userRoles resource action Hin. apply hasPermission_exists.
    exists "admin". split; [exact Hin | apply granted_admin].
Qed.

Lemma role_hierarchy_witness :
  granted "businessOwner" R_product_order A_delete
  /\ hasPermission ["customer"; "admin"] R_admin_user A_delete = true.
Proof.
  destruct role_hierarchy as (_ & Hstaff & _ & Hadmin). split.
  - apply Hstaff. apply granted_dec_true. reflexivity.
  - apply Hadmin. right. now left.
Defined.

Lemma append_cons (c : ascii) (a b : string) :
  String c a +:+ b = String c (a +:+ b).
Proof. reflexivity. Qed.

Lemma append_nil_r (a : string) : a +:+ EmptyString = a.
Proof. induction a as [|x a IH]; [reflexivity|]. now rewrite append_cons, IH. Qed.

Lemma append_assoc (a b c : string) : (a +:+ b) +:+ c = a +:+ (b +:+ c).
Proof. induction a as [|x a IH]; [reflexivity|]. now rewrite !append_cons, IH. Qed.

Lemma split_comma_from_nonempty (cur s : string) : split_comma_from cur s <> [].
Proof.
  revert cur. induction s as [|c s IH]; intros cur; cbn; [discriminate|].
  destruct (Ascii.eqb c ","); [discriminate | apply IH].
Qed.

Lemma join_cons (sep x : string) (l : list string) :
  l <> [] -> join sep (x :: l) = x +:+ sep +:+ join sep l.
Proof. destruct l; [contradiction | reflexivity]. Qed.

Lemma join_split_comma_from (cur s : string) :
  join "," (split_comma_from cur s) = cur +:+ s.
Proof.
  revert cur. induction s as [|c s IH]; intros cur; cbn [split_comma_from].
  - cbn [join]. now rewrite append_nil_r.
  - destruct (Ascii.eqb_spec c ",") as [-> | Hc].
    + rewrite join_cons by apply split_comma_from_nonempty.
      rewrite IH. reflexivity.
    + rewrite IH, append_assoc. reflexivity.
Qed.

Lemma has_comma_app (a b : string) : has_comma (a +:+ b) = has_comma a || has_comma b.
Proof.
  induction a as [|x a IH]; [reflexivity|].
  rewrite append_cons. cbn [has_comma]. now rewrite IH, orb_assoc.
Qed.

Lemma split_comma_from_pieces (cur s : string) :
  has_comma cur = false ->
  Forall (fun piece => has_comma piece = false) (split_comma_from cur s).
Proof.
  revert cur. induction s as [|c s IH]; intros cur Hcur; cbn [split_comma_from].
  - now constructor.
  - destruct (Ascii.eqb c ",") eqn:Hc.
    + constructor; [exact Hcur | now apply IH].
    + apply IH. rewrite has_comma_app, Hcur. cbn. now rewrite Hc.
Qed.

Lemma split_comma_from_plain (cur s : string) :
  has_comma s = false -> split_comma_from cur s = [cur +:+ s].
Proof.
  revert cur. induction s as [|c s IH]; intros cur Hs; cbn [split_comma_from].
  - now rewrite append_nil_r.
  - cbn in Hs. apply orb_false_iff in Hs. destruct Hs as [Hc Hs].
    rewrite Hc, (IH _ Hs), append_assoc. reflexivity.
Qed.

(** X6. Splitting the role string loses nothing: joining the pieces with
    commas gives the string back.  There is always at least one piece, no
    piece has a comma in it, and a string without a comma is its own single
    piece. *)
Theorem split_comma_round_trip (s : string) :
  join "," (split_comma s) = s
  /\ split_comma s <> []
  /\ Forall (fun piece => has_comma piece = false) (split_comma s)
  /\ (has_comma s = false -> split_comma s = [s]).
Proof.
  unfold split_comma. split; [apply join_split_comma_from|].
  split; [apply split_comma_from_nonempty|].
  split; [now apply split_comma_from_pieces|].
  apply split_comma_from_plain.
Qed.

Lemma split_comma_round_trip_witness : split_comma "businessOwner" = ["businessOwner"].
Proof. apply (split_comma_round_trip "businessOwner"). reflexivity. Defined.

(** ** The credential and the gate *)

Lemma getUser_inl (req : Request) (w : World) (res : Response) :
  getUser req w = inl res -> res = unauthorized.
Proof.
  unfold getUser.
  destruct (match authorization req with
            | Some h => split_second "Bearer " h | None => None end) as [t|];
    [|now intros [= <-]].
  destruct (t =? EmptyString); [now intros [= <-]|].
  destruct (Supabase.error (sessions w t)); [now intros [= <-] | discriminate].
Qed.

Lemma index_absent (s : string) :
  string_includes "Bearer " s = false -> String.index 0 "Bearer " s = None.
Proof.
  induction s as [|c s IH]; [reflexivity|].
  cbn [string_includes]. intros Hs. apply orb_false_iff in Hs. destruct Hs as [Hp Hs].
  cbn [String.index]. rewrite Hp, (IH Hs). reflexivity.
Qed.

Lemma prefix_nil (y : string) : String.prefix EmptyString y = true.
Proof. now destruct y. Qed.

Lemma prefix_app (s x y : string) :
  String.prefix s x = true -> String.prefix s (x +:+ y) = true.
Proof.
  revert x. induction s as [|a s IH]; intros x; [intros _; apply prefix_nil|].
  destruct x as [|b x]; [discriminate|].
  rewrite append_cons. cbn [String.prefix].
  destruct (ascii_dec a b); [apply IH | discriminate].
Qed.

Lemma prefix_split (s x : string) :
  String.prefix s x = true -> exists r, x = s +:+ r.
Proof.
  revert x. induction s as [|a s IH]; intros x; [intros _; now exists x|].
  destruct x as [|b x]; [discriminate|]. cbn [String.prefix].
  destruct (ascii_dec a b) as [<- | _]; [|discriminate].
  intros Hpre. destruct (IH x Hpre) as [r ->]. now exists r.
Qed.

(** "Bearer " ends with the only space it has, so an occurrence cannot
    begin in the text before another one and end inside it. *)
Lemma bearer_overlap (x rest : string) :
  x <> EmptyString -> String.prefix "Bearer " x = false ->
  String.prefix "Bearer " (x +:+ "Bearer " +:+ rest) = false.
Proof.
  intros Hne Hpre.
  change ("Bearer " +:+ rest)
    with (String "B" (String "e" (String "a" (String "r" (String "e"
            (String "r" (String " " rest))))))).
  destruct x as [|c1 [|c2 [|c3 [|c4 [|c5 [|c6 [|c7 x]]]]]]]; [contradiction | ..];
    rewrite ?append_cons; change (EmptyString +:+ ?y) with y.
  7: { cbn [String.prefix] in *. rewrite prefix_nil in *. exact Hpre. }
  all: clear Hpre Hne; cbn [String.prefix];
    repeat match goal with
           | |- context [ascii_dec ?a ?b] =>
               destruct (ascii_dec a b) as [Heq | Hneq];
               [try discriminate Heq; try subst | reflexivity]
           end.
Qed.

Lemma index_first (p rest : string) :
  string_includes "Bearer " p = false ->
  String.index 0 "Bearer " (p +:+ "Bearer " +:+ rest) = Some (String.length p).
Proof.
  induction p as [|c p IH]; intros Hp.
  - destruct rest; vm_compute; reflexivity.
  - cbn [string_includes] in Hp. apply orb_false_iff in Hp. destruct Hp as [Hpre Hp].
    pose proof (bearer_overlap (String c p) rest ltac:(discriminate) Hpre) as Hover.
    rewrite append_cons in Hover |- *. cbn [String.index].
    rewrite Hover, (IH Hp). reflexivity.
Qed.

Lemma length_append (a b : string) :
  String.length (a +:+ b) = String.length a + String.length b.
Proof.
  induction a as [|c a IH]; [reflexivity|]. rewrite append_cons. cbn. now rewrite IH.
Qed.

Lemma substring_all (s : string) : substring 0 (String.length s) s = s.
Proof. induction s as [|c s IH]; [reflexivity|]. cbn. now rewrite IH. Qed.

Lemma substring_skip (a b : string) :
  substring (String.length a) (String.length b) (a +:+ b) = b.
Proof.
  induction a as [|c a IH]; [apply substring_all|].
  rewrite append_cons. cbn. exact IH.
Qed.

Lemma substring_prefix (a b : string) :
  substring 0 (String.length a) (a +:+ b) = a.
Proof.
  induction a as [|c a IH]; [now destruct b|].
  rewrite append_cons. cbn. now rewrite IH.
Qed.

(** The second piece of the split: the text after the first "Bearer ", up
    to the next one or to the end. *)
Lemma split_second_between (p t tail : string) :
  string_includes "Bearer " p = false -> string_includes "Bearer " t = false ->
  tail = EmptyString \/ (exists q, tail = "Bearer " +:+ q) ->
  split_second "Bearer " (p +:+ "Bearer " +:+ t +:+ tail) = Some t.
Proof.
  intros Hp Ht Htail. unfold split_second. rewrite (index_first p (t +:+ tail) Hp).
  rewrite <- append_assoc.
  replace (String.length ((p +:+ "Bearer ") +:+ t +:+ tail)
           - (String.length p + String.length "Bearer "))
    with (String.length (t +:+ tail))
    by (rewrite !length_append; lia).
  replace (String.length p + String.length "Bearer ")
    with (String.length (p +:+ "Bearer ")) by apply length_append.
  rewrite substring_skip.
  destruct Htail as [-> | [q ->]].
  - rewrite append_nil_r, (index_absent t Ht). reflexivity.
  - rewrite (index_first t q Ht), substring_prefix. reflexivity.
Qed.

Lemma first_occurrence (h : string) :
  string_includes "Bearer " h = true ->
  exists p r, h = p +:+ "Bearer " +:+ r /\ string_includes "Bearer " p = false.
Proof.
  induction h as [|c h IH]; [discriminate|].
  cbn [string_includes]. intros Hin. apply orb_true_iff in Hin.
  destruct (String.prefix "Bearer " (String c h)) eqn:Hpre.
  - destruct (prefix_split _ _ Hpre) as [r Hr]. exists EmptyString, r.
    split; [exact Hr | reflexivity].
  - destruct Hin as [Hin | Hin]; [discriminate|].
    destruct (IH Hin) as (p & r & -> & Hp). exists (String c p), r.
    split; [reflexivity|]. cbn [string_includes]. rewrite Hp, orb_false_r.
    destruct (String.prefix "Bearer " (String c p)) eqn:Hpre'; [|reflexivity].
    apply (prefix_app _ _ ("Bearer " +:+ r)) in Hpre'.
    rewrite append_cons in Hpre'. rewrite Hpre' in Hpre. discriminate.
Qed.

(** Every header in which "Bearer " occurs is of the form that
    [split_second_between] reads. *)
Lemma header_pieces (h : string) :
  string_includes "Bearer " h = true ->
  exists p t tail,
    h = p +:+ "Bearer " +:+ t +:+ tail
    /\ string_includes "Bearer " p = false
    /\ string_includes "Bearer " t = false
    /\ (tail = EmptyString \/ (exists q, tail = "Bearer " +:+ q)).
Proof.
  intros Hin. destruct (first_occurrence h Hin) as (p & r & -> & Hp).
  destruct (string_includes "Bearer " r) eqn:Hr.
  - destruct (first_occurrence r Hr) as (t & q & -> & Ht).
    exists p, t, ("Bearer " +:+ q). repeat split; eauto.
  - exists p, r, EmptyString. rewrite append_nil_r. repeat split; auto.
Qed.

(** X7. The credential is the second piece of the [Authorization] header
    split at "Bearer ": the text between the first "Bearer " and the next
    one, or the end of the header, wherever the first one stands.  A
    request without the header, whose header has no "Bearer " in it, or
    whose second piece is empty, is answered 401; otherwise the identity
    service is asked about that piece and its answer decides: 401 on an
    error, and else the request goes on with the session's user attached.
    Every header in which "Bearer " occurs is read in this way. *)
Theorem bearer_token (req : Request) (w : World) :
  (authorization req = None -> getUser req w = inl unauthorized)
  /\ (forall h, authorization req = Some h ->
                string_includes "Bearer " h = false ->
                getUser req w = inl unauthorized)
  /\ (forall p t tail,
         authorization req = Some (p +:+ "Bearer " +:+ t +:+ tail) ->
         string_includes "Bearer " p = false ->
         string_includes "Bearer " t = false ->
         tail = EmptyString \/ (exists q, tail = "Bearer " +:+ q) ->
         getUser req w
         = if t =? EmptyString then inl unauthorized
           else if Supabase.error (sessions w t) then inl unauthorized
           else inr (with_user (Supabase.user (sessions w t)) req))
  /\ (forall h, authorization req = Some h ->
                string_includes "Bearer " h = true ->
                exists p t tail,
                  h = p +:+ "Bearer " +:+ t +:+ tail
                  /\ string_includes "Bearer " p = false
                  /\ string_includes "Bearer " t = false
                  /\ (tail = EmptyString \/ (exists q, tail = "Bearer " +:+ q))).
Proof.
  split; [|split; [|split]].
  - intros Hnone. unfold getUser. now rewrite Hnone.
  - intros h Hh Habsent. unfold getUser, split_second.
    now rewrite Hh, (index_absent h Habsent).
  - intros p t tail Hh Hp Ht Htail. unfold getUser.
    now rewrite Hh, (split_second_between p t tail Hp Ht Htail).
  - intros h _ Hin. now apply header_pieces.
Qed.

Lemma bearer_token_witness :
  getUser (with_header "bearer owner-token") salon = inl unauthorized
  /\ getUser (with_header "Bearer owner-token") salon
     = inr (with_user (Some {| uid := "owner"; role := Some "businessOwner" |})
                      (with_header "Bearer owner-token"))
  /\ getUser (with_header "Basic x, Bearer staff-token") salon
     = inr (with_user (Some {| uid := "staff"; role := Some "businessStaff" |})
                      (with_header "Basic x, Bearer staff-token"))
  /\ getUser (with_header "Bearer staff-tokenBearer owner-token") salon
     = inr (with_user (Some {| uid := "staff"; role := Some "businessStaff" |})
                      (with_header "Bearer staff-tokenBearer owner-token"))
  /\ getUser (with_header "Bearer Bearer owner-token") salon = inl unauthorized.
Proof.
  split; [|split; [|split; [|split]]].
  - apply (proj1 (proj2 (bearer_token (with_header "bearer owner-token") salon))
             "bearer owner-token"); reflexivity.
  - apply (proj1 (proj2 (proj2 (bearer_token (with_header "Bearer owner-token") salon)))
             EmptyString "owner-token" EmptyString); [reflexivity .. | now left].
  - apply (proj1 (proj2 (proj2 (bearer_token
                                  (with_header "Basic x, Bearer staff-token") salon)))
             "Basic x, " "staff-token" EmptyString); [reflexivity .. | now left].
  - apply (proj1 (proj2 (proj2 (bearer_token
                                  (with_header "Bearer staff-tokenBearer owner-token")
                                  salon)))
             EmptyString "staff-token" "Bearer owner-token");
      [reflexivity .. | right; now exists "owner-token"].
  - apply (proj1 (proj2 (proj2 (bearer_token (with_header "Bearer Bearer owner-token")
                                  salon)))
             EmptyString EmptyString "Bearer owner-token");
      [reflexivity .. | right; now exists "owner-token"].
Defined.

(** X8. The gate authenticates before it authorizes.  To a request that
    [checkForUser] answers (with 401), [canAccessResource] gives the same
    answer for every resource and action, never 403; and whenever the gate
    lets a request through, [checkForUser] lets it through with the same
    user attached. *)
Theorem gate_authenticates_first (resource : Resource) (action : Action)
    (req : Request) (w : World) :
  (forall res, checkForUser req w = Respond res ->
               res = unauthorized /\
               canAccessResource resource action req w = Respond res)
  /\ (forall req', canAccessResource resource action req w = Next req' ->
                   checkForUser req w = Next req')
  /\ checkForUser req w <> Throw.
Proof.
  unfold checkForUser, canAccessResource. split; [|split].
  - intros res. destruct (getUser req w) as [res0 | req'] eqn:Hget; [|discriminate].
    intros [= <-]. split; [now apply (getUser_inl req w) | reflexivity].
  - intros req'. destruct (getUser req w) as [res0 | req0]; [discriminate|].
    destruct (Http.user req0) as [u|]; [|discriminate].
    destruct (role u) as [r|]; [|discriminate].
    destruct (r =? EmptyString); [discriminate|].
    destruct (hasPermission (split_comma r) resource action); [|discriminate].
    now intros [= <-].
  - now destruct (getUser req w).
Qed.

Lemma gate_authenticates_first_witness :
  canAccessResource R_appointment A_view (with_header "Basic abc") salon
  = Respond unauthorized
  /\ checkForUser (with_header "Bearer owner-token") salon
     = Next (with_user (Some {| uid := "owner"; role := Some "businessOwner" |})
                       (with_header "Bearer owner-token")).
Proof.
  split.
  - apply (proj1 (gate_authenticates_first R_appointment A_view
                    (with_header "Basic abc") salon)). reflexivity.
  - apply (proj1 (proj2 (gate_authenticates_first R_appointment A_view
                           (with_header "Bearer owner-token") salon))). reflexivity.
Defined.

(** X9. A principal without roles is refused everywhere: when the session's
    user has no role, or an empty role string, the gate answers 403 for
    every resource and action and the handler is not run.  When the session
    resolves without error but without a user, [checkForUser] lets the
    request through while the gate ends without an answer. *)
Theorem no_roles_no_access (resource : Resource) (action : Action)
    (req : Request) (w : World) (handler : Request -> M Response) :
  (forall u, authenticated req w u ->
             role u = None \/ role u = Some EmptyString ->
             run_chain [CanAccessResource resource action] handler req w
             = (Sent forbidden, w))
  /\ (forall req', getUser req w = inr req' -> Http.user req' = None ->
                   run_chain [CanAccessResource resource action] handler req w
                   = (Unanswered, w)
                   /\ run_chain [CheckForUser] handler req w
                      = (let '(res, w') := handler req' w in (Sent res, w'))).
Proof.
  split.
  - intros u (req' & Hget & Hu) Hrole. cbn [run_chain run_middleware].
    unfold canAccessResource. rewrite Hget, Hu.
    now destruct Hrole as [-> | ->].
  - intros req' Hget Hu. cbn [run_chain run_middleware].
    unfold canAccessResource, checkForUser. rewrite Hget, Hu. split; reflexivity.
Qed.

Lemma no_roles_no_access_witness :
  run_chain [CanAccessResource R_business A_view] deleteAppointment
            (with_header "Bearer any") roleless
  = (Sent forbidden, roleless)
  /\ run_chain [CanAccessResource R_business A_view] deleteAppointment
               (with_header "Bearer any") userless
     = (Unanswered, userless).
Proof.
  split.
  - apply (proj1 (no_roles_no_access R_business A_view (with_header "Bearer any")
                    roleless deleteAppointment) {| uid := "new"; role := None |}).
    + eexists. split; reflexivity.
    + now left.
  - apply (proj2 (no_roles_no_access R_business A_view (with_header "Bearer any")
                    userless deleteAppointment)
             (with_user None (with_header "Bearer any"))); reflexivity.
Defined.

(** ** The routes, with and without a credential *)

Lemma getUser_with_params (ps : gmap string string) (req : Request) (w : World) :
  getUser (with_params ps req) w
  = match getUser req w with
    | inl res => inl res
    | inr req' => inr (with_params ps req')
    end.
Proof.
  unfold getUser. cbn [authorization with_params].
  destruct (match authorization req with
            | Some h => split_second "Bearer " h | None => None end) as [t|];
    [|reflexivity].
  destruct (t =? EmptyString); [reflexivity|].
  now destruct (Supabase.error (sessions w t)).
Qed.

Lemma guarded_401 (handler : Request -> M Response) (ms : list Middleware)
    (ps : gmap string string) (req : Request) (w : World) (res : Response) :
  getUser req w = inl res ->
  run_chain (CheckForUser :: ms) handler (with_params ps req) w
  = (Sent unauthorized, w).
Proof.
  intros Hget. cbn [run_chain run_middleware]. unfold checkForUser.
  rewrite getUser_with_params, Hget. now rewrite (getUser_inl _ _ _ Hget).
Qed.

(** X10. The four mutating routes need a credential.  A POST on
    [/businesses/:businessId/appointments], a PUT or a DELETE on
    [/appointments/:id] and a PATCH on [/appointments/:id/status] that
    [getUser] refuses are answered 401 by [checkForUser]: the handler is
    not run, no query is sent and the world stays as it was, whatever the
    body is. *)
Theorem mutating_routes_need_credential (rt : Runtime) (req : Request) (w : World)
    (res : Response) :
  getUser req w = inl res ->
  (forall b, method req = POST -> path req = ["businesses"; b; "appointments"] ->
             b <> EmptyString -> dispatch router req w = (Sent unauthorized, w))
  /\ (forall i, method req = PUT \/ method req = DELETE ->
                path req = ["appointments"; i] -> i <> EmptyString ->
                dispatch router req w = (Sent unauthorized, w))
  /\ (forall i, method req = PATCH -> path req = ["appointments"; i; "status"] ->
                i <> EmptyString -> dispatch router req w = (Sent unauthorized, w)).
Proof.
  intros Hget. split; [|split].
  - intros b Hpost Hpath Hb. unfold router.
    cbn [dispatch route_method route_path route_middlewares route_handler].
    rewrite Hpost, Hpath. cbn [match_path].
    rewrite (bool_decide_eq_false_2 (GET = POST)) by discriminate.
    rewrite (bool_decide_eq_true_2 (POST = POST)) by reflexivity.
    destruct (String.eqb_spec b EmptyString); [contradiction|].
    cbn. apply (guarded_401 _ [] _ req w res Hget).
  - intros i Hmeth Hpath Hi. unfold router.
    cbn [dispatch route_method route_path route_middlewares route_handler].
    rewrite Hpath. cbn [match_path].
    destruct (String.eqb_spec i EmptyString); [contradiction|].
    destruct Hmeth as [-> | ->];
      repeat match goal with
             | |- context [bool_decide (?a = ?b)] =>
                 first [ rewrite (bool_decide_eq_true_2 (a = b)) by reflexivity
                       | rewrite (bool_decide_eq_false_2 (a = b)) by discriminate ]
             end; cbn; apply (guarded_401 _ [] _ req w res Hget).
  - intros i Hpatch Hpath Hi. unfold router.
    cbn [dispatch route_method route_path route_middlewares route_handler].
    rewrite Hpatch, Hpath. cbn [match_path].
    destruct (String.eqb_spec i EmptyString); [contradiction|].
    repeat match goal with
           | |- context [bool_decide (?a = ?b)] =>
               first [ rewrite (bool_decide_eq_true_2 (a = b)) by reflexivity
                     | rewrite (bool_decide_eq_false_2 (a = b)) by discriminate ]
           end; cbn; apply (guarded_401 _ [] _ req w res Hget).
Qed.

Lemma mutating_routes_need_credential_witness :
  dispatch (@router plain_runtime)
    (anonymous DELETE ["appointments"; A1_id] ∅) salon
  = (Sent unauthorized, salon)
  /\ dispatch (@router plain_runtime)
       (anonymous PATCH ["appointments"; A1_id; "status"]
                  {[ "action" := JStr "cancel" ]}) salon
     = (Sent unauthorized, salon).
Proof.
  split.
  - apply (proj1 (proj2 (mutating_routes_need_credential plain_runtime
                           (anonymous DELETE ["appointments"; A1_id] ∅) salon
                           unauthorized eq_refl))
             A1_id); [now right | reflexivity | discriminate].
  - apply (proj2 (proj2 (mutating_routes_need_credential plain_runtime
                           (anonymous PATCH ["appointments"; A1_id; "status"]
                                      {[ "action" := JStr "cancel" ]}) salon
                           unauthorized eq_refl))
             A1_id); [reflexivity | reflexivity | discriminate].
Defined.

(** X11. The listing route is open: [GET /businesses/:businessId/appointments]
    has no guard, so whatever credential the request carries, or none, the
    listing query is sent and the answer is its rows with 200, or 500 with
    the message of the database when it reports an error. *)
Theorem listing_needs_no_credential (rt : Runtime) (req : Request) (w : World)
    (b : string) :
  method req = GET -> path req = ["businesses"; b; "appointments"] ->
  b <> EmptyString ->
  let search := search_term (get (query req) "search") in
  let q := SelectBusinessAppointments b search in
  dispatch router req w
  = match reports w q with
    | Some e => (Sent (respond 500 (error_body (details e))), received q w)
    | None => (Sent (respond 200 (rows_body (listing w b search))), received q w)
    end.
Proof.
  intros Hget Hpath Hb. cbv zeta. unfold router.
  cbn [dispatch route_method route_path route_middlewares route_handler].
  rewrite Hget, Hpath. cbn [match_path].
  rewrite (bool_decide_eq_true_2 (GET = GET)) by reflexivity.
  destruct (String.eqb_spec b EmptyString); [contradiction|].
  rewrite !String.eqb_refl.
  cbn [run_chain]. unfold getBusinessAppointments, select_business_appointments, ask.
  run. cbn [query with_params].
  replace (param (with_params (<["businessId" := b]> ∅) req) "businessId") with b
    by (unfold param; cbn [params with_params]; now rewrite lookup_insert_eq).
  now destruct (reports w _).
Qed.

Lemma listing_needs_no_credential_witness :
  dispatch (@router plain_runtime)
    (anonymous GET ["businesses"; B_id; "appointments"] ∅) salon
  = (Sent (respond 200 (rows_body [])),
     received (SelectBusinessAppointments B_id None) salon).
Proof.
  apply (listing_needs_no_credential plain_runtime
           (anonymous GET ["businesses"; B_id; "appointments"] ∅) salon B_id);
    [reflexivity | reflexivity | discriminate].
Defined.

(** ** What the schemas let through *)

Lemma value_times (o : gmap string jsval) (data : CreateData) :
  CreateAppointmentSchema_value o = Some data ->
  get o "start_time" = JStr (start_time data) /\
  get o "end_time" = JStr (end_time data).
Proof.
  unfold CreateAppointmentSchema_value.
  destruct (required_string (get o "service_id")); [|discriminate].
  destruct (nullish_string (get o "user_id")); [|discriminate].
  destruct (nullish_string (get o "staff_user_id")); [|discriminate].
  destruct (nullish_string (get o "business_customer_id")); [|discriminate].
  destruct (get o "start_time") as [| | | |st|]; try discriminate.
  destruct (get o "end_time") as [| | | |en|]; try discriminate.
  destruct (status_or_default (get o "status")); [|discriminate].
  cbn. intros [= <-]. split; reflexivity.
Qed.

Lemma unordered_create_issue {rt : Runtime} (o : gmap string jsval) (st en : string) :
  get o "start_time" = JStr st -> get o "end_time" = JStr en ->
  date_gt (Date_parse en) (Date_parse st) = false ->
  (exists i, In i (CreateAppointmentSchema_issues o))
  /\ (aborted (CreateAppointmentSchema_shape o) = false ->
      In (Issue order_message true) (CreateAppointmentSchema_issues o)).
Proof.
  intros Hst Hen Horder. unfold CreateAppointmentSchema_issues.
  destruct (CreateAppointmentSchema_value o) as [data|] eqn:Hv.
  - destruct (value_times o data Hv) as [Hst' Hen'].
    rewrite Hst in Hst'. rewrite Hen in Hen'.
    injection Hst' as Hst'. injection Hen' as Hen'.
    assert (Hin : aborted (CreateAppointmentSchema_shape o) = false ->
                  In (Issue order_message true)
                     (CreateAppointmentSchema_shape o
                      ++ refine (CreateAppointmentSchema_shape o) (either_customer data)
                           "Either 'user_id' or 'business_customer_id' must be non-null."
                      ++ refine (CreateAppointmentSchema_shape o) (end_after_start data)
                           "End time must be strictly greater than start time.")%list).
    { intros Hab. apply in_or_app. right. apply in_or_app. right.
      unfold refine, end_after_start. rewrite Hab, <- Hst', <- Hen', Horder.
      now left. }
    split; [|exact Hin].
    destruct (aborted (CreateAppointmentSchema_shape o)) eqn:Hab.
    + destruct (aborted_nonempty _ Hab) as [i Hi]. exists i.
      apply in_or_app. now left.
    + eexists. exact (Hin eq_refl).
  - split.
    + destruct (CreateAppointmentSchema_shape o) as [|i l] eqn:Hs.
      * destruct (shape_nil_value o Hs) as [d Hd]. rewrite Hv in Hd. discriminate.
      * exists i. now left.
    + intros Hab. destruct (unaborted_value o Hab) as [d Hd].
      rewrite Hv in Hd. discriminate.
Qed.

Lemma updateAppointment_Failure {rt : Runtime} (req : Request) (w : World)
    (i : issue) (issues : list issue) :
  UpdateAppointmentSchema_safeParse (body req) = Failure (i :: issues) ->
  updateAppointment req w
  = (respond 400 (error_body (issues_message (i :: issues))), w).
Proof. intros Hparse. unfold updateAppointment. now rewrite Hparse. Qed.

Lemma pick_lookup (ks : list string) (o : gmap string jsval) (k : string) :
  pick ks o !! k = if bool_decide (k ∈ ks) then o !! k else None.
Proof.
  induction ks as [|k0 ks IH]; [apply lookup_empty|].
  cbn [pick foldr]. fold (pick ks o).
  destruct (decide (k0 = k)) as [-> | Hne].
  - rewrite (bool_decide_eq_true_2 (k ∈ k :: ks)) by apply list_elem_of_here.
    destruct (o !! k) as [v|] eqn:Hk.
    + apply lookup_insert_eq.
    + rewrite IH. now destruct (bool_decide (k ∈ ks)).
  - assert (Hiff : bool_decide (k ∈ k0 :: ks) = bool_decide (k ∈ ks)).
    { apply bool_decide_ext. rewrite elem_of_cons.
      split; [intros [Heq | Hin]; [now subst | exact Hin] | now right]. }
    rewrite Hiff, <- IH. destruct (o !! k0); [now apply lookup_insert_ne | reflexivity].
Qed.

Lemma get_pick (o : gmap string jsval) (k : string) :
  In k UpdateAppointmentSchema_keys ->
  get (pick UpdateAppointmentSchema_keys o) k = get o k.
Proof.
  intros Hin. unfold get. rewrite pick_lookup.
  now rewrite (bool_decide_eq_true_2 _ (proj2 (list_elem_of_In _ _) Hin)).
Qed.

Lemma unordered_update_issue {rt : Runtime} (o : gmap string jsval) (st en : string) :
  get o "start_time" = JStr st -> get o "end_time" = JStr en ->
  date_gt (Date_parse en) (Date_parse st) = false ->
  exists i issues,
    UpdateAppointmentSchema_safeParse o = Failure (i :: issues)
    /\ (aborted (UpdateAppointmentSchema_shape o) = false ->
        In (Issue update_order_message true) (i :: issues)).
Proof.
  intros Hst Hen Horder. unfold UpdateAppointmentSchema_safeParse.
  assert (Hrefine : update_end_after_start (pick UpdateAppointmentSchema_keys o) = false).
  { unfold update_end_after_start.
    rewrite !get_pick by (cbn; auto 10). rewrite Hst, Hen. exact Horder. }
  rewrite Hrefine.
  set (issues := (_ ++ _)%list).
  assert (Hin : aborted (UpdateAppointmentSchema_shape o) = false ->
                In (Issue update_order_message true) issues).
  { intros Hab. subst issues. apply in_or_app. right. apply in_or_app. right.
    unfold refine. rewrite Hab. now left. }
  assert (Hsome : issues <> []).
  { destruct (aborted (UpdateAppointmentSchema_shape o)) eqn:Hab.
    - destruct (aborted_nonempty _ Hab) as [i Hi]. subst issues.
      intros Hnil. apply app_eq_nil in Hnil. destruct Hnil as [Hnil _].
      rewrite Hnil in Hi. destruct Hi.
    - intros Hnil. specialize (Hin eq_refl). rewrite Hnil in Hin. destruct Hin. }
  destruct issues as [|i l]; [contradiction|]. eauto.
Qed.

(** X12. An appointment whose end is not after its start, as the engine's
    [Date] reads the two strings, is not accepted: a creation, and an update
    that carries both times, are answered 400 and no query is sent, whatever
    the other fields are; when every field has the type its schema expects,
    the message of the rule on the order is among the issues.  This
    includes times the engine cannot read. *)
Theorem end_must_follow_start (rt : Runtime) (req : Request) (w : World)
    (st en : string) :
  get (body req) "start_time" = JStr st -> get (body req) "end_time" = JStr en ->
  date_gt (Date_parse en) (Date_parse st) = false ->
  (exists issues,
      createAppointment req w
      = (respond 400 (error_body (issues_message issues)), w)
      /\ (aborted (CreateAppointmentSchema_shape (body req)) = false ->
          In (Issue order_message true) issues))
  /\ (exists issues,
         updateAppointment req w
         = (respond 400 (error_body (issues_message issues)), w)
         /\ (aborted (UpdateAppointmentSchema_shape (body req)) = false ->
             In (Issue update_order_message true) issues)).
Proof.
  intros Hst Hen Horder. split.
  - destruct (unordered_create_issue (body req) st en Hst Hen Horder) as [[i Hi] Hin].
    eexists. split; [exact (createAppointment_Failure req w i Hi) | exact Hin].
  - destruct (unordered_update_issue (body req) st en Hst Hen Horder)
      as (i & issues & Hparse & Hin).
    eexists. split; [exact (updateAppointment_Failure req w i issues Hparse) | exact Hin].
Qed.

(** On an engine that reads a time of day, a creation whose only defect is
    the order of its times is refused with the message of that rule, and
    the same window the right way round is created; on an engine that reads
    the date-times, so it is with an update. *)
Lemma end_must_follow_start_witness :
  (exists issues,
      createAppointment (rt := lenient_runtime)
        (create_request B_id "owner-token" backwards_body) salon
      = (respond 400 (error_body (issues_message issues)), salon)
      /\ In (Issue order_message true) issues)
  /\ (exists issues,
         updateAppointment (rt := strict_runtime)
           (put_request A1_id unordered_times) salon
         = (respond 400 (error_body (issues_message issues)), salon)
         /\ In (Issue update_order_message true) issues)
  /\ createAppointment (rt := lenient_runtime)
       (create_request B_id "owner-token" backwards_body) salon
     = (respond 400 (error_body order_message), salon)
  /\ status_code
       (fst (createAppointment (rt := lenient_runtime)
               (create_request B_id "owner-token" time_of_day_body) salon)) = 201
  /\ updateAppointment (rt := strict_runtime)
       (put_request A1_id unordered_times) salon
     = (respond 400 (error_body update_order_message), salon)
  /\ status_code
       (fst (updateAppointment (rt := strict_runtime)
               (put_request A1_id ordered_times) salon)) = 200.
Proof.
  split; [|split; [|repeat split; vm_compute; reflexivity]].
  - destruct (proj1 (end_must_follow_start lenient_runtime
                       (create_request B_id "owner-token" backwards_body) salon
                       "11:00:00" "10:00:00" eq_refl eq_refl eq_refl))
      as (issues & Hrun & Hin).
    exists issues. split; [exact Hrun | apply Hin; vm_compute; reflexivity].
  - destruct (proj2 (end_must_follow_start strict_runtime
                       (put_request A1_id unordered_times) salon
                       "2024-02-15T12:00:00Z" "2024-02-15T11:00:00Z"
                       eq_refl eq_refl eq_refl))
      as (issues & Hrun & Hin).
    exists issues. split; [exact Hrun | apply Hin; vm_compute; reflexivity].
Defined.

(** ** Updates: what is written and what is not *)

Lemma patched_columns (a a' : Appointment) (patch : gmap string jsval) :
  patched a patch = Some a' ->
  text_column (patch !! "id") (Some (id a)) = Some (id a')
  /\ text_column (patch !! "business_id") (Some (business_id a)) = Some (business_id a')
  /\ text_column (patch !! "service_id") (Some (Supabase.service_id a))
     = Some (Supabase.service_id a')
  /\ ref_column (patch !! "user_id") (Supabase.user_id a) = Some (Supabase.user_id a')
  /\ ref_column (patch !! "staff_user_id") (Supabase.staff_user_id a)
     = Some (Supabase.staff_user_id a')
  /\ ref_column (patch !! "business_customer_id") (Supabase.business_customer_id a)
     = Some (Supabase.business_customer_id a')
  /\ text_column (patch !! "start_time") (Some (Supabase.start_time a))
     = Some (Supabase.start_time a')
  /\ text_column (patch !! "end_time") (Some (Supabase.end_time a))
     = Some (Supabase.end_time a')
  /\ status_column (patch !! "status") (Some (Supabase.status a))
     = Some (Supabase.status a')
  /\ text_column (patch !! "created_at") (Some (created_at a)) = Some (created_at a')
  /\ text_column (patch !! "updated_at") (Some (updated_at a)) = Some (updated_at a').
Proof.
  unfold patched, write_row.
  destruct (text_column (patch !! "id") _); [|discriminate].
  destruct (text_column (patch !! "business_id") _); [|discriminate].
  destruct (text_column (patch !! "service_id") _); [|discriminate].
  destruct (ref_column (patch !! "user_id") _); [|discriminate].
  destruct (ref_column (patch !! "staff_user_id") _); [|discriminate].
  destruct (ref_column (patch !! "business_customer_id") _); [|discriminate].
  destruct (text_column (patch !! "start_time") _); [|discriminate].
  destruct (text_column (patch !! "end_time") _); [|discriminate].
  destruct (status_column (patch !! "status") _); [|discriminate].
  destruct (text_column (patch !! "created_at") _); [|discriminate].
  destruct (text_column (patch !! "updated_at") _); [|discriminate].
  cbn. intros [= <-]. cbn. repeat split.
Qed.

(** The answers of an update, one by one. *)
Lemma update_appointment_cases (i : string) (patch : gmap string jsval) (w : World) :
  let q := UpdateAppointment i patch in
  (exists e, update_appointment i patch w = (Error e, received q w))
  \/ (exists a a',
         reports w q = None /\ known_columns patch = true /\
         appointments w !! i = Some a /\ patched a patch = Some a' /\
         ((id a' = i /\
           update_appointment i patch w = (Data a', updated i patch a' w))
          \/ (id a' <> i /\ appointments w !! id a' = None /\
              update_appointment i patch w
              = (Data a',
                 with_appointments (<[id a' := a']> (base.delete i (appointments w)))
                                   (received q w))))).
Proof.
  cbv zeta. unfold update_appointment, ask.
  destruct (reports w (UpdateAppointment i patch)) as [e|] eqn:Hrep; [left; eauto|].
  destruct (known_columns patch) eqn:Hcols; [|left; eauto].
  change (appointments (received _ w)) with (appointments w).
  destruct (appointments w !! i) as [a|] eqn:Hfound; [|left; eauto].
  destruct (patched a patch) as [a'|] eqn:Hpatch; [|left; eauto].
  case_bool_decide as Hid.
  - right. exists a, a'. repeat split; try assumption. left. split; [assumption|reflexivity].
  - destruct (appointments w !! id a') eqn:Hother; [left; eauto|].
    right. exists a, a'. repeat split; try assumption. right.
    repeat split; assumption.
Qed.

Lemma update_patch_lookup (updates : gmap string jsval) (t k : string) :
  k <> "updated_at" -> update_patch updates t !! k = updates !! k.
Proof. intros Hk. unfold update_patch. now apply lookup_insert_ne. Qed.

Lemma picked_absent (o : gmap string jsval) (k : string) :
  k ∉ UpdateAppointmentSchema_keys ->
  pick UpdateAppointmentSchema_keys o !! k = None.
Proof. intros Hk. rewrite pick_lookup. now rewrite (bool_decide_eq_false_2 _ Hk). Qed.

Lemma picked_columns (o : gmap string jsval) (t : string) :
  known_columns (update_patch (pick UpdateAppointmentSchema_keys o) t) = true.
Proof.
  unfold known_columns. apply bool_decide_eq_true.
  intros k v Hk. unfold update_patch in Hk.
  apply lookup_insert_Some in Hk. destruct Hk as [[<- _] | [_ Hk]].
  - vm_compute. repeat constructor.
  - rewrite pick_lookup in Hk. case_bool_decide as Hin; [|discriminate].
    clear Hk. cbn in Hin.
    repeat (apply elem_of_cons in Hin; destruct Hin as [-> | Hin];
            [now vm_compute; repeat constructor|]).
    now apply not_elem_of_nil in Hin.
Qed.

Lemma updateAppointment_parsed {rt : Runtime} (req : Request) (w : World) :
  (exists i issues,
      UpdateAppointmentSchema_safeParse (body req) = Failure (i :: issues))
  \/ (UpdateAppointmentSchema_safeParse (body req)
      = Success (pick UpdateAppointmentSchema_keys (body req))).
Proof.
  unfold UpdateAppointmentSchema_safeParse.
  destruct (_ ++ _)%list as [|i l]; [now right | left; eauto].
Qed.

Lemma updateAppointment_Success {rt : Runtime} (req : Request) (w : World)
    (updates : gmap string jsval) :
  UpdateAppointmentSchema_safeParse (body req) = Success updates ->
  updates = pick UpdateAppointmentSchema_keys (body req) /\
  updateAppointment req w
  = (let '(r, w') := update_appointment (param req "id")
                                        (update_patch updates (clock w)) w in
     (match r with
      | Error e =>
          if code e =? "PGRST116"
          then respond 404 (error_body "Appointment not found.")
          else respond 400 (error_body (details e))
      | Data appointment => respond 200 (data_body appointment)
      end, w')).
Proof.
  intros Hparse. split.
  - destruct (updateAppointment_parsed req w) as [(i & issues & Hf) | Hs];
      rewrite Hparse in *; [discriminate | now injection Hs].
  - unfold updateAppointment. rewrite Hparse. run. unfold update_patch.
    destruct (update_appointment _ _ w) as [[a|e] w']; [reflexivity|].
    now destruct (code e =? "PGRST116").
Qed.

(** X13. An update never rewrites the identity of an appointment: whenever
    [PUT /appointments/:id] is answered 200, the row it returns is the stored
    row of that identifier with the same [id], [business_id] and
    [created_at], whatever keys the body carries, and with [updated_at] set
    to the time of the server; the row is stored under the identifier. *)
Theorem updateAppointment_keeps_identity (rt : Runtime) (req : Request)
    (w w' : World) (a' : Appointment) :
  updateAppointment req w = (respond 200 (data_body a'), w') ->
  exists a,
    appointments w !! param req "id" = Some a
    /\ id a' = id a /\ business_id a' = business_id a
    /\ created_at a' = created_at a /\ updated_at a' = clock w
    /\ (keyed_at (param req "id") w -> appointments w' !! param req "id" = Some a').
Proof.
  intros Hrun.
  destruct (updateAppointment_parsed req w) as [(i & issues & Hf) | Hs].
  - rewrite (updateAppointment_Failure req w i issues Hf) in Hrun. discriminate.
  - destruct (updateAppointment_Success req w _ Hs) as [_ Heq]. rewrite Heq in Hrun.
    clear Heq.
    set (patch := update_patch (pick UpdateAppointmentSchema_keys (body req)) (clock w))
      in *.
    assert (Hcols : forall a, patched a patch = Some a' ->
                              id a' = id a /\ business_id a' = business_id a
                              /\ created_at a' = created_at a
                              /\ updated_at a' = clock w).
    { intros a Hp. apply patched_columns in Hp.
      destruct Hp as (Hid & Hbiz & _ & _ & _ & _ & _ & _ & _ & Hcr & Hup).
      subst patch.
      rewrite update_patch_lookup, picked_absent in Hid, Hbiz, Hcr
        by (discriminate || (vm_compute; intros Hin; inversion Hin; subst;
                             repeat match goal with
                                    | H : _ ∈ _ |- _ => inversion H; clear H; subst
                                    end)).
      unfold update_patch in Hup. rewrite lookup_insert_eq in Hup.
      cbn in *. repeat split; congruence. }
    destruct (update_appointment_cases (param req "id") patch w)
      as [[e He] | (a & a0 & _ & _ & Hfound & Hpatch & Hcase)].
    + rewrite He in Hrun. destruct (code e =? "PGRST116"); discriminate.
    + destruct Hcase as [[Hid Hupd] | (Hid & _ & Hupd)];
        rewrite Hupd in Hrun; injection Hrun as <- <-.
      * exists a. split; [exact Hfound|].
        destruct (Hcols a Hpatch) as (H1 & H2 & H3 & H4).
        repeat split; try assumption. intros _. cbn. apply lookup_insert_eq.
      * exists a. split; [exact Hfound|].
        destruct (Hcols a Hpatch) as (H1 & H2 & H3 & H4).
        repeat split; try assumption. intros Hkeyed. exfalso. apply Hid.
        rewrite H1. now apply Hkeyed.
Qed.

Lemma updateAppointment_keeps_identity_witness :
  exists a,
    appointments salon !! A1_id = Some a
    /\ id (with_status completed (clock salon) stored) = id a
    /\ business_id (with_status completed (clock salon) stored) = business_id a
    /\ created_at (with_status completed (clock salon) stored) = created_at a.
Proof.
  destruct (updateAppointment_keeps_identity plain_runtime
              (put_request A1_id smuggled) salon
              (snd (updateAppointment (rt := plain_runtime)
                      (put_request A1_id smuggled) salon))
              (with_status completed (clock salon) stored))
    as (a & Hfound & Hid & Hbiz & Hcr & _).
  - vm_compute. reflexivity.
  - exists a. repeat split; assumption.
Defined.

Lemma patched_start (st t : string) (a : Appointment) :
  patched a (update_patch {[ "start_time" := JStr st ]} t) = Some (with_start st t a).
Proof. destruct a; vm_compute; reflexivity. Qed.

Lemma patched_no_user (t : string) (a : Appointment) :
  patched a (update_patch {[ "user_id" := JNull ]} t) = Some (without_user t a).
Proof. destruct a; vm_compute; reflexivity. Qed.

Lemma parse_start_only {rt : Runtime} (st : string) :
  datetime_ok st = true ->
  UpdateAppointmentSchema_safeParse {[ "start_time" := JStr st ]}
  = Success {[ "start_time" := JStr st ]}.
Proof.
  intros Hok. unfold UpdateAppointmentSchema_safeParse, UpdateAppointmentSchema_shape.
  change (get {[ "start_time" := JStr st ]} "service_id") with JUndefined.
  change (get {[ "start_time" := JStr st ]} "user_id") with JUndefined.
  change (get {[ "start_time" := JStr st ]} "staff_user_id") with JUndefined.
  change (get {[ "start_time" := JStr st ]} "business_customer_id") with JUndefined.
  change (get {[ "start_time" := JStr st ]} "start_time") with (JStr st).
  change (get {[ "start_time" := JStr st ]} "end_time") with JUndefined.
  change (get {[ "start_time" := JStr st ]} "status") with JUndefined.
  cbn [optional nullable string_format app]. rewrite Hok. cbn [app].
  change (pick UpdateAppointmentSchema_keys {[ "start_time" := JStr st ]})
    with ({[ "start_time" := JStr st ]} : gmap string jsval).
  reflexivity.
Qed.

Lemma parse_no_user {rt : Runtime} :
  UpdateAppointmentSchema_safeParse {[ "user_id" := JNull ]}
  = Success {[ "user_id" := JNull ]}.
Proof. reflexivity. Qed.

(** X14. A partial update is checked against the body alone, never against
    the stored row.  A body with only a (well-formed) [start_time] is
    accepted and written whatever the stored [end_time] is, and a body with
    only [user_id: null] removes the registered customer whether or not the
    row has a business-customer; each changes its one column and
    [updated_at] and nothing else. *)
Theorem partial_update_unchecked (rt : Runtime) (req : Request) (w : World)
    (a : Appointment) :
  let i := param req "id" in
  appointments w !! i = Some a -> id a = i ->
  (forall st,
      body req = {[ "start_time" := JStr st ]} -> datetime_ok st = true ->
      reports w (UpdateAppointment i (update_patch (body req) (clock w))) = None ->
      updateAppointment req w
      = (respond 200 (data_body (with_start st (clock w) a)),
         updated i (update_patch (body req) (clock w)) (with_start st (clock w) a) w))
  /\ (body req = {[ "user_id" := JNull ]} ->
      reports w (UpdateAppointment i (update_patch (body req) (clock w))) = None ->
      updateAppointment req w
      = (respond 200 (data_body (without_user (clock w) a)),
         updated i (update_patch (body req) (clock w)) (without_user (clock w) a) w)).
Proof.
  cbv zeta. intros Hfound Hid. split.
  - intros st Hbody Hok Hrep.
    assert (Hparse : UpdateAppointmentSchema_safeParse (body req) = Success (body req))
      by (rewrite Hbody; now apply parse_start_only).
    destruct (updateAppointment_Success req w _ Hparse) as [_ ->].
    rewrite (update_appointment_found _ _ a (with_start st (clock w) a) w Hrep);
      try assumption; [reflexivity | | ]; rewrite Hbody.
    + vm_compute. reflexivity.
    + apply patched_start.
  - intros Hbody Hrep.
    assert (Hparse : UpdateAppointmentSchema_safeParse (body req) = Success (body req))
      by (rewrite Hbody; apply parse_no_user).
    destruct (updateAppointment_Success req w _ Hparse) as [_ ->].
    rewrite (update_appointment_found _ _ a (without_user (clock w) a) w Hrep);
      try assumption; [reflexivity | | ]; rewrite Hbody.
    + vm_compute. reflexivity.
    + apply patched_no_user.
Qed.

Lemma partial_update_unchecked_witness :
  Supabase.end_time stored = "2024-02-15T11:00:00+00:00"
  /\ fst (updateAppointment (rt := plain_runtime) (put_request A1_id late_start) salon)
     = respond 200
         (data_body (with_start "2024-03-01T09:00:00Z" (clock salon) stored))
  /\ Supabase.business_customer_id stored = None
  /\ fst (updateAppointment (rt := plain_runtime)
            (put_request A1_id {[ "user_id" := JNull ]}) salon)
     = respond 200 (data_body (without_user (clock salon) stored)).
Proof.
  split; [reflexivity|]. split; [|split; [reflexivity|]].
  - refine (f_equal fst
              (proj1 (partial_update_unchecked plain_runtime
                        (put_request A1_id late_start) salon stored _ _)
                 "2024-03-01T09:00:00Z" _ _ _)); vm_compute; reflexivity.
  - refine (f_equal fst
              (proj2 (partial_update_unchecked plain_runtime
                        (put_request A1_id {[ "user_id" := JNull ]}) salon stored _ _)
                 _ _)); vm_compute; reflexivity.
Defined.

(** ** Rows that are not there, and rows that are not named *)

Lemma updateAppointmentStatus_run (req : Request) (w : World)
    (updateData : gmap string jsval) :
  status_updateData (body req) = inr updateData ->
  updateAppointmentStatus req w
  = (let '(r, w') := update_appointment (param req "id")
                                        (update_patch updateData (clock w)) w in
     (match r with
      | Error e =>
          if code e =? "PGRST116"
          then respond 404 (error_body "Appointment not found")
          else respond 400 (error_body (details e))
      | Data data => respond 200 (data_body data)
      end, w')).
Proof.
  intros Hdata. unfold updateAppointmentStatus. rewrite Hdata. run. unfold update_patch.
  destruct (update_appointment _ _ w) as [[a|e] w']; [reflexivity|].
  now destruct (code e =? "PGRST116").
Qed.

Lemma status_updateData_columns (o updateData : gmap string jsval) (t : string) :
  status_updateData o = inr updateData ->
  known_columns (update_patch updateData t) = true /\ updateData !! "id" = None.
Proof.
  unfold status_updateData.
  destruct (strict_eq_str (get o "action") "approve");
    [intros [= <-]; split; vm_compute; reflexivity|].
  destruct (strict_eq_str (get o "action") "cancel");
    [intros [= <-]; split; vm_compute; reflexivity|].
  destruct (strict_eq_str (get o "action") "reschedule"); [|discriminate].
  destruct (negb _ || negb _); [discriminate|].
  intros [= <-]. split; vm_compute; reflexivity.
Qed.

Lemma update_appointment_missing (i : string) (patch : gmap string jsval) (w : World) :
  reports w (UpdateAppointment i patch) = None -> known_columns patch = true ->
  appointments w !! i = None ->
  update_appointment i patch w = (Error PGRST116, received (UpdateAppointment i patch) w).
Proof.
  intros Hrep Hcols Hnone. unfold update_appointment, ask. rewrite Hrep, Hcols.
  change (appointments (received _ w)) with (appointments w). now rewrite Hnone.
Qed.

(** X15. An update of an appointment that does not exist is answered 404
    and writes nothing: [PUT /appointments/:id] with a body that the schema
    accepts answers "Appointment not found.", and [PATCH
    /appointments/:id/status] with a valid action answers "Appointment not
    found"; in both cases the one query sent is the update. *)
Theorem missing_appointment_404 (rt : Runtime) (req : Request) (w : World) :
  let i := param req "id" in
  appointments w !! i = None ->
  (forall updates,
      UpdateAppointmentSchema_safeParse (body req) = Success updates ->
      reports w (UpdateAppointment i (update_patch updates (clock w))) = None ->
      updateAppointment req w
      = (respond 404 (error_body "Appointment not found."),
         received (UpdateAppointment i (update_patch updates (clock w))) w))
  /\ (forall updateData,
         status_updateData (body req) = inr updateData ->
         reports w (UpdateAppointment i (update_patch updateData (clock w))) = None ->
         updateAppointmentStatus req w
         = (respond 404 (error_body "Appointment not found"),
            received (UpdateAppointment i (update_patch updateData (clock w))) w)).
Proof.
  cbv zeta. intros Hnone. split.
  - intros updates Hparse Hrep.
    destruct (updateAppointment_Success req w _ Hparse) as [-> ->].
    rewrite (update_appointment_missing _ _ w Hrep (picked_columns _ _) Hnone).
    reflexivity.
  - intros updateData Hdata Hrep.
    rewrite (updateAppointmentStatus_run req w _ Hdata).
    destruct (status_updateData_columns _ _ (clock w) Hdata) as [Hcols _].
    rewrite (update_appointment_missing _ _ w Hrep Hcols Hnone). reflexivity.
Qed.

Lemma missing_appointment_404_witness :
  fst (updateAppointment (rt := plain_runtime) (put_request A2_id late_start) salon)
  = respond 404 (error_body "Appointment not found.")
  /\ fst (updateAppointmentStatus
            (appointment_request PATCH ["appointments"; A2_id; "status"] A2_id
               "owner-token" {[ "action" := JStr "approve" ]}) salon)
     = respond 404 (error_body "Appointment not found").
Proof.
  split.
  - refine (f_equal fst
              (proj1 (missing_appointment_404 plain_runtime
                        (put_request A2_id late_start) salon _)
                 late_start _ _)); vm_compute; reflexivity.
  - refine (f_equal fst
              (proj2 (missing_appointment_404 plain_runtime
                        (appointment_request PATCH ["appointments"; A2_id; "status"]
                           A2_id "owner-token" {[ "action" := JStr "approve" ]})
                        salon _)
                 (<["status" := JStr "confirmed"]> ∅) _ _)); vm_compute; reflexivity.
Defined.

Lemma update_appointment_frame (i j : string) (patch : gmap string jsval) (w : World) :
  patch !! "id" = None -> keyed_at i w -> j <> i ->
  appointments (snd (update_appointment i patch w)) !! j = appointments w !! j.
Proof.
  intros Hpatch Hkeyed Hj.
  destruct (update_appointment_cases i patch w)
    as [[e ->] | (a & a' & _ & _ & Hfound & Hp & [[_ ->] | (Hid & _)])];
    [reflexivity | cbn; now apply lookup_insert_ne |].
  exfalso. apply Hid. apply patched_columns in Hp. destruct Hp as (Hp & _).
  rewrite Hpatch in Hp. cbn in Hp. injection Hp as <-. now apply Hkeyed.
Qed.

(** X16. The update endpoints and the deletion touch the row they name and
    no other: after [PUT /appointments/:id], [PATCH /appointments/:id/status]
    or [DELETE /appointments/:id], whatever the body and the answer, every
    appointment with another identifier is stored exactly as before. *)
Theorem other_appointments_untouched (rt : Runtime) (req : Request) (w : World)
    (j : string) :
  j <> param req "id" -> keyed_at (param req "id") w ->
  appointments (snd (updateAppointment req w)) !! j = appointments w !! j
  /\ appointments (snd (updateAppointmentStatus req w)) !! j = appointments w !! j
  /\ appointments (snd (deleteAppointment req w)) !! j = appointments w !! j.
Proof.
  intros Hj Hkeyed. split; [|split].
  - destruct (updateAppointment_parsed req w) as [(i & issues & Hf) | Hs].
    + now rewrite (updateAppointment_Failure req w i issues Hf).
    + destruct (updateAppointment_Success req w _ Hs) as [_ ->].
      set (patch := update_patch _ _).
      pose proof (update_appointment_frame (param req "id") j patch w) as Hframe.
      destruct (update_appointment (param req "id") patch w) as [r w'].
      cbn [snd] in *. apply Hframe; try assumption.
      subst patch. rewrite update_patch_lookup by discriminate.
      apply picked_absent. intros Hin. apply list_elem_of_In in Hin. cbn in Hin.
      intuition discriminate.
  - destruct (status_updateData (body req)) as [res | updateData] eqn:Hdata.
    + unfold updateAppointmentStatus. now rewrite Hdata.
    + rewrite (updateAppointmentStatus_run req w _ Hdata).
      set (patch := update_patch _ _).
      pose proof (update_appointment_frame (param req "id") j patch w) as Hframe.
      destruct (update_appointment (param req "id") patch w) as [r w'].
      cbn [snd] in *. apply Hframe; try assumption.
      subst patch. rewrite update_patch_lookup by discriminate.
      exact (proj2 (status_updateData_columns _ _ (clock w) Hdata)).
  - unfold deleteAppointment, delete_appointment, ask. run.
    destruct (reports w _); cbn; [reflexivity|].
    now apply lookup_delete_ne.
Qed.

Lemma other_appointments_untouched_witness :
  appointments (snd (updateAppointmentStatus approve_A1 salon)) !! A3_id = Some booked
  /\ appointments (snd (deleteAppointment (delete_request A1_id "owner-token") salon))
       !! A3_id = Some booked.
Proof.
  assert (Hkeyed : keyed_at A1_id salon).
  { intros a Ha. vm_compute in Ha. injection Ha as <-. reflexivity. }
  split.
  - rewrite (proj1 (proj2 (other_appointments_untouched plain_runtime approve_A1 salon
                             A3_id ltac:(discriminate) Hkeyed))).
    reflexivity.
  - rewrite (proj2 (proj2 (other_appointments_untouched plain_runtime
                             (delete_request A1_id "owner-token") salon
                             A3_id ltac:(discriminate) Hkeyed))).
    reflexivity.
Defined.

(** ** How the endpoints compose *)





(** X18. A deleted appointment is gone: after [DELETE /appointments/:id]
    without an error from the database no row is stored under the
    identifier, a second deletion is answered 204 again and changes nothing,
    and a status action on the identifier is answered 404. *)
Theorem deleted_is_gone (req : Request) (w : World) :
  let i := param req "id" in
  reports w (DeleteAppointment i) = None ->
  let w' := snd (deleteAppointment req w) in
  appointments w' !! i = None
  /\ fst (deleteAppointment req w') = respond 204 no_body
  /\ appointments (snd (deleteAppointment req w')) = appointments w'
  /\ (forall req2 updateData,
         param req2 "id" = i -> status_updateData (body req2) = inr updateData ->
         reports w (UpdateAppointment i (update_patch updateData (clock w))) = None ->
         fst (updateAppointmentStatus req2 w')
         = respond 404 (error_body "Appointment not found")).
Proof.
  cbv zeta. intros Hrep.
  assert (Hrun : deleteAppointment req w
                 = (respond 204 no_body,
                    with_appointments
                      (base.delete (param req "id") (appointments w))
                      (received (DeleteAppointment (param req "id")) w))).
  { unfold deleteAppointment, delete_appointment, ask. run. now rewrite Hrep. }
  rewrite Hrun. cbn [snd]. set (w' := with_appointments _ _).
  assert (Hgone : appointments w' !! param req "id" = None)
    by (cbn; apply lookup_delete_eq).
  split; [exact Hgone|].
  assert (Hrun' : deleteAppointment req w'
                  = (respond 204 no_body,
                     with_appointments
                       (base.delete (param req "id") (appointments w'))
                       (received (DeleteAppointment (param req "id")) w'))).
  { unfold deleteAppointment, delete_appointment, ask. run.
    change (reports w' ?q) with (reports w q). now rewrite Hrep. }
  rewrite Hrun'. cbn [fst snd]. split; [reflexivity|]. split.
  - change (appointments (with_appointments ?t _)) with t. now apply delete_id.
  - intros req2 updateData Hid Hdata Hupd.
    rewrite (updateAppointmentStatus_run req2 w' _ Hdata).
    destruct (status_updateData_columns _ _ (clock w') Hdata) as [Hcols _].
    rewrite (update_appointment_missing _ _ w'); [reflexivity | | exact Hcols |].
    + rewrite Hid. exact Hupd.
    + rewrite Hid. exact Hgone.
Qed.

Lemma deleted_is_gone_witness :
  appointments (snd (deleteAppointment (delete_request A1_id "owner-token") salon))
    !! A1_id = None
  /\ fst (updateAppointmentStatus approve_A1
            (snd (deleteAppointment (delete_request A1_id "owner-token") salon)))
     = respond 404 (error_body "Appointment not found").
Proof.
  pose proof (deleted_is_gone (delete_request A1_id "owner-token") salon) as Hgone.
  cbv zeta in Hgone. destruct (Hgone eq_refl) as (H1 & _ & _ & H4).
  split; [exact H1|].
  apply (H4 approve_A1 (<["status" := JStr "confirmed"]> ∅)); reflexivity.
Defined.

(** ** The keys of a body that the handlers read *)

Lemma agree_get (ks : list string) (o1 o2 : gmap string jsval) (k : string) :
  agree_on ks o1 o2 -> In k ks -> get o1 k = get o2 k.
Proof. intros Hagree Hin. unfold get. now rewrite (Hagree k Hin). Qed.

Lemma agree_pick (ks : list string) (o1 o2 : gmap string jsval) :
  agree_on ks o1 o2 -> pick ks o1 = pick ks o2.
Proof.
  intros Hagree. apply map_eq. intros k. rewrite !pick_lookup.
  case_bool_decide as Hin; [|reflexivity].
  apply Hagree. now apply list_elem_of_In.
Qed.

Ltac same_gets Hagree :=
  repeat match goal with
         | |- context [get ?o ?k] =>
             lazymatch type of Hagree with
             | agree_on _ o _ =>
                 rewrite (agree_get _ _ _ k Hagree) by (cbn; auto 10)
             end
         end.

(** X19. A handler reads its own keys of the body and no others.  Two
    requests on the same path answer alike, with the same effect, when their
    bodies agree on the seven keys of the schemas (creation and update), or
    on [action], [start_time] and [end_time] (status endpoint); for
    [approve] and [cancel] the action alone decides, and a deletion reads no
    body at all.  So a body cannot set [id], [business_id] or [created_at]. *)
Theorem handlers_read_their_keys (rt : Runtime) (r1 r2 : Request) (w : World) :
  params r1 = params r2 ->
  (agree_on UpdateAppointmentSchema_keys (body r1) (body r2) ->
   createAppointment r1 w = createAppointment r2 w
   /\ updateAppointment r1 w = updateAppointment r2 w)
  /\ (agree_on status_keys (body r1) (body r2) ->
      updateAppointmentStatus r1 w = updateAppointmentStatus r2 w)
  /\ (get (body r1) "action" = JStr "approve" \/ get (body r1) "action" = JStr "cancel" ->
      get (body r2) "action" = get (body r1) "action" ->
      updateAppointmentStatus r1 w = updateAppointmentStatus r2 w)
  /\ deleteAppointment r1 w = deleteAppointment r2 w.
Proof.
  intros Hps. split; [|split; [|split]].
  - intros Hagree. split.
    + unfold createAppointment, param, CreateAppointmentSchema_safeParse,
        CreateAppointmentSchema_issues, CreateAppointmentSchema_shape,
        CreateAppointmentSchema_value.
      rewrite Hps. same_gets Hagree. reflexivity.
    + unfold updateAppointment, param, UpdateAppointmentSchema_safeParse,
        UpdateAppointmentSchema_shape.
      rewrite Hps, (agree_pick _ _ _ Hagree). same_gets Hagree. reflexivity.
  - intros Hagree. unfold updateAppointmentStatus, param, status_updateData.
    rewrite Hps, !get_rest by discriminate. same_gets Hagree. reflexivity.
  - intros Hact Hsame. unfold updateAppointmentStatus, param.
    rewrite Hps. destruct Hact as [Hact | Hact]; rewrite Hact in Hsame.
    + now rewrite (status_updateData_approve _ Hact), (status_updateData_approve _ Hsame).
    + now rewrite (status_updateData_cancel _ Hact), (status_updateData_cancel _ Hsame).
  - unfold deleteAppointment, param. now rewrite Hps.
Qed.

Lemma handlers_read_their_keys_witness :
  updateAppointment (rt := plain_runtime) (put_request A1_id smuggled) salon
  = updateAppointment (rt := plain_runtime)
      (put_request A1_id completed_only) salon
  /\ updateAppointmentStatus (approve_A1_with new_window) salon
     = updateAppointmentStatus approve_A1 salon.
Proof.
  split.
  - refine (proj2 (proj1 (handlers_read_their_keys plain_runtime
                            (put_request A1_id smuggled)
                            (put_request A1_id completed_only)
                            salon eq_refl) _)).
    intros k Hin. cbn in Hin.
    repeat (destruct Hin as [<- | Hin]; [vm_compute; reflexivity|]). destruct Hin.
  - apply (proj1 (proj2 (proj2 (handlers_read_their_keys plain_runtime
                    (approve_A1_with new_window)
                    approve_A1 salon eq_refl)))); [left|]; reflexivity.
Defined.

(** ** Creation and the rows already stored *)

Lemma insert_appointment_keeps (payload : gmap string jsval) (w : World)
    (j : string) (a : Appointment) :
  appointments w !! j = Some a ->
  appointments (snd (insert_appointment payload w)) !! j = Some a.
Proof.
  intros Hj. unfold insert_appointment, ask.
  destruct (reports w _); [exact Hj|].
  destruct (known_columns payload); [|exact Hj].
  destruct (inserted _ payload) as [a0|]; [|exact Hj].
  change (appointments (received _ w)) with (appointments w).
  destruct (appointments w !! id a0) eqn:Hfresh; [exact Hj|].
  cbn. rewrite lookup_insert_ne; [exact Hj|].
  intros <-. rewrite Hfresh in Hj. discriminate.
Qed.

Lemma createAppointment_parsed_keeps (businessId : string) (data : CreateData)
    (w : World) (j : string) (a : Appointment) :
  appointments w !! j = Some a ->
  appointments (snd (createAppointment_parsed businessId data w)) !! j = Some a.
Proof.
  intros Hj. rewrite createAppointment_parsed_run. cbv zeta.
  assert (Hlooked : forall ref q v, appointments (looked_up ref q v) = appointments v).
  { intros ref q v. unfold looked_up. now destruct (given ref). }
  destruct (negb (business_ok w businessId)); [exact Hj|].
  destruct (negb (service_ok w (service_id data) businessId)); [exact Hj|].
  destruct (negb (from_option (profile_ok w) true (given (user_id data))));
    [cbn [snd]; now rewrite Hlooked|].
  destruct (negb (from_option (fun c => customer_ok w c businessId) true
                              (given (business_customer_id data))));
    [cbn [snd]; now rewrite !Hlooked|].
  set (w4 := looked_up _ _ _).
  pose proof (insert_appointment_keeps (create_payload businessId data) w4 j a)
    as Hkeep.
  destruct (insert_appointment _ w4) as [r w5]. cbn [snd] in *. apply Hkeep.
  subst w4. now rewrite !Hlooked.
Qed.

(** X20. A creation overwrites nothing: whatever the request and its
    answer, every appointment stored before [POST
    /businesses/:businessId/appointments] is stored unchanged after it. *)
Theorem create_overwrites_nothing (rt : Runtime) (req : Request) (w : World)
    (j : string) (a : Appointment) :
  appointments w !! j = Some a ->
  appointments (snd (createAppointment req w)) !! j = Some a
  /\ (forall businessId data,
         appointments (snd (createAppointment_parsed businessId data w)) !! j = Some a).
Proof.
  intros Hj. split.
  - unfold createAppointment.
    destruct (CreateAppointmentSchema_safeParse (body req)) as [data | issues];
      [now apply createAppointment_parsed_keeps | exact Hj].
  - intros businessId data. now apply createAppointment_parsed_keeps.
Qed.

Lemma create_overwrites_nothing_witness :
  appointments (snd (createAppointment_parsed B_id both_customers salon)) !! A3_id
  = Some booked.
Proof.
  apply (proj2 (create_overwrites_nothing plain_runtime
                  (create_request B_id "owner-token" time_of_day_body) salon
                  A3_id booked eq_refl)).
Defined.

(** ** A status outside the four *)

Lemma status_issue (v : jsval) :
  v <> JUndefined -> status_or_default v = None ->
  In (Issue status_message false) (optional AppointmentStatusSchema v).
Proof.
  intros Hdef Hnone. destruct v as [| | | |s|]; try contradiction; try (now left).
  cbn in Hnone |- *. unfold AppointmentStatusSchema, enum, existsb, Status_of_string in *.
  destruct (s =? "pending"); [discriminate|].
  destruct (s =? "confirmed"); [discriminate|].
  destruct (s =? "cancelled"); [discriminate|].
  destruct (s =? "completed"); [discriminate|]. now left.
Qed.

(** X21. A [status] that is present and is not one of the four strings
    [pending], [confirmed], [cancelled], [completed] (a [null] included) is
    refused by both schemas: the creation and the update are answered 400,
    no query is sent, and the issues hold the message of the status schema. *)
Theorem unknown_status_rejected (rt : Runtime) (req : Request) (w : World) :
  get (body req) "status" <> JUndefined ->
  status_or_default (get (body req) "status") = None ->
  (exists issues,
      In (Issue status_message false) issues
      /\ createAppointment req w
         = (respond 400 (error_body (issues_message issues)), w))
  /\ (exists issues,
         In (Issue status_message false) issues
         /\ updateAppointment req w
            = (respond 400 (error_body (issues_message issues)), w)).
Proof.
  intros Hdef Hnone. pose proof (status_issue _ Hdef Hnone) as Hissue. split.
  - assert (Hin : In (Issue status_message false)
                     (CreateAppointmentSchema_issues (body req))).
    { apply shape_issues. unfold CreateAppointmentSchema_shape.
      do 6 (apply in_or_app; right). exact Hissue. }
    eexists. split; [exact Hin | exact (createAppointment_Failure req w _ Hin)].
  - unfold updateAppointment, UpdateAppointmentSchema_safeParse.
    set (issues := (_ ++ _)%list).
    assert (Hin : In (Issue status_message false) issues).
    { subst issues. apply in_or_app. left. unfold UpdateAppointmentSchema_shape.
      do 6 (apply in_or_app; right). exact Hissue. }
    exists issues. split; [exact Hin|].
    destruct issues; [destruct Hin | reflexivity].
Qed.

Lemma unknown_status_rejected_witness :
  exists issues,
    In (Issue status_message false) issues
    /\ updateAppointment (rt := plain_runtime) (put_request A1_id done_body) salon
       = (respond 400 (error_body (issues_message issues)), salon).
Proof.
  refine (proj2 (unknown_status_rejected plain_runtime
                   (put_request A1_id done_body) salon _ _)).
  - vm_compute. discriminate.
  - vm_compute. reflexivity.
Defined.

(** ** Errors of the database *)



